(** * mvfy_visual: the identity knowledge pipeline

    A shallow embedding of [mvfy/visual/func.py] and of the
    [VisualKnowledge] class of [mvfy/visual/systems/visual_knowledge.py],
    with the properties of the classification engine, the promotion
    evaluator, the frame batch processor and the deduplication sweeper.

    Python values are modelled as follows: [float] as [Q], [datetime] as a
    [Z] timestamp, [str] as [string], numpy arrays as lists (an array of
    embeddings is a list of rows), objects handed around by reference as
    cells of a heap. *)

From Stdlib Require Import QArith ZArith Bool Lia Sorted.
From stdpp Require Import base list strings gmap.

Local Open Scope nat_scope.

(** ** The Python runtime *)

Module Py.

(** The exceptions the modelled code can raise. *)
Inductive exn : Type :=
| ValueError (msg : string)
| TypeError (msg : string)
| AttributeError (attr : string)
| IndexError
| ZeroDivisionError
| SystemNotFoundError.

(** A call either returns a value or raises. *)
Inductive outcome (A : Type) : Type :=
| Return (a : A)
| Raise (e : exn).
Global Arguments Return {A} a.
Global Arguments Raise {A} e.

Definition is_return {A} (o : outcome A) : bool :=
  match o with Return _ => true | Raise _ => false end.

(** [a > b] and [a >= b] on numbers. *)
Definition gt (a b : Q) : bool := negb (Qle_bool a b).
Definition ge (a b : Q) : bool := Qle_bool b a.

(** [x % 2] for an integer [x]: Python's remainder has the sign of the
    divisor, as [Z.modulo]. *)
Definition mod2 (x : Z) : Z := (x mod 2)%Z.

End Py.
Export Py.

(** ** The numpy operations the code uses *)

Module Np.

Section Arrays.
Context {A : Type}.

(** [np.any(mask)] *)
Definition any (mask : list bool) : bool := existsb id mask.

(** [np.invert(mask)] *)
Definition invert (mask : list bool) : list bool := map negb mask.

(** [a[mask]], boolean array indexing: the mask must have the length
    of the array, or numpy raises IndexError. *)
Fixpoint select (a : list A) (mask : list bool) : list A :=
  match a, mask with
  | x :: a', b :: mask' => if b then x :: select a' mask' else select a' mask'
  | _, _ => []
  end.

Definition index_mask (a : list A) (mask : list bool) : outcome (list A) :=
  if length a =? length mask then Return (select a mask) else Raise IndexError.

(** [a[k:]] *)
Definition slice_from (k : nat) (a : list A) : list A := drop k a.

(** [a[:k]] *)
Definition slice_to (k : nat) (a : list A) : list A := take k a.

(** [a[0::2]] and [a[1::2]] *)
Fixpoint evens (a : list A) : list A :=
  match a with
  | [] => []
  | x :: a' => x :: odds a'
  end
with odds (a : list A) : list A :=
  match a with
  | [] => []
  | _ :: a' => evens a'
  end.

(** [np.append(a, [x], axis=0)] on a one-dimensional array, as the array
    of ids is. *)
Definition append (a : list A) (x : A) : list A := a ++ [x].

(** [a.shape[1]], the length of the rows of a two-dimensional array. An
    array without rows has one too, which the list of its rows does not
    show: [built] is the one the array was built with, [None] for an array
    that is not two-dimensional, as [np.array([])] is. *)
Definition shape1 (built : option nat) (a : list (list A)) : option nat :=
  match a with
  | [] => built
  | row :: _ => Some (length row)
  end.

(** [np.append(a, np.array(row).reshape(1, -1), axis=0)]: numpy raises
    ValueError unless the array is two-dimensional and the row has the
    length of its rows. *)
Definition append_row (built : option nat) (a : list (list A)) (row : list A)
  : outcome (list (list A)) :=
  match shape1 built a with
  | None => Raise (ValueError "all the input arrays must have same number of dimensions")
  | Some n =>
    if length row =? n then Return (a ++ [row])
    else Raise (ValueError
      "all the input array dimensions except for the concatenation axis must match exactly")
  end.

End Arrays.

End Np.

(** ** Entities *)

Definition Author := string.
Definition Encoding := list Q.
Definition Date := Z.

(** The [User] entity; the fields are those of the record built by
    [save_new_unknown], with the [modified_on] stamp of [evaluate_detection]. *)
Record User : Type := mkUser {
  system_id : option string;
  detection : Encoding;
  features : list string;
  author : Author;
  init_date : Date;
  last_date : Date;
  knowledge : bool;
  frequency : Q;
  modified_on : option Date
}.

Definition set_knowledge (b : bool) (u : User) : User :=
  mkUser (system_id u) (detection u) (features u) (author u) (init_date u)
         (last_date u) b (frequency u) (modified_on u).

Definition set_last_date (d : Date) (u : User) : User :=
  mkUser (system_id u) (detection u) (features u) (author u) (init_date u)
         d (knowledge u) (frequency u) (modified_on u).

Definition set_frequency (f : Q) (u : User) : User :=
  mkUser (system_id u) (detection u) (features u) (author u) (init_date u)
         (last_date u) (knowledge u) f (modified_on u).

Definition set_modified_on (d : Date) (u : User) : User :=
  mkUser (system_id u) (detection u) (features u) (author u) (init_date u)
         (last_date u) (knowledge u) (frequency u) (Some d).

(** Field-for-field equality of two user values, as [==] on the entity. *)
Definition encoding_eqb (a b : Encoding) : bool :=
  (length a =? length b) && forallb (fun p => Qeq_bool (fst p) (snd p)) (zip a b).

Definition option_Z_eqb (a b : option Z) : bool :=
  match a, b with
  | Some x, Some y => (x =? y)%Z
  | None, None => true
  | _, _ => false
  end.

Definition strings_eqb (a b : list string) : bool :=
  (length a =? length b) && forallb (fun p => String.eqb (fst p) (snd p)) (zip a b).

Definition user_eqb (u v : User) : bool :=
  bool_decide (system_id u = system_id v)
  && encoding_eqb (detection u) (detection v)
  && strings_eqb (features u) (features v)
  && String.eqb (author u) (author v)
  && (init_date u =? init_date v)%Z
  && (last_date u =? last_date v)%Z
  && Bool.eqb (knowledge u) (knowledge v)
  && Qeq_bool (frequency u) (frequency v)
  && option_Z_eqb (modified_on u) (modified_on v).

(** ** The user collection of the store *)

Module Store.

(** The filters the code passes to the store. *)
Inductive user_filter : Type :=
| BySystem (sid : option string)                     (* {"system_id": id} *)
| BySystemKnowledge (sid : option string) (k : bool) (* {"system_id": id, "knowledge": k} *)
| ByAuthor (a : Author).                           (* {"author": a} *)

Definition satisfies (f : user_filter) (u : User) : bool :=
  match f with
  | BySystem sid => bool_decide (system_id u = sid)
  | BySystemKnowledge sid k => bool_decide (system_id u = sid) && Bool.eqb (knowledge u) k
  | ByAuthor a => String.eqb (author u) a
  end.

(** The writes a collection has received. *)
Inductive write : Type :=
| Inserted (u : User)
| Updated (u : User)
| Deleted (f : user_filter).

(** The collection: its records in store-natural order and the log of
    the writes made to it. *)
Record t : Type := mk {
  users : list User;
  writes : list write
}.

(** Modelled from the spec: the use cases and the data access layer
    ([mvfy.use_cases], [mvfy.data_access]) are not part of the sources;
    section 6 gives the store capability [find(filter) -> record|none]. *)
Definition get_user (f : user_filter) (s : t) : option User :=
  List.find (satisfies f) (users s).

(** Modelled from the spec: [find(filter)] over every record. *)
Definition get_users (f : user_filter) (s : t) : list User :=
  List.filter (satisfies f) (users s).

(** Insertion into a list sorted by frequency descending; a record goes
    before the first one whose frequency is not greater, so records of
    equal frequency keep the order in which they are inserted. *)
Fixpoint insert_desc (u : User) (l : list User) : list User :=
  match l with
  | [] => [u]
  | v :: l' => if Qle_bool (frequency v) (frequency u) then u :: v :: l'
               else v :: insert_desc u l'
  end.

Definition sort_desc (l : list User) : list User := foldr insert_desc [] l.

(** Modelled from the spec: [findSorted(filter, sortKey) -> list] with the
    sort key [('frequency', DESCENDING)], ties in store-natural order
    (section 4.4). *)
Definition get_sort_users (f : user_filter) (s : t) : list User :=
  sort_desc (List.filter (satisfies f) (users s)).

(** Modelled from the spec: [insert(record) -> record|none]. *)
Definition add_user (u : User) (s : t) : t :=
  mk (users s ++ [u]) (writes s ++ [Inserted u]).

(** Modelled from the spec: [delete(filter) -> none]. *)
Definition delete_user (f : user_filter) (s : t) : t :=
  mk (List.filter (fun u => negb (satisfies f u)) (users s)) (writes s ++ [Deleted f]).

(** Modelled from the spec: [update(record) -> record]; the record of the
    same author is replaced. *)
Definition update_user (u : User) (s : t) : t :=
  mk (map (fun v => if String.eqb (author v) (author u) then u else v) (users s))
     (writes s ++ [Updated u]).

(** The number of deletions a collection has received. *)
Definition deletions (s : t) : nat :=
  length (List.filter (fun w => match w with Deleted _ => true | _ => false end) (writes s)).

End Store.

(** ** The detector *)

(** The two parallel arrays of a detector: identity ids and embeddings. *)
Record Detector : Type := mkDetector {
  authors : list Author;
  encodings : list Encoding
}.

Definition set_authors (a : list Author) (d : Detector) : Detector :=
  mkDetector a (encodings d).

Definition set_encodings (e : list Encoding) (d : Detector) : Detector :=
  mkDetector (authors d) e.

(** [detector.encodings.shape[0]] *)
Definition shape0 (d : Detector) : nat := length (encodings d).

Section Compare.

(** The similarity test of two embeddings under the detector's threshold. *)
Variable face_match : Encoding -> Encoding -> bool.

(** Modelled from the spec: [Detector.compare] is not part of the sources;
    section 6 gives [compareEmbedding(embedding, referenceSet, threshold)
    -> boolean vector], one entry per embedding of the reference set, which
    is the detector's own [encodings]. *)
Definition compare (d : Detector) (e : Encoding) : list bool :=
  map (fun k => face_match k e) (encodings d).

End Compare.

(** ** func.py: the deduplication sweep *)

Module Func.

Section Sweep.

Variable face_match : Encoding -> Encoding -> bool.

(** The state the sweep works on: the detector it was handed and the
    user collection. *)
Record state : Type := mkState {
  detector : Detector;
  db : Store.t
}.

(** The rows [[user.author, user.detection]] of the users, transposed
    by [zip] and unpacked into [authors, encodings]: the
    transposition yields one tuple per column, so two for a
    non-empty list of rows and none for an empty one, and unpacking
    into two names then raises ValueError. *)
Definition unzip_rows (users : list User) : outcome (list Author * list Encoding) :=
  match users with
  | [] => Raise (ValueError "not enough values to unpack (expected 2, got 0)")
  | _ :: _ => Return (map author users, map detection users)
  end.

(** [for author in detector.authors[comparations]: delete_user({'author': str(author)})] *)
Definition delete_authors (dels : list Author) (s : Store.t) : Store.t :=
  foldl (fun s a => Store.delete_user (Store.ByAuthor a) s) s dels.

(** One iteration of the [while] loop, test included; [continue] stands
    for the iterations that follow. [idx] is [None] once the loop has
    set it so. *)
Definition sweep_iteration
    (continue : option nat -> state -> option (state * outcome unit))
    (idx : option nat) (st : state) : option (state * outcome unit) :=
  match idx with
  | None => Some (st, Return tt)
  | Some i =>
    let d := detector st in
    if shape0 d =? 0 then Some (st, Return tt)
    else if shape0 d <=? i + 1 then continue None st
    else
      match encodings d !! i with
      | None => Some (st, Raise IndexError)
      | Some encoding =>
        let d := set_encodings (Np.slice_from (i + 1) (encodings d)) d in
        let d := set_authors (Np.slice_from (i + 1) (authors d)) d in
        let comparations := compare face_match d encoding in
        if Np.any comparations then
          match Np.index_mask (authors d) comparations with
          | Raise e => Some (mkState d (db st), Raise e)
          | Return dels =>
            let db' := delete_authors dels (db st) in
            match Np.index_mask (authors d) (Np.invert comparations) with
            | Raise e => Some (mkState d db', Raise e)
            | Return a' =>
              let d := set_authors a' d in
              match Np.index_mask (encodings d) (Np.invert comparations) with
              | Raise e => Some (mkState d db', Raise e)
              | Return e' =>
                continue (Some (i + 1)) (mkState (set_encodings e' d) db')
              end
            end
          end
        else continue (Some (i + 1)) (mkState d (db st))
      end
  end.

(** The [while] loop; [fuel] bounds the number of iterations, [None]
    is returned when it runs out. *)
Fixpoint sweep_loop (fuel : nat) (idx : option nat) (st : state)
  : option (state * outcome unit) :=
  match fuel with
  | 0 => None
  | S fuel' => sweep_iteration (sweep_loop fuel') idx st
  end.

(** [users != [] or users is not None], where [users] is [None] for
    Python's [None]. *)
Definition users_guard (users : option (list User)) : bool :=
  negb (match users with Some [] => true | _ => false end)
  || (match users with Some _ => true | None => false end).

(** The body of [remove_users_duplicate_detection] once the store has
    answered. *)
Definition sweep_users (fuel : nat) (users : option (list User)) (st : state)
  : option (state * outcome unit) :=
  if users_guard users then
    match users with
    | None => Some (st, Raise (TypeError "'NoneType' object is not iterable"))
    | Some users =>
      match unzip_rows users with
      | Raise e => Some (st, Raise e)
      | Return (a, e) =>
        let d := set_authors a (detector st) in
        let d := set_encodings e d in
        sweep_loop fuel (Some 0) (mkState d (db st))
      end
    end
  else Some (st, Return tt).

(** [remove_users_duplicate_detection(_filter, db, detector)]. An
    iteration that goes on removes at least one row of the working
    arrays, so the number of rows plus two bounds the iterations. *)
Definition remove_users_duplicate_detection
    (f : Store.user_filter) (st : state) : option (state * outcome unit) :=
  let users := Store.get_sort_users f (db st) in
  sweep_users (length users + 2) (Some users) st.

End Sweep.

End Func.

(** ** systems/visual_knowledge.py: the [VisualKnowledge] class *)

Module VisualKnowledge.

(** *** Images and frames *)

Definition Location := (Z * Z * Z * Z)%type.     (* (top, right, bottom, left) *)
Definition Color := (Z * Z * Z)%type.

(** What [cv2] has drawn on an image. *)
Inductive shape : Type :=
| Rectangle (pt1 pt2 : Z * Z) (color : Color) (thickness : Z)
| Text (text : string) (org : Z * Z).

(** An image: the frame of the source it is, and the drawings on it. *)
Record Image : Type := mkImage {
  source : nat;
  drawn : list shape
}.

(** An entry of a gathered batch: a result or, with
    [return_exceptions=True], the exception of the task. *)
Inductive frame : Type :=
| Picture (img : Image)
| Failure (e : exn).

(** What [get_encodings] yields for an image: face locations and embeddings. *)
Definition Faces := (list Location * list Encoding)%type.

(** *** The instance *)

(** A system record of the store; [None] is a null field. *)
Record System : Type := mkSystem {
  sys_id : string;
  sys_type_service : option string;
  sys_title : option string;
  sys_features : option (list string);
  sys_min_date_knowledge : option (Q * string);
  sys_min_frequency : option Q;
  sys_max_descriptor_distance : option Q;
  sys_type_system : option string;
  sys_resize_factor : option Q
}.

(** The attributes of an instance the modelled methods read or write. The
    queues are the lists of their pending items, oldest first. *)
Record t : Type := mk {
  detector_knows : Detector;
  detector_unknows : Detector;
  type_service : option string;
  max_descriptor_distance : option Q;
  min_date_knowledge : Q * string;
  min_frequency : Q;
  resize_factor : Q;
  features : list string;
  type_system : string;
  title : string;
  batch_images : Z;
  draw_label : bool;
  remove_duplicate : bool;
  frequency_save_new_unknows : Z;
  id : option string;
  new_users : list User;
  evaluate_users : list Author;
  batch_processed : Z
}.

Definition set_detector_knows (d : Detector) (s : t) : t :=
  mk d (detector_unknows s) (type_service s) (max_descriptor_distance s)
     (min_date_knowledge s) (min_frequency s) (resize_factor s) (features s)
     (type_system s) (title s) (batch_images s) (draw_label s) (remove_duplicate s)
     (frequency_save_new_unknows s) (id s) (new_users s) (evaluate_users s)
     (batch_processed s).

Definition set_detector_unknows (d : Detector) (s : t) : t :=
  mk (detector_knows s) d (type_service s) (max_descriptor_distance s)
     (min_date_knowledge s) (min_frequency s) (resize_factor s) (features s)
     (type_system s) (title s) (batch_images s) (draw_label s) (remove_duplicate s)
     (frequency_save_new_unknows s) (id s) (new_users s) (evaluate_users s)
     (batch_processed s).

Definition set_new_users (q : list User) (s : t) : t :=
  mk (detector_knows s) (detector_unknows s) (type_service s) (max_descriptor_distance s)
     (min_date_knowledge s) (min_frequency s) (resize_factor s) (features s)
     (type_system s) (title s) (batch_images s) (draw_label s) (remove_duplicate s)
     (frequency_save_new_unknows s) (id s) q (evaluate_users s)
     (batch_processed s).

Definition set_evaluate_users (q : list Author) (s : t) : t :=
  mk (detector_knows s) (detector_unknows s) (type_service s) (max_descriptor_distance s)
     (min_date_knowledge s) (min_frequency s) (resize_factor s) (features s)
     (type_system s) (title s) (batch_images s) (draw_label s) (remove_duplicate s)
     (frequency_save_new_unknows s) (id s) (new_users s) q
     (batch_processed s).

Definition set_batch_processed (n : Z) (s : t) : t :=
  mk (detector_knows s) (detector_unknows s) (type_service s) (max_descriptor_distance s)
     (min_date_knowledge s) (min_frequency s) (resize_factor s) (features s)
     (type_system s) (title s) (batch_images s) (draw_label s) (remove_duplicate s)
     (frequency_save_new_unknows s) (id s) (new_users s) (evaluate_users s) n.

(** [a if a is not None else b] *)
Definition or_else {A} (a : option A) (b : A) : A :=
  match a with Some x => x | None => b end.

(** [__insert_system]: the non-null fields of the stored system replace
    those of the instance. *)
Definition __insert_system (sys : System) (s : t) : t :=
  mk (detector_knows s) (detector_unknows s)
     (match sys_type_service sys with Some x => Some x | None => type_service s end)
     (match sys_max_descriptor_distance sys with
      | Some x => Some x | None => max_descriptor_distance s end)
     (or_else (sys_min_date_knowledge sys) (min_date_knowledge s))
     (or_else (sys_min_frequency sys) (min_frequency s))
     (or_else (sys_resize_factor sys) (resize_factor s))
     (or_else (sys_features sys) (features s))
     (or_else (sys_type_system sys) (type_system s))
     (or_else (sys_title sys) (title s))
     (batch_images s) (draw_label s) (remove_duplicate s)
     (frequency_save_new_unknows s) (Some (sys_id sys)) (new_users s)
     (evaluate_users s) (batch_processed s).

(** [__post_init__]: the cadence has floor 2, the queues start empty and
    the batch counter at 0. *)
Definition __post_init__ (s : t) : t :=
  mk (detector_knows s) (detector_unknows s) (type_service s) (max_descriptor_distance s)
     (min_date_knowledge s) (min_frequency s) (resize_factor s) (features s)
     (type_system s) (title s) (batch_images s) (draw_label s) (remove_duplicate s)
     (Z.max 2 (frequency_save_new_unknows s)) None [] [] 0%Z.

(** The value of an attribute: a number, or some other object. *)
Inductive value : Type :=
| Num (q : Q)
| Obj.

(** Every name [self.<name>] resolves: the fields of the dataclass, the
    attributes set by [__post_init__] (private names are mangled with the
    class name) and the methods of the class. *)
Definition attributes (s : t) : list (string * value) :=
  [ ("detector_knows", Obj); ("detector_unknows", Obj); ("receiver", Obj);
    ("streamer", Obj); ("type_service", Obj); ("db_properties", Obj);
    ("db_name", Obj);
    ("max_descriptor_distance",
      match max_descriptor_distance s with Some q => Num q | None => Obj end);
    ("min_date_knowledge", Obj);
    ("min_frequency", Num (min_frequency s));
    ("resize_factor", Num (resize_factor s));
    ("features", Obj); ("type_system", Obj); ("title", Obj);
    ("delay", Num 30);
    ("batch_images", Num (inject_Z (batch_images s)));
    ("draw_label", Obj); ("date_format", Obj); ("cron_reload", Obj);
    ("remove_duplicate", Obj);
    ("frequency_save_new_unknows", Num (inject_Z (frequency_save_new_unknows s)));
    ("id", Obj); ("db_systems", Obj); ("db_users", Obj); ("new_users", Obj);
    ("evaluate_users", Obj); ("_VisualKnowledge__thread_lock", Obj);
    ("_thread_receiver", Obj); ("_thread_system", Obj);
    ("_thread_insert_new_users", Obj); ("_thread_evaluate_users", Obj);
    ("_VisualKnowledge__batch_processed", Num (inject_Z (batch_processed s)));
    ("_VisualKnowledge__preload", Obj); ("_VisualKnowledge__get_cron_trigger", Obj);
    ("_VisualKnowledge__insert_system", Obj); ("add_known", Obj);
    ("insert_known_users", Obj); ("insert_unknown_users", Obj); ("get_obj", Obj);
    ("start", Obj); ("evaluate_detections", Obj); ("add_new_users", Obj);
    ("save_new_unknown", Obj); ("save_evaluate_detection", Obj);
    ("draw_frame", Obj); ("detect_type_user", Obj); ("evaluate_detection", Obj) ]%string.

Definition getattr (s : t) (name : string) : outcome value :=
  match List.find (fun kv => String.eqb (fst kv) name) (attributes s) with
  | Some (_, v) => Return v
  | None => Raise (AttributeError name)
  end.

(** *** The world the methods run in *)

(** A call of [logging.error]: a message, or a message with the exception
    an [except] clause caught. *)
Inductive log_entry : Type :=
| Message (msg : string)
| Caught (msg : string) (e : exn).

Record world : Type := mkWorld {
  self : t;
  heap : list User;                 (* the user objects, by reference *)
  db_users : Store.t;               (* the user collection *)
  clock_reads : nat;                (* calls of datetime.now() so far *)
  uuids_drawn : nat;                (* calls of uuid.uuid4() so far *)
  frames_read : nat;                (* calls of receiver.get() so far *)
  streamed : list (list frame);     (* the batches given to streamer.save *)
  logged : list log_entry           (* what logging.error was given *)
}.

Definition set_self (s : t) (w : world) : world :=
  mkWorld s (heap w) (db_users w) (clock_reads w) (uuids_drawn w) (frames_read w)
          (streamed w) (logged w).

Definition set_heap (h : list User) (w : world) : world :=
  mkWorld (self w) h (db_users w) (clock_reads w) (uuids_drawn w) (frames_read w)
          (streamed w) (logged w).

Definition set_db_users (d : Store.t) (w : world) : world :=
  mkWorld (self w) (heap w) d (clock_reads w) (uuids_drawn w) (frames_read w)
          (streamed w) (logged w).

Definition set_clock_reads (n : nat) (w : world) : world :=
  mkWorld (self w) (heap w) (db_users w) n (uuids_drawn w) (frames_read w)
          (streamed w) (logged w).

Definition set_uuids_drawn (n : nat) (w : world) : world :=
  mkWorld (self w) (heap w) (db_users w) (clock_reads w) n (frames_read w)
          (streamed w) (logged w).

Definition set_frames_read (n : nat) (w : world) : world :=
  mkWorld (self w) (heap w) (db_users w) (clock_reads w) (uuids_drawn w) n
          (streamed w) (logged w).

Definition set_streamed (b : list (list frame)) (w : world) : world :=
  mkWorld (self w) (heap w) (db_users w) (clock_reads w) (uuids_drawn w) (frames_read w)
          b (logged w).

Definition set_logged (l : list log_entry) (w : world) : world :=
  mkWorld (self w) (heap w) (db_users w) (clock_reads w) (uuids_drawn w) (frames_read w)
          (streamed w) l.

(** A method: a state transformer that returns or raises. *)
Definition M (A : Type) : Type := world -> world * outcome A.

Definition ret {A} (a : A) : M A := fun w => (w, Return a).

Definition raise {A} (e : exn) : M A := fun w => (w, Raise e).

Definition bind {A B} (m : M A) (k : A -> M B) : M B :=
  fun w => match m w with
           | (w', Return a) => k a w'
           | (w', Raise e) => (w', Raise e)
           end.

(** [try: m except Exception as error: h error] *)
Definition try {A} (m : M A) (h : exn -> M A) : M A :=
  fun w => match m w with
           | (w', Return a) => (w', Return a)
           | (w', Raise e) => h e w'
           end.

Definition lift {A} (o : outcome A) : M A := fun w => (w, o).

Definition get : M world := fun w => (w, Return w).

Definition modify (f : world -> world) : M unit := fun w => (f w, Return tt).

Definition modify_self (f : t -> t) : M unit :=
  modify (fun w => set_self (f (self w)) w).

(** [logging.error(...)] *)
Definition log_error (e : log_entry) : M unit :=
  modify (fun w => set_logged (logged w ++ [e]) w).

Declare Scope py_scope.
Delimit Scope py_scope with py.
Notation "x <- c ;; k" := (bind c (fun x => k))
  (at level 100, c at next level, k at level 200, only parsing) : py_scope.
Notation "c ;; k" := (bind c (fun _ => k))
  (at level 100, k at level 200, only parsing) : py_scope.
Local Open Scope py_scope.

(** *** The methods *)

Section Methods.

(** What the sources do not hold is taken as given: the detector's
    similarity test and its [get_encodings], the helpers
    [get_date_diff_so_far] and [frequency] of [mvfy.utils.index], what
    [func.get_system] and [func.insert_system] answer for an instance, the
    clock, the id generator and the frame source. *)
Variable face_match : Encoding -> Encoding -> bool.
Variable get_encodings : Image -> outcome Faces.
Variable get_date_diff_so_far : Date -> string -> Q.
Variable utils_frequency : forall (total percentage value : Q) (invert : bool), Q.
Variable get_system : t -> option System.
Variable insert_system : t -> option System.
Variable clock : nat -> Date.
Variable uuid4 : nat -> string.
Variable receiver_get : nat -> Image.

(** [datetime.now()] *)
Definition now : M Date :=
  fun w => (set_clock_reads (S (clock_reads w)) w, Return (clock (clock_reads w))).

(** [str(uuid.uuid4())] *)
Definition new_uuid : M string :=
  fun w => (set_uuids_drawn (S (uuids_drawn w)) w, Return (uuid4 (uuids_drawn w))).

(** [self.receiver.get()]; every call gives a frame of its own. *)
Definition receive : M Image :=
  fun w => (set_frames_read (S (frames_read w)) w, Return (receiver_get (frames_read w))).

(** [self.streamer.save(images)] *)
Definition streamer_save (images : list frame) : M unit :=
  modify (fun w => set_streamed (streamed w ++ [images]) w).

(** **** User objects *)

(** A new object holding [u]; its reference is returned. *)
Definition alloc (u : User) : M nat :=
  fun w => (set_heap (heap w ++ [u]) w, Return (length (heap w))).

(** The object behind a reference. *)
Definition deref (r : nat) : M User :=
  fun w => match heap w !! r with
           | Some u => (w, Return u)
           | None => (w, Raise (TypeError "no object behind the reference"))
           end.

(** [user.<field> = ...] on the object behind [r]. *)
Definition setattr (r : nat) (f : User -> User) : M unit :=
  u <- deref r ;;
  modify (fun w => set_heap (<[r := f u]> (heap w)) w).

(** [func.find_user(filter, db)]: the entity the use case builds from
    the record found, or [None]. *)
Definition find_user (f : Store.user_filter) : M (option nat) :=
  w <- get ;;
  match Store.get_user f (db_users w) with
  | None => ret None
  | Some u => r <- alloc u ;; ret (Some r)
  end.

(** [func.get_users(filter, db)]: [None] for an empty result. *)
Definition get_users (f : Store.user_filter) : M (option (list User)) :=
  w <- get ;;
  match Store.get_users f (db_users w) with
  | [] => ret None
  | us => ret (Some us)
  end.

(** [func.insert_user(user, db)] *)
Definition insert_user (u : User) : M unit :=
  modify (fun w => set_db_users (Store.add_user u (db_users w)) w).

(** Modelled from the spec: [func.update_user] is called by
    [evaluate_detection] and is not defined in the sources; section 6
    gives the store capability [update(record) -> record]. The record
    returned is a new object. *)
Definition update_user (u : User) : M nat :=
  modify (fun w => set_db_users (Store.update_user u (db_users w)) w) ;;
  alloc u.

(** **** evaluate_detection *)

(** What [evaluate_detection] returns: the empty dict or a user object. *)
Inductive evaluated : Type :=
| EmptyDict
| UserObject (r : nat).

(** [self.<name>] where a number is expected. *)
Definition self_number (name : string) : M Q :=
  w <- get ;;
  v <- lift (getattr (self w) name) ;;
  match v with
  | Num q => ret q
  | Obj => raise (TypeError "unsupported operand type(s)")
  end.

Definition evaluate_detection (author : Author) : M evaluated :=
  user <- find_user (Store.ByAuthor author) ;;
  match user with
  | None =>
    log_error (Message "Error user not found in BD") ;;
    ret EmptyDict
  | Some user =>
    let prev_user := user in
    w <- get ;;
    let span := fst (min_date_knowledge (self w)) in
    let reference := snd (min_date_knowledge (self w)) in
    u <- deref user ;;
    let diff_date := get_date_diff_so_far (init_date u) reference in
    (if gt diff_date span && ge (frequency u) (min_frequency (self w)) then
       setattr user (set_knowledge true)
     else if gt (get_date_diff_so_far (last_date u) reference) 0 then
       value <- self_number "frequency" ;;
       let prev_days := utils_frequency span 1 value true in
       d <- now ;;
       setattr user (set_last_date d) ;;
       setattr user (set_frequency (utils_frequency span 1 (prev_days + 1) false))
     else ret tt) ;;
    p <- deref prev_user ;;
    u <- deref user ;;
    if negb (user_eqb p u) then
      d <- now ;;
      r <- update_user (set_modified_on d u) ;;
      ret (UserObject r)
    else ret (UserObject user)
  end.

(** **** The classification of the faces of an image *)

(** [save_new_unknown(encoding, features)] *)
Definition save_new_unknown (encoding : Encoding) (feats : list string) : M unit :=
  new_author <- new_uuid ;;
  try (w <- get ;;
       d1 <- now ;;
       d2 <- now ;;
       let user := mkUser (id (self w)) encoding feats new_author d1 d2 false 0 None in
       modify_self (fun s => set_new_users (new_users s ++ [user]) s))
      (fun error => log_error (Caught "Error to insert a new user" error)).

(** [save_evaluate_detection(author)] *)
Definition save_evaluate_detection (a : Author) : M unit :=
  try (modify_self (fun s => set_evaluate_users (evaluate_users s ++ [a]) s))
      (fun error => log_error (Caught "Error to insert author for evaluate" error)).

(** [draw_frame(image, name, location, color)] *)
Definition draw_frame (s : t) (image : Image) (name : string)
    (location : Location) (color : Color) : Image :=
  let '(top, rgt, bottom, lft) := location in
  let image := mkImage (source image)
                       (drawn image ++ [Rectangle (lft, top) (rgt, bottom) color 1]) in
  if draw_label s then
    mkImage (source image)
            (drawn image
             ++ [Rectangle (lft, bottom) (rgt, bottom + 20)%Z color (-1);
                 Text name (lft + 10, bottom + 18)%Z])
  else image.

Definition known_color : Color := (0, 128, 0)%Z.
Definition unknown_color : Color := (0, 0, 255)%Z.

(** The body of the [for] loop of [detect_type_user], for one face. *)
Definition detect_face (img : Image) (face : Location * Encoding) : M Image :=
  let '(face_location, face_encoding) := face in
  w <- get ;;
  let known_comparations := compare face_match (detector_knows (self w)) face_encoding in
  if Np.any known_comparations then
    ret (draw_frame (self w) img "conocido" face_location known_color)
  else
    w <- get ;;
    let batch := batch_processed (self w) in
    (if (frequency_save_new_unknows (self w) =? 0)%Z then raise ZeroDivisionError
     else if (batch mod frequency_save_new_unknows (self w) =? 0)%Z then
       w <- get ;;
       let unknown_comparations :=
         compare face_match (detector_unknows (self w)) face_encoding in
       if Np.any unknown_comparations then
         let previous_authors :=
           Np.slice_to (length unknown_comparations)
                       (authors (detector_unknows (self w))) in
         matched <- lift (Np.index_mask previous_authors unknown_comparations) ;;
         match matched with
         | [] => raise IndexError
         | a :: _ => save_evaluate_detection a
         end
       else save_new_unknown face_encoding []
     else ret tt) ;;
    w <- get ;;
    ret (draw_frame (self w) img "desconocido" face_location unknown_color).

Fixpoint detect_faces (img : Image) (faces : list (Location * Encoding)) : M Image :=
  match faces with
  | [] => ret img
  | face :: faces' => img' <- detect_face img face ;; detect_faces img' faces'
  end.

(** [detect_type_user(img, face_properties)]; the second argument is
    what the task of [get_encodings] gave, an exception included. *)
Definition detect_type_user (img : Image) (face_properties : outcome Faces) : M Image :=
  match face_properties with
  | Raise _ => raise (TypeError "argument after * must be an iterable")
  | Return (locations, encs) => detect_faces img (zip locations encs)
  end.

(** **** The two queue consumers *)

(** [encodings.shape[1]] of the arrays the two injected detectors were
    built with (see [Np.shape1]): the class never takes a row off a set, so
    a set without rows has the array its detector came with. *)
Variable knows_shape1 : option nat.
Variable unknows_shape1 : option nat.

(** One iteration of the loop of [evaluate_detections]. The id is stored
    in the set before the embedding is appended. *)
Definition evaluate_detections_step : M unit :=
  try (w <- get ;;
       match evaluate_users (self w) with
       | [] => ret tt
       | a :: rest =>
         modify_self (set_evaluate_users rest) ;;
         user_evaludated <- evaluate_detection a ;;
         match user_evaludated with
         | EmptyDict => raise (AttributeError "knowledge")
         | UserObject r =>
           u <- deref r ;;
           if knowledge u then
             modify_self (fun s =>
               set_detector_knows
                 (set_authors (Np.append (authors (detector_knows s)) (author u))
                              (detector_knows s)) s) ;;
             w <- get ;;
             rows <- lift (Np.append_row knows_shape1
                             (encodings (detector_knows (self w))) (detection u)) ;;
             modify_self (fun s =>
               set_detector_knows (set_encodings rows (detector_knows s)) s)
           else ret tt
         end
       end)
      (fun error => log_error (Caught "error evaluating user" error)).

(** One iteration of the loop of [add_new_users]. The id is stored in the
    set before the embedding is appended. *)
Definition add_new_users_step : M unit :=
  try (w <- get ;;
       match new_users (self w) with
       | [] => ret tt
       | new_user :: rest =>
         modify_self (set_new_users rest) ;;
         insert_user new_user ;;
         modify_self (fun s =>
           set_detector_unknows
             (set_authors (Np.append (authors (detector_unknows s)) (author new_user))
                          (detector_unknows s)) s) ;;
         w <- get ;;
         rows <- lift (Np.append_row unknows_shape1
                         (encodings (detector_unknows (self w))) (detection new_user)) ;;
         modify_self (fun s =>
           set_detector_unknows (set_encodings rows (detector_unknows s)) s)
       end)
      (fun error => log_error (Caught "error inserting new user" error)).

(** **** Loading *)

Definition insert_known_users : M unit :=
  try (w <- get ;;
       users <- get_users (Store.BySystemKnowledge (id (self w)) true) ;;
       match users with
       | None => ret tt
       | Some users =>
         cols <- lift (Func.unzip_rows users) ;;
         modify_self (fun s =>
           set_detector_knows (set_authors (fst cols) (detector_knows s)) s) ;;
         modify_self (fun s =>
           set_detector_knows (set_encodings (snd cols) (detector_knows s)) s)
       end)
      (fun error => log_error (Caught "Failed to insert faces of known users" error)).

Definition insert_unknown_users : M unit :=
  try (w <- get ;;
       users <- get_users (Store.BySystemKnowledge (id (self w)) false) ;;
       match users with
       | None => ret tt
       | Some users =>
         cols <- lift (Func.unzip_rows users) ;;
         modify_self (fun s =>
           set_detector_unknows (set_authors (fst cols) (detector_unknows s)) s) ;;
         modify_self (fun s =>
           set_detector_unknows (set_encodings (snd cols) (detector_unknows s)) s)
       end)
      (fun error => log_error (Caught "Failed to insert faces of unknown users" error)).

(** The sweep as [__preload] calls it, on a detector of its own. The
    sweep always ends (lemma [remove_users_duplicate_detection_ends]),
    so the case of no result does not arise. *)
Definition remove_duplicates : M unit :=
  fun w =>
    let st := Func.mkState (mkDetector [] []) (db_users w) in
    match Func.remove_users_duplicate_detection
            face_match (Store.BySystem (id (self w))) st with
    | Some (st', o) => (set_db_users (Func.db st') w, o)
    | None => (w, Return tt)
    end.

(** [__preload] *)
Definition __preload : M unit :=
  w <- get ;;
  system <- match get_system (self w) with
            | Some system => ret system
            | None =>
              match insert_system (self w) with
              | Some system => ret system
              | None => raise SystemNotFoundError
              end
            end ;;
  modify_self (__insert_system system) ;;
  w <- get ;;
  (if remove_duplicate (self w) then remove_duplicates else ret tt) ;;
  insert_known_users ;;
  insert_unknown_users.

(** **** The frame batch processor *)

(** [[self.receiver.get() for _ in range(n)]] *)
Fixpoint receive_many (n : nat) : M (list Image) :=
  match n with
  | 0 => ret []
  | S n' => img <- receive ;; imgs <- receive_many n' ;; ret (img :: imgs)
  end.

(** What a task contributes to a gathered batch: its result or, with
    [return_exceptions=True], the exception it raised. *)
Definition settle (task : M Image) : M frame :=
  fun w => match task w with
           | (w', Return img) => (w', Return (Picture img))
           | (w', Raise e) => (w', Return (Failure e))
           end.

(** [asyncio.gather] of the tasks with [return_exceptions=True]: the
    results in the order of the tasks. The tasks are run one after the
    other. *)
Fixpoint gather (tasks : list (M Image)) : M (list frame) :=
  match tasks with
  | [] => ret []
  | task :: tasks' =>
    r <- settle task ;;
    rs <- gather tasks' ;;
    ret (r :: rs)
  end.

(** The pairs of [zip(images_raw, batch_processed)], each one extending
    [all_images]. *)
Fixpoint interleave (images_raw : list Image) (batch : list frame) : list frame :=
  match images_raw, batch with
  | raw :: images_raw', processed :: batch' =>
    Picture raw :: processed :: interleave images_raw' batch'
  | _, _ => []
  end.

(** The body of the [try] of one iteration of [start]. *)
Definition process_images (images_batch : list Image) : M unit :=
  let images_to_process := Np.odds images_batch in
  let images_raw := Np.evens images_batch in
  let faces := map get_encodings images_to_process in
  batch <- gather (map (fun p => detect_type_user (fst p) (snd p))
                       (zip images_to_process faces)) ;;
  modify_self (fun s => set_batch_processed (batch_processed s + 1)%Z s) ;;
  let all_images := interleave images_raw batch in
  streamer_save all_images.

(** One iteration of the [while True] of [start]. *)
Definition start_step : M unit :=
  w <- get ;;
  images_batch <- receive_many (Z.to_nat (batch_images (self w))) ;;
  try (process_images images_batch)
      (fun error =>
         log_error (Caught "Error processing image" error) ;;
         streamer_save (map Picture images_batch)).

Fixpoint start_loop (iterations : nat) : M unit :=
  match iterations with
  | 0 => ret tt
  | S n => start_step ;; start_loop n
  end.

(** [start], followed for the given number of iterations of its loop,
    which has no exit. The reload that [async_scheduler] plans is a later
    run of [__preload] and is not followed here. *)
Definition start (iterations : nat) : M unit :=
  __preload ;;
  w <- get ;;
  (if negb (mod2 (batch_images (self w)) =? 0)%Z then
     raise (ValueError "invalid batch image size")
   else ret tt) ;;
  start_loop iterations.

End Methods.

End VisualKnowledge.

(** ** The sweep as section 4.4 of the specification words it *)

Module Spec.

Section Sweep.

Variable face_match : Encoding -> Encoding -> bool.

(** The working list holds (id, embedding) pairs. The head is taken,
    every remaining record that matches it is deleted and removed from
    the list, and the sweep goes on with the next head until the list
    is exhausted. The result is the ids deleted, in order. *)
Fixpoint sweep_from (fuel : nat) (working : list (Author * Encoding)) : list Author :=
  match fuel, working with
  | S fuel', head :: rest =>
    let matches := fun r : Author * Encoding => face_match (snd r) (snd head) in
    map fst (List.filter matches rest)
    ++ sweep_from fuel' (List.filter (fun r => negb (matches r)) rest)
  | _, _ => []
  end.

Definition sweep (users : list User) : list Author :=
  sweep_from (length users) (map (fun u => (author u, detection u)) users).

End Sweep.

End Spec.

(** ** Vocabulary of the properties *)

(** The invariant of a KnownSet or UnknownSet: as many ids as embeddings. *)
Definition aligned (d : Detector) : Prop := length (authors d) = length (encodings d).

(** The (id, embedding) row of a user, and a detector holding given rows. *)
Definition row (u : User) : Author * Encoding := (author u, detection u).

Definition detector_of (rows : list (Author * Encoding)) : Detector :=
  mkDetector (map fst rows) (map snd rows).

(** The order of a list sorted by frequency descending. *)
Definition above (u v : User) : Prop := Qle_bool (frequency v) (frequency u) = true.

(** An id is none of the ids deleted. *)
Definition absent (dels : list Author) (a : Author) : bool :=
  forallb (fun d => negb (String.eqb a d)) dels.

Section SweepRows.

Variable face_match : Encoding -> Encoding -> bool.

(** What an iteration of the loop of the sweep counts down from. *)
Definition sweep_measure (idx : option nat) (st : Func.state) : nat :=
  match idx with
  | None => 0
  | Some _ => S (shape0 (Func.detector st))
  end.

(** The ids the loop of [remove_users_duplicate_detection] deletes when
    it is at index [i] with the working rows [rows], and the rows it
    ends with (lemma [sweep_loop_rows]). *)
Fixpoint swept (fuel i : nat) (rows : list (Author * Encoding))
  : list Author * list (Author * Encoding) :=
  match fuel with
  | 0 => ([], rows)
  | S fuel' =>
    if length rows <=? i + 1 then ([], rows)
    else
      match rows !! i with
      | None => ([], rows)
      | Some head =>
        let matches := fun r : Author * Encoding => face_match (snd r) (snd head) in
        let rest := drop (i + 1) rows in
        let '(dels, rows') :=
          swept fuel' (i + 1) (List.filter (fun r => negb (matches r)) rest) in
        (map fst (List.filter matches rest) ++ dels, rows')
      end
  end.

End SweepRows.

(** ** A deployment to run the model on *)

Module Example.

(** Days elapsed since a date, on day 100. *)
Definition days_so_far (d : Date) (reference : string) : Q := inject_Z (100 - d).

(** A score as a share of the span, and back. *)
Definition share (total percentage value : Q) (invert : bool) : Q :=
  if invert then value * total / percentage else value * percentage / total.

Definition clock (n : nat) : Date := (100 + Z.of_nat n)%Z.

Definition uuid4 (n : nat) : string :=
  match n with 0 => "id-0" | 1 => "id-1" | _ => "id-n" end.

(** Two embeddings match when they are equal. *)
Definition same_face (a b : Encoding) : bool := encoding_eqb a b.

(** A frame of the source, and the faces found on it: none on the frames
    numbered a multiple of 5, one otherwise. *)
Definition frame (n : nat) : VisualKnowledge.Image := VisualKnowledge.mkImage n [].

Definition faces_of (img : VisualKnowledge.Image) : outcome VisualKnowledge.Faces :=
  if (VisualKnowledge.source img mod 5 =? 0)%nat
  then Raise (ValueError "no face")
  else Return ([(0, 10, 10, 0)%Z], [[inject_Z (Z.of_nat (VisualKnowledge.source img))]]).

Definition system : VisualKnowledge.System :=
  VisualKnowledge.mkSystem "door" None None None None None None None None.

(** An instance with a span of 7 days, a minimum frequency of 0.7 and the
    given batch size. *)
Definition instance (batch_images : Z) : VisualKnowledge.t :=
  VisualKnowledge.__post_init__
    (VisualKnowledge.mk (mkDetector [] []) (mkDetector [] []) None (Some (4 # 10))
       (7%Q, "days") (7 # 10) (25 # 100) [] "OPTIMIZED" "door" batch_images false true 2
       None [] [] 0%Z).

Definition user (a : Author) (e : Q) (first last : Date) (f : Q) : User :=
  mkUser (Some "door") [e] [] a first last false f None.

(** First seen 10 days ago, with frequency 0.8: due for promotion. *)
Definition regular : User := user "regular" 1%Q 90%Z 99%Z (8 # 10).

(** First seen 3 days ago and last seen yesterday. *)
Definition newcomer : User := user "newcomer" 2%Q 97%Z 99%Z (2 # 10).

Definition world_of (s : VisualKnowledge.t) (users : list User) : VisualKnowledge.world :=
  VisualKnowledge.mkWorld s [] (Store.mk users []) 0 0 0 [] [].

Definition world : VisualKnowledge.world := world_of (instance 20) [regular; newcomer].

(** Three records of one system: the second and the third have the same
    embedding, the first another one. *)
Definition three : list User :=
  [user "a" 1%Q 90%Z 99%Z 5%Q; user "b" 2%Q 90%Z 99%Z 3%Q; user "c" 2%Q 90%Z 99%Z 2%Q].

(** Two records of one system with the same embedding, the less
    frequent one stored first. *)
Definition pair : list User :=
  [user "lo" 1%Q 90%Z 99%Z 2%Q; user "hi" 1%Q 90%Z 99%Z 5%Q].

Definition door : Store.user_filter := Store.BySystem (Some "door").

(** The state a sweep starts in: a new detector and the given records. *)
Definition sweep_of (users : list User) : Func.state :=
  Func.mkState (mkDetector [] []) (Store.mk users []).

(** A world whose KnownSet holds the regular and whose UnknownSet holds
    the newcomer, and a face with the embedding of the regular. *)
Definition guarded : VisualKnowledge.world :=
  VisualKnowledge.mkWorld
    (VisualKnowledge.set_detector_knows (mkDetector ["regular"] [[1%Q]])
       (VisualKnowledge.set_detector_unknows (mkDetector ["newcomer"] [[2%Q]])
          (instance 20)))
    [] (Store.mk [regular; newcomer] []) 0 0 0 [] [].

Definition face : VisualKnowledge.Location * Encoding := ((0, 10, 10, 0)%Z, [1%Q]).

(** The same world with a new identity and the regular waiting in the
    two queues. *)
Definition queued : VisualKnowledge.world :=
  VisualKnowledge.set_self
    (VisualKnowledge.set_new_users [user "fresh" 3%Q 100%Z 100%Z 0%Q]
       (VisualKnowledge.set_evaluate_users ["regular"] (VisualKnowledge.self guarded)))
    guarded.

(** The system collection holds the system of the example. *)
Definition get_system (s : VisualKnowledge.t) : option VisualKnowledge.System :=
  Some system.

Definition insert_system (s : VisualKnowledge.t) : option VisualKnowledge.System := None.

End Example.

(** ** Vocabulary of the frame batch processor *)

(** What a method leaves alone when it neither pulls frames nor hands
    batches to the sink nor reconfigures the batch size. *)
Definition io_kept (w w' : VisualKnowledge.world) : Prop :=
  VisualKnowledge.batch_images (VisualKnowledge.self w')
  = VisualKnowledge.batch_images (VisualKnowledge.self w)
  /\ VisualKnowledge.streamed w' = VisualKnowledge.streamed w
  /\ VisualKnowledge.frames_read w' = VisualKnowledge.frames_read w.

Definition keeps_io {A} (m : VisualKnowledge.M A) : Prop :=
  forall w, io_kept w (fst (m w)).

(** A method that never raises. *)
Definition returns {A} (m : VisualKnowledge.M A) : Prop :=
  forall w, is_return (snd (m w)) = true.

(** A method that raises nothing but exceptions of a given kind. *)
Definition raises_only {A} (P : exn -> Prop) (m : VisualKnowledge.M A) : Prop :=
  forall w e, snd (m w) = Raise e -> P e.

(** [f] is what the analysis of [img] gives: the frame that the task of
    [detect_type_user] on [img] and its faces settles to, in some world. *)
Definition analysed
    (face_match : Encoding -> Encoding -> bool)
    (get_encodings : VisualKnowledge.Image -> outcome VisualKnowledge.Faces)
    (clock : nat -> Date) (uuid4 : nat -> string)
    (img : VisualKnowledge.Image) (f : VisualKnowledge.frame) : Prop :=
  exists w,
    snd (VisualKnowledge.settle
           (VisualKnowledge.detect_type_user face_match clock uuid4 img (get_encodings img))
           w)
    = Return f.

(** The frames the source gives from the [k]-th on. *)
Definition pulled (receiver_get : nat -> VisualKnowledge.Image) (k n : nat)
  : list VisualKnowledge.Image :=
  map receiver_get (seq k n).

(** ** func.py: the two queue helpers *)

Module Queues.

(** An [asyncio.Queue] without bound: the items waiting, oldest first, and
    the count of unfinished tasks, which [put] raises by one and
    [task_done] lowers by one. *)
Record Queue (A : Type) : Type := mkQueue {
  items : list A;
  unfinished_tasks : nat
}.
Arguments mkQueue {A} items unfinished_tasks.
Arguments items {A} q.
Arguments unfinished_tasks {A} q.

Section Operations.

Context {A : Type}.

(** [queue.put(x)] *)
Definition put (x : A) (q : Queue A) : Queue A :=
  mkQueue (items q ++ [x]) (S (unfinished_tasks q)).

(** [queue.task_done()]: ValueError when it is called more often than
    items were put. *)
Definition task_done (q : Queue A) : outcome (Queue A) :=
  match unfinished_tasks q with
  | 0 => Raise (ValueError "task_done() called too many times")
  | S n => Return (mkQueue (items q) n)
  end.

End Operations.

Section Helpers.

(** The values of the objects, and the state the callback works on. *)
Context {V State : Type}.

(** The dict [{k: v for k, v in obj.items() if k in keys}]; the keys of
    the objects are strings. *)
Definition pick (keys : list string) (obj : gmap string V) : gmap string V :=
  filter (fun kv => kv.1 ∈ keys) obj.

(** [async_queue_object_put(list, keys, queue)]: the queue it leaves, and
    whether it returned. *)
Definition async_queue_object_put
    (objects : list (gmap string V)) (keys : list string) (queue : Queue (gmap string V))
  : Queue (gmap string V) * outcome unit :=
  let queue := foldl (fun q obj => put (pick keys obj) q) queue objects in
  match task_done queue with
  | Return queue' => (queue', Return tt)
  | Raise e => (queue, Raise e)
  end.

(** The [while not queue.empty()] loop of [async_queue_object_get] over
    the items waiting: each is taken and given to the callback, whose
    exception ends the loop. The callback does not use the queue. *)
Fixpoint get_all (callback : State -> gmap string V -> State * outcome unit)
    (waiting : list (gmap string V)) (s : State)
  : list (gmap string V) * State * outcome unit :=
  match waiting with
  | [] => ([], s, Return tt)
  | res :: waiting' =>
    match callback s res with
    | (s', Return _) => get_all callback waiting' s'
    | (s', Raise e) => (waiting', s', Raise e)
    end
  end.

(** [async_queue_object_get(queue, callback, args)] *)
Definition async_queue_object_get
    (queue : Queue (gmap string V)) (callback : State -> gmap string V -> State * outcome unit)
    (s : State) : Queue (gmap string V) * State * outcome unit :=
  let '(waiting, s', o) := get_all callback (items queue) s in
  let queue := mkQueue waiting (unfinished_tasks queue) in
  match o with
  | Raise e => (queue, s', Raise e)
  | Return _ =>
    match task_done queue with
    | Return queue' => (queue', s', Return tt)
    | Raise e => (queue, s', Raise e)
    end
  end.

End Helpers.

End Queues.

(** ** mvfy/visual/visual_knowledge.py: the earlier [VisualKnowledge] class *)

Module Legacy.

(** A Python value, as far as the class looks into it: a list of strings
    for the features, a dict of numbers for the display size; [PyRef] is a
    reference to an object of another kind (a function, a detector, a
    collection handle). *)
Inductive pyvalue : Type :=
| PyNone
| PyBool (b : bool)
| PyNum (q : Q)
| PyStr (s : string)
| PyList (items : list string)
| PyDict (entries : list (string * Q))
| PyRef (r : nat).

(** The attributes of an instance: the class defines none besides its
    methods, so a name resolves when it has been assigned. *)
Abbreviation instance := (gmap string pyvalue).

Definition setattr (name : string) (v : pyvalue) (self : instance) : instance :=
  <[name := v]> self.

Definition getattr (name : string) (self : instance) : outcome pyvalue :=
  match self !! name with
  | Some v => Return v
  | None => Raise (AttributeError name)
  end.

(** The assignments [self.<name> = <value>] of a method, in order. *)
Definition assign (assignments : list (string * pyvalue)) (self : instance) : instance :=
  foldl (fun self kv => setattr (fst kv) (snd kv) self) self assignments.

(** The arguments of [__init__]. *)
Record init_args : Type := mkInit {
  arg_type_service : pyvalue;
  arg_db_properties : pyvalue;
  arg_db_name : pyvalue;
  arg_max_descriptor_distance : pyvalue;
  arg_min_date_knowledge : pyvalue;
  arg_min_frequency : pyvalue;
  arg_resize_factor : pyvalue;
  arg_features : pyvalue;
  arg_type_system : pyvalue;
  arg_title : pyvalue
}.

(** The arguments of [set_conf]. *)
Record conf_args : Type := mkConf {
  arg_receiver : pyvalue;
  arg_detector : pyvalue;
  arg_streamer : pyvalue;
  arg_stream_fps : pyvalue;
  arg_display_size : pyvalue;
  arg_date_format : pyvalue;
  arg_draw_label : pyvalue
}.

Section Methods.

(** [str(uuid.uuid4())], [const.DATE_FORMAT], [const.COLLECTIONS] and the
    constructors of the two collection handles. *)
Variable uuid4 : string.
Variable DATE_FORMAT : pyvalue.
Variable COLLECTIONS : string -> pyvalue.
Variable SystemDB : pyvalue -> pyvalue -> pyvalue -> pyvalue.
Variable UserDB : pyvalue -> pyvalue -> pyvalue -> pyvalue.

(** [__init__] *)
Definition __init__ (a : init_args) : instance :=
  assign
    [ ("id", PyStr "");
      ("type_service", arg_type_service a);
      ("title", match arg_title a with PyNone => PyStr uuid4 | title => title end);
      ("features", arg_features a);
      ("min_date_knowledge", arg_min_date_knowledge a);
      ("min_frequency", arg_min_frequency a);
      ("max_descriptor_distance", arg_max_descriptor_distance a);
      ("type_system", arg_type_system a);
      ("resize_factor", arg_resize_factor a);
      ("detector", PyNone);
      ("receiver", PyNone);
      ("streamer", PyNone);
      ("stream_fps", PyNum 30);
      ("type_model_detection", PyNone);
      ("display_size", PyDict [("width", 720%Q); ("height", 720%Q)]);
      ("matches", PyNone);
      ("interval_streaming", PyNone);
      ("execution", PyBool false);
      ("date_format", DATE_FORMAT);
      ("draw_label", PyBool true);
      ("db_systems",
        SystemDB (arg_db_properties a) (arg_db_name a) (COLLECTIONS "SYSTEMS"));
      ("db_users",
        UserDB (arg_db_properties a) (arg_db_name a) (COLLECTIONS "USERS")) ]
    ∅.

(** [v if v is not None else self.<name>] *)
Definition or_attribute (v : pyvalue) (name : string) (self : instance) : outcome pyvalue :=
  match v with
  | PyNone => getattr name self
  | _ => Return v
  end.

(** [set_conf] *)
Definition set_conf (c : conf_args) (self : instance) : outcome instance :=
  let self := assign [ ("receiver", arg_receiver c); ("detector", arg_detector c);
                       ("streamer", arg_streamer c); ("stream_fps", arg_stream_fps c) ]
                     self in
  match or_attribute (arg_display_size c) "display_size" self with
  | Raise e => Raise e
  | Return display_size =>
    let self := setattr "display_size" display_size self in
    match or_attribute (arg_date_format c) "date_format" self with
    | Raise e => Raise e
    | Return date_format =>
      let self := setattr "date_format" date_format self in
      match or_attribute (arg_draw_label c) "draw_label" self with
      | Raise e => Raise e
      | Return draw_label => Return (setattr "draw_label" draw_label self)
      end
    end
  end.

(** The entries of a dict display whose values are attributes of the
    instance, evaluated in order. *)
Fixpoint read (names : list string) (self : instance) : outcome (list (string * pyvalue)) :=
  match names with
  | [] => Return []
  | name :: names' =>
    match getattr name self with
    | Raise e => Raise e
    | Return v =>
      match read names' self with
      | Raise e => Raise e
      | Return entries => Return ((name, v) :: entries)
      end
    end
  end.

(** [get_obj] *)
Definition get_obj (self : instance) : outcome (list (string * pyvalue)) :=
  read [ "title"; "type_service"; "max_descriptor_distance"; "min_date_knowledge";
         "min_frequency"; "features"; "type_system"; "id"; "created_on"; "modified_on" ]
       self.

(** An instance as a caller has it: built, then configured any number
    of times. *)
Fixpoint configured (confs : list conf_args) (self : instance) : outcome instance :=
  match confs with
  | [] => Return self
  | c :: confs' =>
    match set_conf c self with
    | Raise e => Raise e
    | Return self' => configured confs' self'
    end
  end.

End Methods.

End Legacy.

(** ** More vocabulary *)

(** The instance with its two queues emptied. *)
Definition blank (s : VisualKnowledge.t) : VisualKnowledge.t :=
  VisualKnowledge.set_new_users [] (VisualKnowledge.set_evaluate_users [] s).

(** From [w] to [w'] nothing has changed but the clock, the id generator
    and the two queues, which have grown at the back by at most [n] entries
    in all. *)
Definition queues_grown (n : nat) (w w' : VisualKnowledge.world) : Prop :=
  blank (VisualKnowledge.self w') = blank (VisualKnowledge.self w)
  /\ VisualKnowledge.heap w' = VisualKnowledge.heap w
  /\ VisualKnowledge.db_users w' = VisualKnowledge.db_users w
  /\ VisualKnowledge.streamed w' = VisualKnowledge.streamed w
  /\ VisualKnowledge.frames_read w' = VisualKnowledge.frames_read w
  /\ VisualKnowledge.logged w' = VisualKnowledge.logged w
  /\ exists new_q eval_q,
       VisualKnowledge.new_users (VisualKnowledge.self w')
       = VisualKnowledge.new_users (VisualKnowledge.self w) ++ new_q
       /\ VisualKnowledge.evaluate_users (VisualKnowledge.self w')
          = VisualKnowledge.evaluate_users (VisualKnowledge.self w) ++ eval_q
       /\ length new_q + length eval_q <= n.

(** Whether the cadence selects the batch that is being processed. *)
Definition sampled (w : VisualKnowledge.world) : bool :=
  (VisualKnowledge.batch_processed (VisualKnowledge.self w)
   mod VisualKnowledge.frequency_save_new_unknows (VisualKnowledge.self w) =? 0)%Z.

(** What every method of the class keeps: the attributes of [__init__]
    that [set_conf] and [get_obj] read are set, [created_on] is not. *)
Definition settled (self : Legacy.instance) : Prop :=
  Forall (fun name => is_Some (self !! name))
    [ "title"; "type_service"; "max_descriptor_distance"; "min_date_knowledge";
      "min_frequency"; "features"; "type_system"; "id"; "display_size"; "date_format";
      "draw_label" ]
  /\ self !! "created_on" = None.

(** ** More data to run the model on *)

Module Sample.

(** A callback that keeps what it is given, and one that refuses a dict
    without a system. *)
Definition collect (s : list (gmap string nat)) (d : gmap string nat)
  : list (gmap string nat) * outcome unit :=
  (s ++ [d], Return tt).

Definition picky (s : list (gmap string nat)) (d : gmap string nat)
  : list (gmap string nat) * outcome unit :=
  match d !! "system" with
  | Some _ => (s ++ [d], Return tt)
  | None => (s, Raise (ValueError "no system"))
  end.

Definition camera (n : nat) : gmap string nat := {[ "system" := n ]}.

(** Two dicts waiting, with one unfinished task. *)
Definition waiting : Queues.Queue (gmap string nat) :=
  Queues.mkQueue [camera 1; camera 2] 1.

(** Two objects, of which one has a system. *)
Definition objects : list (gmap string nat) :=
  [ <[ "name" := 5 ]> (camera 1); {[ "other" := 2 ]} ].

(** A face that matches no one, and one with the embedding of the newcomer. *)
Definition stranger : VisualKnowledge.Location * Encoding := ((0, 10, 10, 0)%Z, [3%Q]).

Definition returning : VisualKnowledge.Location * Encoding := ((0, 10, 10, 0)%Z, [2%Q]).

(** The guarded world on its second batch, which the cadence of 2 does
    not select. *)
Definition second_batch : VisualKnowledge.world :=
  VisualKnowledge.set_self
    (VisualKnowledge.set_batch_processed 1 (VisualKnowledge.self Example.guarded))
    Example.guarded.

(** The guarded world with an id the store does not hold waiting for
    evaluation. *)
Definition haunted : VisualKnowledge.world :=
  VisualKnowledge.set_self
    (VisualKnowledge.set_evaluate_users ["ghost"] (VisualKnowledge.self Example.guarded))
    Example.guarded.

(** The pair, and a record of another system with the same embedding. *)
Definition elsewhere : User := mkUser (Some "yard") [1%Q] [] "far" 90%Z 99%Z false 1%Q None.

Definition mixed : list User := Example.pair ++ [elsewhere].

(** A record that is due for promotion and whose embedding has two
    components, where those of the sets of the guarded world have one. *)
Definition wide : User :=
  mkUser (Some "door") [3%Q; 4%Q] [] "wide" 90%Z 99%Z false (8 # 10) None.

(** The guarded world with the wide record on the queue of new
    identities. *)
Definition wide_queued : VisualKnowledge.world :=
  VisualKnowledge.set_self
    (VisualKnowledge.set_new_users [wide] (VisualKnowledge.self Example.guarded))
    Example.guarded.

(** The guarded world with the wide record in the store and its id
    waiting for evaluation. *)
Definition wide_due : VisualKnowledge.world :=
  VisualKnowledge.mkWorld
    (VisualKnowledge.set_evaluate_users ["wide"] (VisualKnowledge.self Example.guarded))
    [] (Store.mk [Example.regular; Example.newcomer; wide] []) 0 0 0 [] [].


(** A first start: the instance of the example on a store without users. *)
Definition first_start : VisualKnowledge.world := Example.world_of (Example.instance 20) [].

End Sample.


(** * Properties *)

(** ** Arrays *)

Section ArrayFacts.
Context {A B : Type}.

Lemma select_length_le (a : list A) (mask : list bool) :
  length (Np.select a mask) <= length a.
Proof.
  revert mask; induction a as [|x a IH]; intros [|[] mask]; simpl; try lia;
    specialize (IH mask); lia.
Qed.


Lemma index_mask_aligned (a : list A) (mask : list bool) :
  length a = length mask -> Np.index_mask a mask = Return (Np.select a mask).
Proof.
  intros H. unfold Np.index_mask. rewrite H, Nat.eqb_refl. reflexivity.
Qed.

Lemma index_mask_raises (a : list A) (mask : list bool) e :
  Np.index_mask a mask = Raise e -> e = IndexError.
Proof.
  unfold Np.index_mask. destruct (_ =? _); congruence.
Qed.


End ArrayFacts.

Lemma compare_length fm d e : length (compare fm d e) = length (encodings d).
Proof. unfold compare. apply length_map. Qed.

(** ** The sweep *)

Section SweepFacts.

Variable face_match : Encoding -> Encoding -> bool.

Lemma sweep_loop_ends fuel : forall idx st,
  sweep_measure idx st < fuel ->
  is_Some (Func.sweep_loop face_match fuel idx st).
Proof.
  induction fuel as [|fuel IH]; intros idx st Hm; [lia|].
  cbn [Func.sweep_loop]. unfold Func.sweep_iteration.
  destruct idx as [i|]; [|eauto]. simpl in Hm.
  destruct (shape0 (Func.detector st) =? 0) eqn:H0; [eauto|].
  destruct (shape0 (Func.detector st) <=? i + 1) eqn:Hle.
  { apply IH. simpl. lia. }
  apply Nat.leb_gt in Hle.
  destruct (encodings (Func.detector st) !! i) as [encoding|]; [|eauto].
  unfold shape0 in *.
  match goal with |- context [Np.any ?c] => destruct (Np.any c) end.
  - repeat match goal with
      | |- context [match Np.index_mask ?a ?m with _ => _ end] =>
          destruct (Np.index_mask a m) eqn:?; [|eauto]
      end.
    apply IH. simpl. unfold shape0. simpl.
    unfold Np.index_mask in *.
    repeat match goal with
      | H : (if ?c then _ else _) = Return _ |- _ => destruct c; [|discriminate]
      | H : Return _ = Return _ |- _ => inversion H; clear H; subst
      end.
    pose proof (select_length_le
      (Np.slice_from (i + 1) (encodings (Func.detector st)))
      (Np.invert (compare face_match
         (set_authors (Np.slice_from (i + 1) (authors (Func.detector st)))
           (set_encodings (Np.slice_from (i + 1) (encodings (Func.detector st)))
              (Func.detector st))) encoding))) as Hs.
    unfold Np.slice_from in *. rewrite length_drop in Hs. simpl in *. lia.
  - apply IH. simpl. unfold shape0, Np.slice_from. simpl. rewrite length_drop. lia.
Qed.

(** Selection by a mask computed from the rows themselves. *)
Lemma select_map_filter {A B} (f : A -> B) (p : A -> bool) (l : list A) :
  Np.select (map f l) (map p l) = map f (List.filter p l).
Proof.
  induction l as [|x l IH]; simpl; [reflexivity|].
  destruct (p x); simpl; congruence.
Qed.

Lemma invert_map {A} (p : A -> bool) (l : list A) :
  Np.invert (map p l) = map (fun x => negb (p x)) l.
Proof. unfold Np.invert. rewrite map_map. reflexivity. Qed.

Lemma any_map {A} (p : A -> bool) (l : list A) :
  Np.any (map p l) = existsb p l.
Proof.
  unfold Np.any. induction l as [|x l IH]; simpl; [reflexivity|].
  rewrite IH. reflexivity.
Qed.

Lemma filter_none {A} (p : A -> bool) (l : list A) :
  existsb p l = false ->
  List.filter p l = [] /\ List.filter (fun x => negb (p x)) l = l.
Proof.
  induction l as [|x l IH]; simpl; [auto|].
  intros H. apply orb_false_iff in H as [Hx Hl]. rewrite Hx. simpl.
  destruct (IH Hl) as [-> ->]. auto.
Qed.

Lemma compare_rows rows e :
  compare face_match (detector_of rows) e
  = map (fun r : Author * Encoding => face_match (snd r) e) rows.
Proof. unfold compare, detector_of. simpl. rewrite map_map. reflexivity. Qed.

Lemma detector_of_drop k rows :
  let d := set_encodings (Np.slice_from k (encodings (detector_of rows)))
                         (detector_of rows) in
  set_authors (Np.slice_from k (authors d)) d = detector_of (drop k rows).
Proof.
  unfold detector_of, set_authors, set_encodings, Np.slice_from. simpl.
  rewrite <- !fmap_drop. reflexivity.
Qed.

(** The loop of the sweep, on aligned arrays, deletes the ids [swept]
    computes and never raises. *)
Lemma sweep_loop_rows fuel : forall i rows db,
  length rows <= fuel ->
  Func.sweep_loop face_match (S (S fuel)) (Some i) (Func.mkState (detector_of rows) db)
  = Some (Func.mkState (detector_of (snd (swept face_match fuel i rows)))
                       (Func.delete_authors (fst (swept face_match fuel i rows)) db),
          Return tt).
Proof.
  induction fuel as [|fuel IH]; intros i rows db Hlen.
  - destruct rows; [|simpl in Hlen; lia]. reflexivity.
  - change (Func.sweep_loop face_match (S (S (S fuel))))
      with (Func.sweep_iteration face_match (Func.sweep_loop face_match (S (S fuel)))).
    unfold Func.sweep_iteration. cbn [swept Func.detector Func.db].
    replace (shape0 (detector_of rows)) with (length rows)
      by (unfold shape0, detector_of; simpl; now rewrite length_map).
    destruct (length rows =? 0) eqn:H0.
    { apply Nat.eqb_eq in H0. destruct rows; [|discriminate]. reflexivity. }
    destruct (length rows <=? i + 1) eqn:Hle; [reflexivity|].
    apply Nat.leb_gt in Hle.
    destruct (lookup_lt_is_Some_2 rows i ltac:(lia)) as [head Hhead].
    rewrite Hhead.
    replace (encodings (detector_of rows) !! i) with (Some (snd head))
      by (unfold detector_of; simpl; now rewrite list_lookup_fmap, Hhead).
    rewrite (detector_of_drop (i + 1) rows), compare_rows, any_map.
    set (rest := drop (i + 1) rows).
    assert (Hrest : length rest <= fuel).
    { subst rest. rewrite length_drop. lia. }
    destruct (existsb _ rest) eqn:Hany.
    + unfold detector_of at 1 2 3. cbn [authors encodings set_authors set_encodings].
      rewrite invert_map.
      rewrite !index_mask_aligned by (rewrite !length_map; reflexivity).
      rewrite !select_map_filter.
      change (set_encodings (map snd ?l) (set_authors (map fst ?l) _))
        with (detector_of l).
      rewrite IH
        by (etransitivity; [apply List.filter_length_le|exact Hrest]).
      destruct (swept face_match fuel (i + 1) _) as [dels rows'] eqn:Hs.
      cbn [fst snd]. unfold Func.delete_authors. rewrite foldl_app. reflexivity.
    + destruct (filter_none _ rest Hany) as [Hnone Hall].
      cbv beta in Hnone, Hall.
      rewrite IH by exact Hrest. rewrite Hnone, Hall.
      destruct (swept face_match fuel (i + 1) rest) as [dels rows'] eqn:Hs.
      reflexivity.
Qed.

(** *** Running the sweep again *)

Lemma absent_iff dels a : absent dels a = true <-> ~ In a dels.
Proof.
  unfold absent. rewrite forallb_forall. split.
  - intros H Hin. specialize (H a Hin). rewrite String.eqb_refl in H. discriminate.
  - intros H d Hd. destruct (String.eqb_spec a d); [subst; contradiction|reflexivity].
Qed.

Lemma absent_app d1 d2 a : absent (d1 ++ d2) a = absent d1 a && absent d2 a.
Proof. unfold absent. apply forallb_app. Qed.

Lemma filter_and {A} (p q : A -> bool) (l : list A) :
  List.filter (fun x => p x && q x) l = List.filter q (List.filter p l).
Proof.
  induction l as [|x l IH]; simpl; [reflexivity|].
  destruct (p x); simpl; [destruct (q x)|]; congruence.
Qed.

Lemma filter_all {A} (p : A -> bool) (l : list A) :
  (forall x, In x l -> p x = true) -> List.filter p l = l.
Proof.
  induction l as [|x l IH]; simpl; intros H; [reflexivity|].
  rewrite (H x) by auto. f_equal. auto.
Qed.

Lemma filter_nothing {A} (p : A -> bool) (l : list A) :
  (forall x, In x l -> p x = false) -> List.filter p l = [].
Proof.
  induction l as [|x l IH]; simpl; intros H; [reflexivity|].
  rewrite (H x) by auto. auto.
Qed.

Lemma in_drop {A} (x : A) k (l : list A) : In x (drop k l) -> In x l.
Proof.
  intros H. rewrite <- (take_drop k l). apply in_or_app. auto.
Qed.

Lemma NoDup_fst_inj {A B} (l : list (A * B)) r r' :
  NoDup (map fst l) -> In r l -> In r' l -> fst r = fst r' -> r = r'.
Proof.
  induction l as [|x l IH]; simpl; [contradiction|].
  intros Hnd [->|Hr] [->|Hr'] Heq; inversion Hnd as [|? ? Hx Hl]; subst; auto.
  - exfalso. apply Hx. rewrite Heq. apply list_elem_of_In, in_map. exact Hr'.
  - exfalso. apply Hx. rewrite <- Heq. apply list_elem_of_In, in_map. exact Hr.
Qed.

Lemma NoDup_fst_filter {A B} (p : A * B -> bool) (l : list (A * B)) :
  NoDup (map fst l) -> NoDup (map fst (List.filter p l)).
Proof.
  induction l as [|x l IH]; simpl; intros Hnd; [constructor|].
  inversion Hnd as [|? ? Hx Hl]; subst.
  destruct (p x); simpl; auto. constructor; auto.
  intros Hin. apply Hx. apply list_elem_of_In in Hin.
  apply in_map_iff in Hin as (y & Hy & Hin).
  apply filter_In in Hin as [Hin _]. rewrite <- Hy.
  apply list_elem_of_In, in_map. exact Hin.
Qed.

Lemma NoDup_fst_split {A B} k (l : list (A * B)) :
  NoDup (map fst l) ->
  NoDup (map fst (drop k l))
  /\ forall r r', In r (take k l) -> In r' (drop k l) -> fst r <> fst r'.
Proof.
  intros Hnd. rewrite <- (take_drop k l), map_app in Hnd.
  apply NoDup_app in Hnd as (_ & Hdis & Hd). split; [exact Hd|].
  intros r r' Hr Hr' Heq. apply (Hdis (fst r)).
  - apply list_elem_of_In, in_map, Hr.
  - rewrite Heq. apply list_elem_of_In, in_map, Hr'.
Qed.

(** Every id the loop deletes is the id of a row after the head. *)
Lemma swept_deletes_later fuel : forall i rows a,
  In a (fst (swept face_match fuel i rows)) ->
  exists r, In r (drop (i + 1) rows) /\ fst r = a.
Proof.
  induction fuel as [|fuel IH]; intros i rows a; cbn [swept]; [simpl; contradiction|].
  destruct (length rows <=? i + 1); [simpl; contradiction|].
  destruct (rows !! i) as [head|]; [|simpl; contradiction].
  match goal with |- context [swept face_match fuel (i + 1) ?l] =>
    specialize (IH (i + 1) l a); destruct (swept face_match fuel (i + 1) l) as [dels rows']
  end.
  cbn [fst] in *. intros Hin. apply in_app_or in Hin as [Hin|Hin].
  - apply in_map_iff in Hin as (r & Hr & Hin).
    apply filter_In in Hin as [Hin _]. eauto.
  - destruct (IH Hin) as (r & Hr & Ha).
    apply in_drop, filter_In in Hr as [Hr _]. eauto.
Qed.

(** On the rows that a first run leaves, the loop deletes nothing. *)
Lemma swept_again fuel : forall fuel2 i rows,
  NoDup (map fst rows) ->
  length rows <= fuel ->
  fst (swept face_match fuel2 i
         (List.filter (fun r => absent (fst (swept face_match fuel i rows)) (fst r)) rows))
  = [].
Proof.
  induction fuel as [|fuel IH]; intros fuel2 i rows Hnd Hlen.
  { destruct rows; [|simpl in Hlen; lia].
    destruct fuel2; reflexivity. }
  cbn [swept].
  destruct (length rows <=? i + 1) eqn:Hle.
  { cbn [fst]. rewrite filter_all by reflexivity.
    destruct fuel2; cbn [swept]; [reflexivity|]. rewrite Hle. reflexivity. }
  apply Nat.leb_gt in Hle.
  destruct (lookup_lt_is_Some_2 rows i ltac:(lia)) as [head Hhead]. rewrite Hhead.
  set (rest := drop (i + 1) rows).
  set (rest' := List.filter (fun r : Author * Encoding =>
                               negb (face_match (snd r) (snd head))) rest).
  set (D := map fst (List.filter (fun r : Author * Encoding =>
                                    face_match (snd r) (snd head)) rest)).
  destruct (NoDup_fst_split (i + 1) rows Hnd) as [Hndrest Hdisj]. fold rest in Hndrest, Hdisj.
  assert (Hndrest' : NoDup (map fst rest')) by (apply NoDup_fst_filter, Hndrest).
  assert (Hlenrest' : length rest' <= fuel).
  { etransitivity; [apply List.filter_length_le|]. subst rest. rewrite length_drop. lia. }
  specialize (IH (pred fuel2) (i + 1) rest' Hndrest' Hlenrest').
  pose proof (swept_deletes_later fuel (i + 1) rest') as Hlater.
  destruct (swept face_match fuel (i + 1) rest') as [dels' rows'] eqn:Hs.
  cbn [fst] in *.
(* the rows up to the head stay, the rest is filtered twice *)
assert (Hsplit :
  List.filter (fun r => absent (D ++ dels') (fst r)) rows
  = take (i + 1) rows ++ List.filter (fun r => absent dels' (fst r)) rest').
{ rewrite <- (take_drop (i + 1) rows) at 1. fold rest. rewrite List.filter_app. f_equal.
  - apply filter_all. intros r Hr. apply absent_iff. intros Hin.
    apply in_app_or in Hin as [Hin|Hin].
    + apply in_map_iff in Hin as (r' & Heq & Hin).
      apply filter_In in Hin as [Hin _]. apply (Hdisj r r' Hr Hin). auto.
    + destruct (Hlater _ Hin) as (r' & Hr' & Heq).
      apply in_drop, filter_In in Hr' as [Hr' _]. apply (Hdisj r r' Hr Hr'). auto.
  - subst rest'. rewrite <- filter_and. apply List.filter_ext_in.
    intros r Hr. rewrite absent_app. f_equal.
    destruct (face_match (snd r) (snd head)) eqn:Hm; simpl.
    + apply not_true_is_false. rewrite absent_iff. intros H. apply H.
      apply in_map. apply filter_In. auto.
    + apply absent_iff. intros Hin. apply in_map_iff in Hin as (r' & Heq & Hin).
      apply filter_In in Hin as [Hin Hm'].
      rewrite (NoDup_fst_inj rest r' r Hndrest Hin Hr Heq) in Hm'. congruence. }
rewrite Hsplit.
set (left' := List.filter (fun r => absent dels' (fst r)) rest') in *.
assert (Htake : length (take (i + 1) rows) = i + 1) by (rewrite length_take; lia).
destruct fuel2 as [|fuel2]; [reflexivity|]. cbn [swept].
rewrite length_app, Htake.
destruct (i + 1 + length left' <=? i + 1) eqn:Hle2; [reflexivity|].
rewrite lookup_app_l by lia. rewrite lookup_take_lt by lia. rewrite Hhead.
rewrite drop_app_length' by (symmetry; exact Htake).
assert (Hno : forall r, In r left' -> face_match (snd r) (snd head) = false).
{ intros r Hr. subst left' rest'. apply filter_In in Hr as [Hr _].
  apply filter_In in Hr as [_ Hr].
  destruct (face_match (snd r) (snd head)); [discriminate|reflexivity]. }
rewrite (filter_nothing _ left' Hno).
rewrite (filter_all (fun r => negb (face_match (snd r) (snd head))) left')
  by (intros r Hr; rewrite (Hno r Hr); reflexivity).
simpl in IH. destruct (swept face_match fuel2 (i + 1) left') as [dels2 rows2].
simpl in *. exact IH.
Qed.

End SweepFacts.

(** ** The store *)

Lemma delete_authors_users dels : forall s,
  Store.users (Func.delete_authors dels s)
  = List.filter (fun u => absent dels (author u)) (Store.users s).
Proof.
  induction dels as [|a dels IH]; intros s; simpl.
  - symmetry. apply filter_all. reflexivity.
  - unfold Func.delete_authors in *. rewrite IH. simpl.
    rewrite <- filter_and. reflexivity.
Qed.

Lemma delete_authors_writes dels : forall s,
  Store.writes (Func.delete_authors dels s)
  = Store.writes s ++ map (fun a => Store.Deleted (Store.ByAuthor a)) dels.
Proof.
  induction dels as [|a dels IH]; intros s; simpl.
  - symmetry. apply app_nil_r.
  - unfold Func.delete_authors in *. rewrite IH. simpl.
    rewrite <- app_assoc. reflexivity.
Qed.

(** *** Sorting by frequency *)

Lemma above_trans u v w : above u v -> above v w -> above u w.
Proof.
  unfold above. rewrite !Qle_bool_iff. intros H1 H2. eapply Qle_trans; eauto.
Qed.

Lemma above_total u v : Qle_bool (frequency v) (frequency u) = false -> above v u.
Proof.
  unfold above. intros H. apply Qle_bool_iff. apply Qlt_le_weak, Qnot_le_lt.
  intros Hle. apply Qle_bool_iff in Hle. congruence.
Qed.

Lemma insert_desc_in u l x : In x (Store.insert_desc u l) <-> x = u \/ In x l.
Proof.
  induction l as [|v l IH]; simpl.
  - intuition.
  - destruct (Qle_bool _ _); simpl; [intuition|]. rewrite IH. intuition.
Qed.

Lemma insert_desc_sorted u l :
  StronglySorted above l -> StronglySorted above (Store.insert_desc u l).
Proof.
  induction l as [|v l IH]; simpl; intros Hs.
  - constructor; constructor.
  - inversion Hs as [|? ? Hl Hv]; subst.
    destruct (Qle_bool (frequency v) (frequency u)) eqn:Hle.
    + constructor; [exact Hs|]. constructor; [exact Hle|].
      eapply Forall_impl; [exact Hv|]. intros w Hw. eapply above_trans; eauto.
    + constructor; [auto|]. apply Forall_forall. intros x Hx.
      apply list_elem_of_In, insert_desc_in in Hx as [->|Hx].
      * apply above_total, Hle.
      * rewrite Forall_forall in Hv. apply Hv, list_elem_of_In, Hx.
Qed.

Lemma sort_desc_sorted l : StronglySorted above (Store.sort_desc l).
Proof.
  induction l as [|u l IH]; simpl; [constructor|]. apply insert_desc_sorted, IH.
Qed.

Lemma insert_desc_first u l :
  Forall (above u) l -> Store.insert_desc u l = u :: l.
Proof.
  destruct l as [|v l]; simpl; [reflexivity|]. intros H.
  inversion H as [|? ? Hv _]; subst. unfold above in Hv. rewrite Hv. reflexivity.
Qed.

Lemma insert_desc_filter (p : User -> bool) u l :
  StronglySorted above l ->
  List.filter p (Store.insert_desc u l)
  = if p u then Store.insert_desc u (List.filter p l) else List.filter p l.
Proof.
  induction l as [|v l IH]; simpl; intros Hs.
  - destruct (p u); reflexivity.
  - inversion Hs as [|? ? Hl Hv]; subst.
    destruct (Qle_bool (frequency v) (frequency u)) eqn:Hle; simpl.
    + destruct (p u) eqn:Hpu; [|reflexivity].
      symmetry. apply insert_desc_first.
      assert (Hall : Forall (above u) (v :: l)).
      { constructor; [exact Hle|]. eapply Forall_impl; [exact Hv|].
        intros w Hw. eapply above_trans; eauto. }
      apply Forall_forall. intros x Hx. rewrite Forall_forall in Hall. apply Hall.
      apply list_elem_of_In. apply list_elem_of_In in Hx.
      change (In x (List.filter p (v :: l))) in Hx. apply filter_In in Hx. tauto.
    + rewrite (IH Hl). destruct (p v), (p u); simpl; try rewrite Hle; reflexivity.
Qed.

Lemma sort_desc_filter (p : User -> bool) l :
  List.filter p (Store.sort_desc l) = Store.sort_desc (List.filter p l).
Proof.
  induction l as [|u l IH]; simpl; [reflexivity|].
  rewrite insert_desc_filter by apply sort_desc_sorted.
  rewrite IH. destruct (p u); reflexivity.
Qed.

Lemma insert_desc_perm u l : Store.insert_desc u l ≡ₚ u :: l.
Proof.
  induction l as [|v l IH]; simpl; [reflexivity|].
  destruct (Qle_bool _ _); [reflexivity|]. rewrite IH. apply Permutation_swap.
Qed.

Lemma sort_desc_perm l : Store.sort_desc l ≡ₚ l.
Proof.
  induction l as [|u l IH]; simpl; [reflexivity|].
  rewrite insert_desc_perm, IH. reflexivity.
Qed.

Lemma NoDup_map_filter {A B} (f : A -> B) (p : A -> bool) (l : list A) :
  NoDup (map f l) -> NoDup (map f (List.filter p l)).
Proof.
  induction l as [|x l IH]; simpl; intros Hnd; [constructor|].
  inversion Hnd as [|? ? Hx Hl]; subst.
  destruct (p x); simpl; auto. constructor; auto.
  intros Hin. apply Hx. apply list_elem_of_In in Hin.
  apply in_map_iff in Hin as (y & Hy & Hin).
  apply filter_In in Hin as [Hin _]. rewrite <- Hy.
  apply list_elem_of_In, in_map. exact Hin.
Qed.

Lemma get_sort_users_NoDup f s :
  NoDup (map author (Store.users s)) ->
  NoDup (map author (Store.get_sort_users f s)).
Proof.
  intros Hnd. unfold Store.get_sort_users.
  rewrite sort_desc_perm. apply NoDup_map_filter, Hnd.
Qed.

(** ** The sweep, from the store to the store *)

Section SweepRuns.

Variable face_match : Encoding -> Encoding -> bool.

Lemma detector_of_users d (users : list User) :
  set_encodings (map detection users) (set_authors (map author users) d)
  = detector_of (map row users).
Proof.
  unfold detector_of, set_encodings, set_authors, row. simpl.
  rewrite !map_map. reflexivity.
Qed.

(** On a query that yields records, the sweep returns, and what it
    deletes is what [swept] computes on the rows of the records. *)
Lemma sweep_runs f st :
  let users := Store.get_sort_users f (Func.db st) in
  let run := swept face_match (length users) 0 (map row users) in
  users <> [] ->
  Func.remove_users_duplicate_detection face_match f st
  = Some (Func.mkState (detector_of (snd run)) (Func.delete_authors (fst run) (Func.db st)),
          Return tt).
Proof.
  intros users run Hne. unfold Func.remove_users_duplicate_detection.
  fold users. unfold Func.sweep_users.
  destruct users as [|u users'] eqn:Hu; [congruence|].
  cbn [Func.users_guard negb orb Func.unzip_rows].
  rewrite detector_of_users. rewrite Nat.add_comm. cbn [Nat.add].
  rewrite sweep_loop_rows by (rewrite length_map; reflexivity).
  cbn [Func.detector Func.db]. reflexivity.
Qed.

Lemma sweep_raises_on_nothing f st :
  Store.get_sort_users f (Func.db st) = [] ->
  Func.remove_users_duplicate_detection face_match f st
  = Some (st, Raise (ValueError "not enough values to unpack (expected 2, got 0)")).
Proof.
  intros H. unfold Func.remove_users_duplicate_detection. rewrite H. reflexivity.
Qed.

Lemma remove_users_duplicate_detection_ends f st :
  is_Some (Func.remove_users_duplicate_detection face_match f st).
Proof.
  destruct (Store.get_sort_users f (Func.db st)) eqn:Hu.
  - rewrite sweep_raises_on_nothing by exact Hu. eauto.
  - rewrite sweep_runs by (rewrite Hu; discriminate). eauto.
Qed.

Lemma get_sort_users_after f s dels :
  Store.get_sort_users f (Func.delete_authors dels s)
  = List.filter (fun u => absent dels (author u)) (Store.get_sort_users f s).
Proof.
  unfold Store.get_sort_users. rewrite delete_authors_users.
  rewrite sort_desc_filter. f_equal.
  rewrite <- !filter_and. apply List.filter_ext. intros u. apply andb_comm.
Qed.

Lemma filter_map_row (p : Author -> bool) (users : list User) :
  map row (List.filter (fun u => p (author u)) users)
  = List.filter (fun r => p (fst r)) (map row users).
Proof.
  induction users as [|u users IH]; simpl; [reflexivity|].
  destruct (p (author u)); simpl; congruence.
Qed.

(** A second run right after a completed one deletes nothing. *)
Lemma sweep_twice f st st1 :
  NoDup (map author (Store.users (Func.db st))) ->
  Func.remove_users_duplicate_detection face_match f st = Some (st1, Return tt) ->
  exists st2,
    Func.remove_users_duplicate_detection face_match f st1 = Some (st2, Return tt)
    /\ Func.db st2 = Func.db st1.
Proof.
  intros Hnd Hrun.
  destruct (Store.get_sort_users f (Func.db st)) as [|u users] eqn:Hu.
  { rewrite sweep_raises_on_nothing in Hrun by exact Hu. discriminate. }
  rewrite sweep_runs in Hrun by (rewrite Hu; discriminate).
  rewrite Hu in Hrun.
  set (V := u :: users) in *.
  set (dels := fst (swept face_match (length V) 0 (map row V))) in *.
  inversion Hrun as [Hst1]. clear Hrun.
  assert (HndV : NoDup (map fst (map row V))).
  { rewrite map_map. change (NoDup (map author V)). subst V. rewrite <- Hu.
    apply get_sort_users_NoDup, Hnd. }
  (* the head of the first run is still there *)
  assert (Hhead : absent dels (author u) = true).
  { apply absent_iff. intros Hin.
    destruct (swept_deletes_later face_match _ _ _ _ Hin) as (r & Hr & Heq).
    destruct (NoDup_fst_split 1 (map row V) HndV) as [_ Hdisj].
    apply (Hdisj (row u) r); [left; reflexivity|exact Hr|]. symmetry. exact Heq. }
  assert (Hu2 : Store.get_sort_users f (Func.delete_authors dels (Func.db st))
                = List.filter (fun u => absent dels (author u)) V).
  { rewrite get_sort_users_after, Hu. reflexivity. }
  eexists. split.
  - rewrite sweep_runs; cbn [Func.db]; rewrite Hu2; [reflexivity|].
    simpl. rewrite Hhead. discriminate.
  - cbn [Func.db]. rewrite filter_map_row.
    subst dels. rewrite swept_again by (rewrite ?length_map; auto). reflexivity.
Qed.




End SweepRuns.

(** ** Numbers and user values *)

Lemma gt_iff a b : gt a b = true <-> (b < a)%Q.
Proof.
  unfold gt. rewrite negb_true_iff. split.
  - intros H. apply Qnot_le_lt. intros Hle. apply Qle_bool_iff in Hle. congruence.
  - intros H. apply not_true_is_false. intros Hle. apply Qle_bool_iff in Hle.
    apply (Qlt_not_le _ _ H Hle).
Qed.

Lemma ge_iff a b : ge a b = true <-> (b <= a)%Q.
Proof. unfold ge. apply Qle_bool_iff. Qed.

Lemma encoding_eqb_refl e : encoding_eqb e e = true.
Proof.
  unfold encoding_eqb. rewrite Nat.eqb_refl. simpl.
  induction e as [|x e IH]; simpl; [reflexivity|].
  rewrite IH, andb_true_r. apply Qeq_bool_iff. reflexivity.
Qed.

Lemma strings_eqb_refl l : strings_eqb l l = true.
Proof.
  unfold strings_eqb. rewrite Nat.eqb_refl. simpl.
  induction l as [|x l IH]; simpl; [reflexivity|].
  rewrite IH, andb_true_r. apply String.eqb_refl.
Qed.

(** An object equals itself, field for field. *)
Lemma user_eqb_refl u : user_eqb u u = true.
Proof.
  unfold user_eqb.
  rewrite bool_decide_eq_true_2 by reflexivity.
  rewrite encoding_eqb_refl, strings_eqb_refl, String.eqb_refl, !Z.eqb_refl.
  rewrite Bool.eqb_reflx.
  replace (Qeq_bool (frequency u) (frequency u)) with true
    by (symmetry; apply Qeq_bool_iff; reflexivity).
  destruct (modified_on u); simpl; [apply Z.eqb_refl|reflexivity].
Qed.

(** ** The promotion evaluator *)

Module VK := VisualKnowledge.

(** [VisualKnowledge] has no attribute [frequency]. *)
Lemma getattr_frequency s :
  VK.getattr s "frequency" = Raise (AttributeError "frequency").
Proof. reflexivity. Qed.

(** Reading the object that was allocated last. *)
Ltac heap_reads :=
  repeat (cbn [VK.heap VK.set_heap];
          rewrite lookup_app_r by lia; rewrite Nat.sub_diag;
          cbn [lookup list_lookup]).

Section Evaluation.

Variable get_date_diff_so_far : Date -> string -> Q.
Variable utils_frequency : Q -> Q -> Q -> bool -> Q.
Variable clock : nat -> Date.

Local Abbreviation evaluate_detection :=
  (VK.evaluate_detection get_date_diff_so_far utils_frequency clock).

(** What [evaluate_detection] does, case by case. The user object is the
    cell that [find_user] has just made. *)
Lemma evaluate_detection_cases a w :
  evaluate_detection a w =
  match Store.get_user (Store.ByAuthor a) (VK.db_users w) with
  | None =>
    (VK.set_logged (VK.logged w ++ [VK.Message "Error user not found in BD"]) w,
     Return VK.EmptyDict)
  | Some u =>
    let span := fst (VK.min_date_knowledge (VK.self w)) in
    let reference := snd (VK.min_date_knowledge (VK.self w)) in
    if gt (get_date_diff_so_far (init_date u) reference) span
       && ge (frequency u) (VK.min_frequency (VK.self w)) then
      (VK.set_heap (VK.heap w ++ [set_knowledge true u]) w,
       Return (VK.UserObject (length (VK.heap w))))
    else if gt (get_date_diff_so_far (last_date u) reference) 0 then
      (VK.set_heap (VK.heap w ++ [u]) w, Raise (AttributeError "frequency"))
    else
      (VK.set_heap (VK.heap w ++ [u]) w, Return (VK.UserObject (length (VK.heap w))))
  end.
Proof.
  unfold VK.evaluate_detection, VK.find_user, VK.bind at 1 2, VK.get.
  destruct (Store.get_user _ _) as [u|]; [|reflexivity].
  unfold VK.bind at 1 2, VK.alloc, VK.ret.
  unfold VK.bind at 1, VK.get. unfold VK.bind at 1, VK.deref.
  cbn [VK.heap VK.set_heap VK.self VK.db_users].
  rewrite lookup_app_r by lia. rewrite Nat.sub_diag. cbn [lookup list_lookup].
  destruct (gt _ _ && ge _ _).
  - unfold VK.bind, VK.setattr, VK.bind, VK.deref, VK.modify.
    cbn [VK.heap VK.set_heap].
    rewrite lookup_app_r by lia. rewrite Nat.sub_diag. cbn [lookup list_lookup].
    cbn [VK.heap VK.set_heap].
    rewrite insert_app_r_alt by lia. rewrite Nat.sub_diag. cbn [insert list_insert].
    rewrite !lookup_app_r by lia. rewrite !Nat.sub_diag. cbn [lookup list_lookup].
    cbn [VK.heap VK.set_heap].
    rewrite !lookup_app_r by lia. rewrite !Nat.sub_diag. cbn [lookup list_lookup].
    rewrite user_eqb_refl. reflexivity.
  - destruct (gt _ 0).
    + unfold VK.bind, VK.self_number, VK.bind, VK.get, VK.lift.
      rewrite getattr_frequency. reflexivity.
    + unfold VK.bind, VK.ret, VK.deref. heap_reads.
      rewrite user_eqb_refl. reflexivity.
Qed.

(** The evaluation never writes to the store. *)
Lemma evaluate_detection_store a w :
  VK.db_users (fst (evaluate_detection a w)) = VK.db_users w.
Proof.
  rewrite evaluate_detection_cases.
  destruct (Store.get_user _ _); [|reflexivity].
  cbv zeta. destruct (_ && _); [reflexivity|]. destruct (gt _ 0); reflexivity.
Qed.

Lemma evaluate_detection_self a w :
  VK.self (fst (evaluate_detection a w)) = VK.self w.
Proof.
  rewrite evaluate_detection_cases.
  destruct (Store.get_user _ _); [|reflexivity].
  cbv zeta. destruct (_ && _); [reflexivity|]. destruct (gt _ 0); reflexivity.
Qed.

End Evaluation.

Section Promotion.

Variable get_date_diff_so_far : Date -> string -> Q.
Variable utils_frequency : Q -> Q -> Q -> bool -> Q.
Variable clock : nat -> Date.

Local Abbreviation evaluate_detection :=
  (VK.evaluate_detection get_date_diff_so_far utils_frequency clock).

(** C3. For an identity in Unknown state, the evaluation sets [knowledge]
    to true exactly when the time elapsed since [init_date] exceeds the
    span and the frequency is at least [min_frequency]. In that case the
    object is returned with no other field changed; in every other case
    [knowledge] stays false and no field other than [frequency] and
    [last_date] differs from the record read. *)
Theorem promotion_iff_elapsed_and_frequent (a : Author) (w : VK.world) (u : User) :
  Store.get_user (Store.ByAuthor a) (VK.db_users w) = Some u ->
  knowledge u = false ->
  let span := fst (VK.min_date_knowledge (VK.self w)) in
  let reference := snd (VK.min_date_knowledge (VK.self w)) in
  let elapsed := get_date_diff_so_far (init_date u) reference in
  let due := (span < elapsed)%Q /\ (VK.min_frequency (VK.self w) <= frequency u)%Q in
  let user := length (VK.heap w) in
  exists u',
    VK.heap (fst (evaluate_detection a w)) !! user = Some u'
    /\ (knowledge u' = true <-> due)
    /\ (due -> snd (evaluate_detection a w) = Return (VK.UserObject user)
               /\ u' = set_knowledge true u)
    /\ (~ due -> knowledge u' = false
                 /\ system_id u' = system_id u /\ detection u' = detection u
                 /\ features u' = features u /\ author u' = author u
                 /\ init_date u' = init_date u /\ modified_on u' = modified_on u).
Proof.
  intros Hu Hk span reference elapsed due user.
  rewrite evaluate_detection_cases, Hu. cbv zeta.
  fold span reference elapsed.
  assert (Hdue : gt elapsed span && ge (frequency u) (VK.min_frequency (VK.self w)) = true
                 <-> due).
  { unfold due. rewrite andb_true_iff, gt_iff, ge_iff. reflexivity. }
  destruct (gt elapsed span && ge (frequency u) (VK.min_frequency (VK.self w))).
  - exists (set_knowledge true u). cbn [fst snd VK.heap VK.set_heap].
    split; [subst user; rewrite lookup_app_r by lia; now rewrite Nat.sub_diag|].
    split; [simpl; tauto|]. split; [auto|].
    intros Hn. exfalso. apply Hn, Hdue. reflexivity.
  - assert (Hnot : ~ due) by (intros H; apply Hdue in H; discriminate).
    exists u.
    assert (Hread : forall o : outcome VK.evaluated,
              VK.heap (fst (VK.set_heap (VK.heap w ++ [u]) w, o)) !! user = Some u).
    { intros o. cbn [fst VK.heap VK.set_heap]. subst user.
      rewrite lookup_app_r by lia. now rewrite Nat.sub_diag. }
    destruct (gt _ 0); (split; [apply Hread|]);
      (split; [rewrite Hk; split; [discriminate|tauto]|]);
      (split; [tauto|]); intros _; rewrite Hk; repeat split; reflexivity.
Qed.

End Promotion.

(** C3 on the example: the regular is promoted. *)
Lemma promotion_iff_elapsed_and_frequent_witness :
  exists u',
    VK.heap (fst (VK.evaluate_detection Example.days_so_far Example.share Example.clock
                    "regular" Example.world)) !! 0 = Some u'
    /\ knowledge u' = true.
Proof.
  destruct (promotion_iff_elapsed_and_frequent
              Example.days_so_far Example.share Example.clock
              "regular" Example.world Example.regular)
    as (u' & Hread & Hiff & _); [reflexivity|reflexivity|].
  exists u'. split; [exact Hread|]. apply Hiff. split; [reflexivity|discriminate].
Defined.

(** C1. The regular of the example is due for promotion: the evaluation
    returns the user object with [knowledge] set, which differs from the
    record read, and the store receives no write: it still holds the
    record as it was. The snapshot [prev_user] is the object itself, so
    the comparison that guards the write-back finds no difference. *)
Theorem promotion_is_not_written_back :
  let run := VK.evaluate_detection Example.days_so_far Example.share Example.clock
               "regular" Example.world in
  snd run = Return (VK.UserObject 0)
  /\ VK.heap (fst run) !! 0 = Some (set_knowledge true Example.regular)
  /\ user_eqb Example.regular (set_knowledge true Example.regular) = false
  /\ Store.writes (VK.db_users (fst run)) = []
  /\ Store.get_user (Store.ByAuthor "regular") (VK.db_users (fst run))
     = Some Example.regular.
Proof. vm_compute. repeat split. Qed.

Section LaterWindow.

Variable get_date_diff_so_far : Date -> string -> Q.
Variable utils_frequency : Q -> Q -> Q -> bool -> Q.
Variable clock : nat -> Date.

(** An identity that is not due and was last seen in an earlier window:
    the evaluation raises on [self.frequency], before any field of the
    object is set. *)
Lemma later_window_raises (a : Author) (w : VK.world) (u : User) :
  Store.get_user (Store.ByAuthor a) (VK.db_users w) = Some u ->
  let span := fst (VK.min_date_knowledge (VK.self w)) in
  let reference := snd (VK.min_date_knowledge (VK.self w)) in
  gt (get_date_diff_so_far (init_date u) reference) span
  && ge (frequency u) (VK.min_frequency (VK.self w)) = false ->
  gt (get_date_diff_so_far (last_date u) reference) 0 = true ->
  VK.evaluate_detection get_date_diff_so_far utils_frequency clock a w
  = (VK.set_heap (VK.heap w ++ [u]) w, Raise (AttributeError "frequency")).
Proof.
  intros Hu span reference Hdue Hlater.
  rewrite evaluate_detection_cases, Hu. cbv zeta.
  fold span reference. rewrite Hdue, Hlater. reflexivity.
Qed.

End LaterWindow.

(** C2. The newcomer of the example is not due and was last seen a day
    ago: the evaluation raises AttributeError for [frequency], an attribute
    the instance does not have, and the object keeps the [frequency] and the
    [last_date] of the record. *)
Theorem frequency_is_read_from_the_instance :
  let run := VK.evaluate_detection Example.days_so_far Example.share Example.clock
               "newcomer" Example.world in
  snd run = Raise (AttributeError "frequency")
  /\ VK.heap (fst run) !! 0 = Some Example.newcomer
  /\ VK.clock_reads (fst run) = 0.
Proof. vm_compute. repeat split. Qed.

(** ** The classification engine *)

Section Classification.

Variable face_match : Encoding -> Encoding -> bool.
Variable clock : nat -> Date.
Variable uuid4 : nat -> string.

Local Abbreviation detect_face := (VK.detect_face face_match clock uuid4).
Local Abbreviation detect_faces := (VK.detect_faces face_match clock uuid4).

(** A face that matches an entry of the KnownSet is drawn as known, and
    nothing else happens. *)
Lemma detect_face_known
    (w : VK.world) (img : VK.Image) (location : VK.Location) (e : Encoding) :
  (exists k, In k (encodings (VK.detector_knows (VK.self w))) /\ face_match k e = true) ->
  detect_face img (location, e) w
  = (w, Return (VK.draw_frame (VK.self w) img "conocido" location VK.known_color)).
Proof.
  intros (k & Hin & Hk).
  assert (Hany : Np.any (compare face_match (VK.detector_knows (VK.self w)) e) = true).
  { unfold compare. rewrite any_map. apply existsb_exists. eauto. }
  unfold VK.detect_face, VK.bind at 1, VK.get. rewrite Hany. reflexivity.
Qed.

(** An image all of whose faces are known is classified without any effect. *)
Lemma known_faces_leave_the_world (w : VK.world) faces : forall img,
  Forall (fun face => exists k, In k (encodings (VK.detector_knows (VK.self w)))
                                /\ face_match k (snd face) = true) faces ->
  fst (detect_faces img faces w) = w.
Proof.
  induction faces as [|[location e] faces IH]; intros img Hall; [reflexivity|].
  inversion Hall as [|? ? Hface Hrest]; subst.
  cbn [VK.detect_faces]. unfold VK.bind.
  rewrite (detect_face_known w img location e Hface).
  apply IH, Hrest.
Qed.

(** C4. A face whose embedding matches an entry of the KnownSet is drawn
    as known and leaves the world as it is, the two queues included,
    whatever the batch counter and the cadence are. *)
Theorem known_face_is_not_enqueued
    (w : VK.world) (img : VK.Image) (location : VK.Location) (e : Encoding) :
  (exists k, In k (encodings (VK.detector_knows (VK.self w))) /\ face_match k e = true) ->
  detect_face img (location, e) w
  = (w, Return (VK.draw_frame (VK.self w) img "conocido" location VK.known_color))
  /\ VK.new_users (VK.self (fst (detect_face img (location, e) w)))
     = VK.new_users (VK.self w)
  /\ VK.evaluate_users (VK.self (fst (detect_face img (location, e) w)))
     = VK.evaluate_users (VK.self w).
Proof.
  intros Hknown. rewrite (detect_face_known w img location e Hknown). auto.
Qed.

End Classification.

(** ** Methods that keep the frame counters, and methods that return *)

Lemma io_kept_refl w : io_kept w w.
Proof. unfold io_kept. auto. Qed.

Lemma io_kept_trans w1 w2 w3 : io_kept w1 w2 -> io_kept w2 w3 -> io_kept w1 w3.
Proof. unfold io_kept. intros (?&?&?) (?&?&?). repeat split; congruence. Qed.

Section Keeping.

Context {A B : Type}.

Lemma keeps_ret (a : A) : keeps_io (VK.ret a).
Proof. intros w. apply io_kept_refl. Qed.

Lemma keeps_raise e : keeps_io (@VK.raise A e).
Proof. intros w. apply io_kept_refl. Qed.

Lemma keeps_lift (o : outcome A) : keeps_io (VK.lift o).
Proof. intros w. apply io_kept_refl. Qed.

Lemma keeps_bind (m : VK.M A) (k : A -> VK.M B) :
  keeps_io m -> (forall a, keeps_io (k a)) -> keeps_io (VK.bind m k).
Proof.
  intros Hm Hk w. unfold VK.bind. specialize (Hm w).
  destruct (m w) as [w1 [a|e]]; [|exact Hm].
  eapply io_kept_trans; [exact Hm|apply Hk].
Qed.

Lemma keeps_try (m : VK.M A) (h : exn -> VK.M A) :
  keeps_io m -> (forall e, keeps_io (h e)) -> keeps_io (VK.try m h).
Proof.
  intros Hm Hh w. unfold VK.try. specialize (Hm w).
  destruct (m w) as [w1 [a|e]]; [exact Hm|].
  eapply io_kept_trans; [exact Hm|apply Hh].
Qed.

Lemma returns_ret (a : A) : returns (VK.ret a).
Proof. intros w. reflexivity. Qed.

Lemma returns_bind (m : VK.M A) (k : A -> VK.M B) :
  returns m -> (forall a, returns (k a)) -> returns (VK.bind m k).
Proof.
  intros Hm Hk w. unfold VK.bind. specialize (Hm w).
  destruct (m w) as [w1 [a|e]]; [apply Hk|discriminate].
Qed.

Lemma returns_try (m : VK.M A) (h : exn -> VK.M A) :
  (forall e, returns (h e)) -> returns (VK.try m h).
Proof.
  intros Hh w. unfold VK.try. destruct (m w) as [w1 [a|e]]; [reflexivity|apply Hh].
Qed.


Lemma raises_bind (P : exn -> Prop) (m : VK.M A) (k : A -> VK.M B) :
  raises_only P m -> (forall a, raises_only P (k a)) -> raises_only P (VK.bind m k).
Proof.
  intros Hm Hk w e. unfold VK.bind. specialize (Hm w).
  destruct (m w) as [w1 [a|e1]]; [apply Hk|]. simpl. intros [= <-]. apply Hm. reflexivity.
Qed.

Lemma returns_raises (P : exn -> Prop) (m : VK.M A) : returns m -> raises_only P m.
Proof. intros Hm w e H. specialize (Hm w). rewrite H in Hm. discriminate. Qed.

End Keeping.

Lemma keeps_get : keeps_io VK.get.
Proof. intros w. apply io_kept_refl. Qed.

Lemma returns_get : returns VK.get.
Proof. intros w. reflexivity. Qed.

Lemma returns_modify f : returns (VK.modify f).
Proof. intros w. reflexivity. Qed.

Lemma keeps_modify_self f :
  (forall s, VK.batch_images (f s) = VK.batch_images s) -> keeps_io (VK.modify_self f).
Proof. intros Hf w. unfold io_kept. simpl. auto. Qed.

Lemma keeps_log_error e : keeps_io (VK.log_error e).
Proof. intros w. unfold io_kept. simpl. auto. Qed.

Lemma returns_log_error e : returns (VK.log_error e).
Proof. intros w. reflexivity. Qed.

Lemma keeps_now clock : keeps_io (VK.now clock).
Proof. intros w. unfold io_kept. simpl. auto. Qed.

Lemma keeps_new_uuid uuid4 : keeps_io (VK.new_uuid uuid4).
Proof. intros w. unfold io_kept. simpl. auto. Qed.

Lemma keeps_get_users f : keeps_io (VK.get_users f).
Proof.
  intros w. unfold VK.get_users, VK.bind, VK.get.
  destruct (Store.get_users _ _); apply io_kept_refl.
Qed.

Create HintDb io.

#[local] Hint Resolve keeps_ret keeps_raise keeps_lift keeps_get keeps_log_error
  keeps_now keeps_new_uuid keeps_get_users returns_ret returns_get returns_modify
  returns_log_error : io.

(** Solves [keeps_io] for a method put together from the above. *)
Ltac keeps :=
  repeat first
    [ progress intros
    | apply keeps_bind
    | apply keeps_try
    | apply keeps_modify_self; reflexivity
    | solve [auto with io]
    | match goal with
      | |- keeps_io (match ?x with _ => _ end) => destruct x
      | |- keeps_io (if ?x then _ else _) => destruct x
      | |- keeps_io (let '(_, _) := ?x in _) => destruct x
      end ].

Section BatchFacts.

Variable face_match : Encoding -> Encoding -> bool.
Variable get_encodings : VK.Image -> outcome VK.Faces.
Variable get_system : VK.t -> option VK.System.
Variable insert_system : VK.t -> option VK.System.
Variable clock : nat -> Date.
Variable uuid4 : nat -> string.
Variable receiver_get : nat -> VK.Image.

Local Abbreviation detect_type_user := (VK.detect_type_user face_match clock uuid4).
Local Abbreviation preload := (VK.__preload face_match get_system insert_system).
Local Abbreviation process_images :=
  (VK.process_images face_match get_encodings clock uuid4).
Local Abbreviation start_step :=
  (VK.start_step face_match get_encodings clock uuid4 receiver_get).
Local Abbreviation start_loop :=
  (VK.start_loop face_match get_encodings clock uuid4 receiver_get).
Local Abbreviation start :=
  (VK.start face_match get_encodings get_system insert_system clock uuid4 receiver_get).

Lemma keeps_save_new_unknown e feats : keeps_io (VK.save_new_unknown clock uuid4 e feats).
Proof. unfold VK.save_new_unknown. keeps. Qed.

Lemma keeps_save_evaluate_detection a : keeps_io (VK.save_evaluate_detection a).
Proof. unfold VK.save_evaluate_detection. keeps. Qed.

Lemma keeps_detect_face img face : keeps_io (VK.detect_face face_match clock uuid4 img face).
Proof.
  unfold VK.detect_face. destruct face as [location e].
  pose proof keeps_save_new_unknown. pose proof keeps_save_evaluate_detection.
  keeps.
Qed.

Lemma keeps_detect_type_user img faces : keeps_io (detect_type_user img faces).
Proof.
  unfold VK.detect_type_user. destruct faces as [[locations encs]|e]; [|keeps].
  generalize (zip locations encs). intros l. revert img.
  induction l as [|face l IH]; intros img; simpl; [keeps|].
  apply keeps_bind; [apply keeps_detect_face|exact IH].
Qed.

Lemma keeps_settle task : keeps_io task -> keeps_io (VK.settle task).
Proof.
  intros H w. unfold VK.settle. specialize (H w). destruct (task w) as [w1 [a|e]]; exact H.
Qed.




(** The gathered tasks settle one by one, in order. *)
Lemma gather_frames tasks : forall w,
  Forall keeps_io tasks ->
  exists w' frames,
    VK.gather tasks w = (w', Return frames)
    /\ io_kept w w'
    /\ Forall2 (fun task f => exists w1, snd (VK.settle task w1) = Return f) tasks frames.
Proof.
  induction tasks as [|task tasks IH]; intros w Hkeep.
  - exists w, []. split; [reflexivity|split; [apply io_kept_refl|constructor]].
  - inversion Hkeep as [|? ? Htask Htasks]; subst.
    pose proof (keeps_settle task Htask w) as Hio.
    assert (Hret : exists w1 f, VK.settle task w = (w1, Return f)).
    { unfold VK.settle. destruct (task w) as [w1 [a|e]]; eauto. }
    destruct Hret as (w1 & f & Hsettle). rewrite Hsettle in Hio.
    destruct (IH w1 Htasks) as (w' & frames & Hrun & Hio' & Hall).
    exists w', (f :: frames). split; [|split].
    + cbn [VK.gather]. unfold VK.bind at 1. rewrite Hsettle.
      unfold VK.bind at 1. rewrite Hrun. reflexivity.
    + eapply io_kept_trans; eauto.
    + constructor; [|exact Hall]. exists w. rewrite Hsettle. reflexivity.
Qed.

Lemma zip_with_image {X Y} (g : X -> Y) (l : list X) :
  zip l (map g l) = map (fun x => (x, g x)) l.
Proof. induction l as [|x l IH]; simpl; congruence. Qed.

Local Abbreviation analysed := (analysed face_match get_encodings clock uuid4).

(** One batch: the sink is handed the raw frames interleaved with the
    frames of the analysis, and nothing else. *)
Lemma process_images_runs images_batch w :
  exists w' frames,
    process_images images_batch w = (w', Return tt)
    /\ VK.streamed w'
       = VK.streamed w ++ [VK.interleave (Np.evens images_batch) frames]
    /\ Forall2 analysed (Np.odds images_batch) frames
    /\ VK.batch_images (VK.self w') = VK.batch_images (VK.self w)
    /\ VK.frames_read w' = VK.frames_read w.
Proof.
  unfold VK.process_images. rewrite zip_with_image, map_map. cbn [fst snd].
  destruct (gather_frames
              (map (fun img => detect_type_user img (get_encodings img))
                   (Np.odds images_batch)) w)
    as (w1 & frames & Hrun & (Hb & Hs & Hf) & Hall).
  { apply Forall_forall. intros task Hin. apply list_elem_of_In, in_map_iff in Hin.
    destruct Hin as (img & <- & _). apply keeps_detect_type_user. }
  eexists _, frames. unfold VK.bind at 1. rewrite Hrun.
  split; [reflexivity|]. cbn. rewrite Hs. split; [reflexivity|].
  split; [|auto].
  apply Forall2_fmap_l in Hall. exact Hall.
Qed.

Lemma receive_many_pulls n : forall w,
  exists w',
    VK.receive_many receiver_get n w = (w', Return (pulled receiver_get (VK.frames_read w) n))
    /\ VK.self w' = VK.self w /\ VK.streamed w' = VK.streamed w
    /\ VK.frames_read w' = VK.frames_read w + n.
Proof.
  induction n as [|n IH]; intros w.
  - exists w. repeat split. lia.
  - cbn [VK.receive_many]. unfold VK.bind at 1, VK.receive.
    destruct (IH (VK.set_frames_read (S (VK.frames_read w)) w))
      as (w' & Hrun & Hself & Hs & Hf).
    exists w'. unfold VK.bind at 1. rewrite Hrun. cbn in *.
    repeat split; auto. lia.
Qed.

Lemma start_step_runs w :
  let images_batch :=
    pulled receiver_get (VK.frames_read w) (Z.to_nat (VK.batch_images (VK.self w))) in
  exists w' frames,
    start_step w = (w', Return tt)
    /\ VK.streamed w'
       = VK.streamed w ++ [VK.interleave (Np.evens images_batch) frames]
    /\ Forall2 analysed (Np.odds images_batch) frames
    /\ VK.batch_images (VK.self w') = VK.batch_images (VK.self w)
    /\ VK.frames_read w' = VK.frames_read w + Z.to_nat (VK.batch_images (VK.self w)).
Proof.
  intros images_batch. unfold VK.start_step, VK.bind at 1, VK.get.
  destruct (receive_many_pulls (Z.to_nat (VK.batch_images (VK.self w))) w)
    as (w1 & Hpull & Hself & Hs & Hf).
  fold images_batch in Hpull.
  destruct (process_images_runs images_batch w1) as (w' & frames & Hrun & Hs' & Hall & Hb & Hf').
  exists w', frames. unfold VK.bind. rewrite Hpull. unfold VK.try. rewrite Hrun.
  rewrite Hs', Hs, Hb, Hself, Hf', Hf. auto.
Qed.

(** The loop never raises, and hands the sink one batch per iteration. *)
Lemma start_loop_runs n : forall w,
  exists w',
    start_loop n w = (w', Return tt)
    /\ length (VK.streamed w') = length (VK.streamed w) + n.
Proof.
  induction n as [|n IH]; intros w.
  - exists w. split; [reflexivity|lia].
  - destruct (start_step_runs w) as (w1 & frames & Hstep & Hs & _).
    destruct (IH w1) as (w' & Hloop & Hlen).
    exists w'. cbn [VK.start_loop]. unfold VK.bind. rewrite Hstep, Hloop.
    split; [reflexivity|]. rewrite Hlen, Hs, length_app. simpl. lia.
Qed.



(** *** Loading *)

Lemma keeps_remove_duplicates : keeps_io (VK.remove_duplicates face_match).
Proof.
  intros w. unfold VK.remove_duplicates.
  destruct (Func.remove_users_duplicate_detection _ _ _) as [[st' o]|];
    unfold io_kept; simpl; auto.
Qed.

Lemma keeps_insert_known_users : keeps_io VK.insert_known_users.
Proof. unfold VK.insert_known_users. keeps. Qed.

Lemma keeps_insert_unknown_users : keeps_io VK.insert_unknown_users.
Proof. unfold VK.insert_unknown_users. keeps. Qed.

Lemma returns_insert_known_users : returns VK.insert_known_users.
Proof. apply returns_try. intros e. apply returns_log_error. Qed.

Lemma returns_insert_unknown_users : returns VK.insert_unknown_users.
Proof. apply returns_try. intros e. apply returns_log_error. Qed.

Lemma keeps_preload : keeps_io preload.
Proof.
  unfold VK.__preload.
  pose proof keeps_remove_duplicates. pose proof keeps_insert_known_users.
  pose proof keeps_insert_unknown_users.
  keeps.
Qed.

(** What [__preload] raises is not the error of the batch size. *)
Lemma remove_duplicates_raises w e :
  snd (VK.remove_duplicates face_match w) = Raise e ->
  e = ValueError "not enough values to unpack (expected 2, got 0)".
Proof.
  unfold VK.remove_duplicates.
  set (st := Func.mkState _ _). set (f := Store.BySystem _).
  destruct (Store.get_sort_users f (Func.db st)) eqn:Hu.
  - rewrite sweep_raises_on_nothing by exact Hu. simpl. congruence.
  - rewrite sweep_runs by (rewrite Hu; discriminate). simpl. discriminate.
Qed.

Lemma preload_raises :
  raises_only (fun e => e = SystemNotFoundError
                        \/ e = ValueError "not enough values to unpack (expected 2, got 0)")
              preload.
Proof.
  unfold VK.__preload.
  apply raises_bind; [apply returns_raises, returns_get|]. intros w.
  apply raises_bind.
  { destruct (get_system (VK.self w)); [apply returns_raises, returns_ret|].
    destruct (insert_system (VK.self w)); [apply returns_raises, returns_ret|].
    intros w1 e [= <-]. auto. }
  intros system. apply raises_bind; [apply returns_raises, returns_modify|]. intros _.
  apply raises_bind; [apply returns_raises, returns_get|]. intros w1.
  apply raises_bind.
  { destruct (VK.remove_duplicate (VK.self w1)); [|apply returns_raises, returns_ret].
    intros w2 e H. right. apply (remove_duplicates_raises w2 e H). }
  intros _. apply raises_bind; [apply returns_raises, returns_insert_known_users|].
  intros _. apply returns_raises, returns_insert_unknown_users.
Qed.

End BatchFacts.

(** ** The frame batch processor *)

Section BatchProcessor.

Variable face_match : Encoding -> Encoding -> bool.
Variable get_encodings : VK.Image -> outcome VK.Faces.
Variable get_system : VK.t -> option VK.System.
Variable insert_system : VK.t -> option VK.System.
Variable clock : nat -> Date.
Variable uuid4 : nat -> string.
Variable receiver_get : nat -> VK.Image.

Local Abbreviation preload := (VK.__preload face_match get_system insert_system).
Local Abbreviation start_step :=
  (VK.start_step face_match get_encodings clock uuid4 receiver_get).
Local Abbreviation start_loop :=
  (VK.start_loop face_match get_encodings clock uuid4 receiver_get).
Local Abbreviation start :=
  (VK.start face_match get_encodings get_system insert_system clock uuid4 receiver_get).
Local Abbreviation analysed := (analysed face_match get_encodings clock uuid4).

(** [start] is [__preload], then the test of the batch size, then the loop. *)
Lemma start_cases n w :
  start n w =
  match preload w with
  | (w1, Raise e) => (w1, Raise e)
  | (w1, Return _) =>
    if (mod2 (VK.batch_images (VK.self w1)) =? 0)%Z then start_loop n w1
    else (w1, Raise (ValueError "invalid batch image size"))
  end.
Proof.
  unfold VK.start, VK.bind at 1.
  destruct (preload w) as [w1 [[]|e]]; [|reflexivity].
  unfold VK.bind at 1, VK.get. unfold VK.bind at 1.
  destruct (mod2 (VK.batch_images (VK.self w1)) =? 0)%Z; reflexivity.
Qed.

(** C7. With an odd batch size [start] raises before its loop: no frame
    is pulled and no batch is handed to the sink, and once loading has
    succeeded the exception is the ValueError of the batch size. With an
    even batch size that error is never raised, and once loading has
    succeeded the loop runs, one batch per iteration. *)
Theorem odd_batch_size_is_fatal (n : nat) (w : VK.world) :
  (mod2 (VK.batch_images (VK.self w)) <> 0%Z ->
   exists e,
     snd (start n w) = Raise e
     /\ VK.streamed (fst (start n w)) = VK.streamed w
     /\ VK.frames_read (fst (start n w)) = VK.frames_read w
     /\ (is_return (snd (preload w)) = true ->
         e = ValueError "invalid batch image size"))
  /\ (mod2 (VK.batch_images (VK.self w)) = 0%Z ->
      snd (start n w) <> Raise (ValueError "invalid batch image size")
      /\ (is_return (snd (preload w)) = true ->
          snd (start n w) = Return tt
          /\ length (VK.streamed (fst (start n w))) = length (VK.streamed w) + n)).
Proof.
  rewrite start_cases.
  pose proof (keeps_preload face_match get_system insert_system w) as (Hb & Hs & Hf).
  pose proof (preload_raises face_match get_system insert_system w) as Hraise.
  destruct (preload w) as [w1 [[]|e]]; cbn [fst snd is_return] in *.
  - rewrite Hb. split; intros Hparity.
    + apply Z.eqb_neq in Hparity. rewrite Hparity. eexists. cbn [fst snd]. eauto.
    + rewrite Hparity. cbn [Z.eqb].
      destruct (start_loop_runs face_match get_encodings clock uuid4 receiver_get n w1)
        as (w' & -> & Hlen).
      cbn [fst snd]. split; [discriminate|]. intros _. split; [reflexivity|]. congruence.
  - split; intros Hparity.
    + exists e. repeat split; auto. discriminate.
    + split; [|discriminate]. intros [= ->].
      destruct (Hraise _ eq_refl); discriminate.
Qed.


End BatchProcessor.

(** ** The deduplication sweeper *)

Section Sweeper.

Variable face_match : Encoding -> Encoding -> bool.

(** Two records, the second matching the first: the second is deleted. *)
Lemma sweep_two_duplicates f st (hi lo : User) :
  Store.get_sort_users f (Func.db st) = [hi; lo] ->
  face_match (detection lo) (detection hi) = true ->
  Func.remove_users_duplicate_detection face_match f st
  = Some (Func.mkState (detector_of [])
                       (Store.delete_user (Store.ByAuthor (author lo)) (Func.db st)),
          Return tt).
Proof.
  intros Hu Hm. rewrite sweep_runs by (rewrite Hu; discriminate).
  rewrite Hu. cbn. rewrite Hm. reflexivity.
Qed.

(** C10. When the query yields no record, the guard of the sweep holds
    all the same, and the sweep raises the ValueError of the unpacking
    instead of returning. *)
Theorem empty_query_raises (f : Store.user_filter) (st : Func.state) :
  Store.get_sort_users f (Func.db st) = [] ->
  Func.users_guard (Some []) = true
  /\ Func.remove_users_duplicate_detection face_match f st
     = Some (st, Raise (ValueError "not enough values to unpack (expected 2, got 0)")).
Proof.
  intros Hu. split; [reflexivity|]. apply sweep_raises_on_nothing, Hu.
Qed.

(** C6. With unique ids, a second run of the sweep right after a
    completed one returns as well and makes no deletion: the collection
    and the log of its writes are as the first run left them. *)
Theorem sweep_is_idempotent (f : Store.user_filter) (st st1 : Func.state) :
  NoDup (map author (Store.users (Func.db st))) ->
  Func.remove_users_duplicate_detection face_match f st = Some (st1, Return tt) ->
  exists st2,
    Func.remove_users_duplicate_detection face_match f st1 = Some (st2, Return tt)
    /\ Store.users (Func.db st2) = Store.users (Func.db st1)
    /\ Store.writes (Func.db st2) = Store.writes (Func.db st1)
    /\ Store.deletions (Func.db st2) = Store.deletions (Func.db st1).
Proof.
  intros Hnd Hrun.
  destruct (sweep_twice face_match f st st1 Hnd Hrun) as (st2 & Hrun2 & Hdb).
  exists st2. rewrite Hdb. auto.
Qed.

End Sweeper.

(** C5. On two records with the same embedding and the frequencies 5 and
    2, the sweep deletes the record of frequency 2 and keeps the other. On
    the three records of the example it deletes nothing, although the
    third has the embedding of the second: after the first head the loop
    goes on at index 1 of the rows that are left, so the second record is
    never a head. The sweep as the specification words it deletes the
    third. *)
Theorem sweep_skips_heads :
  (exists st',
     Func.remove_users_duplicate_detection Example.same_face Example.door
       (Example.sweep_of Example.pair) = Some (st', Return tt)
     /\ map author (Store.users (Func.db st')) = ["hi"]
     /\ Store.writes (Func.db st') = [Store.Deleted (Store.ByAuthor "lo")])
  /\ (exists st',
        Func.remove_users_duplicate_detection Example.same_face Example.door
          (Example.sweep_of Example.three) = Some (st', Return tt)
        /\ Func.db st' = Store.mk Example.three [])
  /\ Spec.sweep Example.same_face
       (Store.get_sort_users Example.door (Store.mk Example.three [])) = ["c"].
Proof.
  split; [|split].
  - eexists. split; [vm_compute; reflexivity|]. split; reflexivity.
  - eexists. split; [vm_compute; reflexivity|]. reflexivity.
  - vm_compute. reflexivity.
Qed.

(** ** The properties on the example *)

(** C4 on the example: a face with the embedding of the regular. *)
Lemma known_face_is_not_enqueued_witness :
  VK.detect_face Example.same_face Example.clock Example.uuid4
    (Example.frame 1) Example.face Example.guarded
  = (Example.guarded,
     Return (VK.draw_frame (VK.self Example.guarded) (Example.frame 1) "conocido"
               (fst Example.face) VK.known_color)).
Proof.
  destruct (known_face_is_not_enqueued Example.same_face Example.clock Example.uuid4
              Example.guarded (Example.frame 1) (fst Example.face) (snd Example.face))
    as [Hrun _]; [|exact Hrun].
  exists [1%Q]. split; [left; reflexivity|reflexivity].
Defined.

(** C6 on the example: the pair is swept twice, with one deletion in all. *)
Lemma sweep_is_idempotent_witness :
  exists st1 st2,
    Func.remove_users_duplicate_detection Example.same_face Example.door
      (Example.sweep_of Example.pair) = Some (st1, Return tt)
    /\ Store.deletions (Func.db st1) = 1
    /\ Func.remove_users_duplicate_detection Example.same_face Example.door st1
       = Some (st2, Return tt)
    /\ Store.deletions (Func.db st2) = 1.
Proof.
  set (st1 := Func.mkState (detector_of [])
                (Store.delete_user (Store.ByAuthor "lo")
                   (Func.db (Example.sweep_of Example.pair)))).
  assert (Hrun : Func.remove_users_duplicate_detection Example.same_face Example.door
                   (Example.sweep_of Example.pair) = Some (st1, Return tt))
    by (vm_compute; reflexivity).
  assert (Hnd : NoDup (map author (Store.users (Func.db (Example.sweep_of Example.pair)))))
    by (refine (bool_decide_unpack _ _); vm_compute; exact I).
  destruct (sweep_is_idempotent Example.same_face Example.door
              (Example.sweep_of Example.pair) st1 Hnd Hrun)
    as (st2 & Hrun2 & _ & _ & Hdel).
  exists st1, st2. rewrite Hdel. repeat split; try assumption; reflexivity.
Defined.

(** C7 on the example: batch sizes 7 and 20. *)
Lemma odd_batch_size_is_fatal_witness :
  snd (VK.start Example.same_face Example.faces_of Example.get_system Example.insert_system
         Example.clock Example.uuid4 Example.frame 3
         (Example.world_of (Example.instance 7) [Example.regular; Example.newcomer]))
  = Raise (ValueError "invalid batch image size")
  /\ snd (VK.start Example.same_face Example.faces_of Example.get_system
            Example.insert_system Example.clock Example.uuid4 Example.frame 3
            (Example.world_of (Example.instance 20) [Example.regular; Example.newcomer]))
     = Return tt.
Proof.
  split.
  - destruct (odd_batch_size_is_fatal Example.same_face Example.faces_of
                Example.get_system Example.insert_system Example.clock Example.uuid4
                Example.frame 3
                (Example.world_of (Example.instance 7) [Example.regular; Example.newcomer]))
      as [Hodd _].
    destruct Hodd as (e & He & _ & _ & Hpre); [vm_compute; discriminate|].
    rewrite He, Hpre; [reflexivity|vm_compute; reflexivity].
  - destruct (odd_batch_size_is_fatal Example.same_face Example.faces_of
                Example.get_system Example.insert_system Example.clock Example.uuid4
                Example.frame 3
                (Example.world_of (Example.instance 20) [Example.regular; Example.newcomer]))
      as [_ Heven].
    destruct Heven as [_ Hrun]; [reflexivity|].
    destruct Hrun as [Hrun _]; [vm_compute; reflexivity|exact Hrun].
Defined.


(** C10 on the example: a sweep over an empty collection. *)
Lemma empty_query_raises_witness :
  Func.remove_users_duplicate_detection Example.same_face Example.door (Example.sweep_of [])
  = Some (Example.sweep_of [],
          Raise (ValueError "not enough values to unpack (expected 2, got 0)")).
Proof.
  apply (empty_query_raises Example.same_face Example.door (Example.sweep_of [])).
  reflexivity.
Defined.

(** ** The queue helpers *)

Section QueueFacts.

Context {V State : Type}.
Implicit Types (q : Queues.Queue (gmap string V)) (l : list (gmap string V)).

Lemma pick_lookup (keys : list string) (obj : gmap string V) (k : string) :
  Queues.pick keys obj !! k = if decide (k ∈ keys) then obj !! k else None.
Proof.
  unfold Queues.pick. destruct (decide (k ∈ keys)) as [Hin|Hout].
  - destruct (obj !! k) as [v|] eqn:Hk.
    + apply map_lookup_filter_Some. auto.
    + apply map_lookup_filter_None. left. exact Hk.
  - apply map_lookup_filter_None. right. intros v _. exact Hout.
Qed.

Lemma put_all keys l : forall q,
  foldl (fun q obj => Queues.put (Queues.pick keys obj) q) q l
  = Queues.mkQueue (Queues.items q ++ map (Queues.pick keys) l)
                   (Queues.unfinished_tasks q + length l).
Proof.
  induction l as [|obj l IH]; intros q; simpl.
  - destruct q. simpl. rewrite app_nil_r, Nat.add_0_r. reflexivity.
  - rewrite IH. simpl. rewrite <- app_assoc. f_equal. lia.
Qed.


Lemma get_all_returns (callback : State -> gmap string V -> State * outcome unit) l : forall s,
  Forall (fun d => forall s, snd (callback s d) = Return tt) l ->
  Queues.get_all callback l s
  = ([], foldl (fun s d => fst (callback s d)) s l, Return tt).
Proof.
  induction l as [|d l IH]; intros s Hall; [reflexivity|].
  inversion Hall as [|? ? Hd Hl]; subst. simpl.
  specialize (Hd s). destruct (callback s d) as [s' [[]|e]]; [|discriminate].
  apply IH. exact Hl.
Qed.

Lemma get_all_raises (callback : State -> gmap string V -> State * outcome unit) before d after e :
  forall s,
  Forall (fun d => forall s, snd (callback s d) = Return tt) before ->
  snd (callback (foldl (fun s d => fst (callback s d)) s before) d) = Raise e ->
  Queues.get_all callback (before ++ d :: after) s
  = (after, fst (callback (foldl (fun s d => fst (callback s d)) s before) d), Raise e).
Proof.
  induction before as [|b before IH]; intros s Hall Hd; simpl in *.
  - destruct (callback s d) as [s' [[]|e']]; [discriminate|].
    simpl in Hd. injection Hd as ->. reflexivity.
  - inversion Hall as [|? ? Hb Hl]; subst.
    specialize (Hb s). destruct (callback s b) as [s' [[]|e']]; [|discriminate].
    simpl in *. apply IH; assumption.
Qed.

(** X1. [async_queue_object_put] adds to the back of the queue, in the
    order of the list, one dict per object: the object cut down to the keys
    asked for. Its closing [task_done] raises ValueError exactly when the
    queue had no unfinished task and the list is empty; otherwise the call
    leaves one unfinished task less than it has put. *)
Theorem put_queues_the_picked_fields
    (objects : list (gmap string V)) (keys : list string) (queue : Queues.Queue (gmap string V)) :
  let queue' := fst (Queues.async_queue_object_put objects keys queue) in
  let o := snd (Queues.async_queue_object_put objects keys queue) in
  length (Queues.items queue') = length (Queues.items queue) + length objects
  /\ firstn (length (Queues.items queue)) (Queues.items queue') = Queues.items queue
  /\ (forall i obj, objects !! i = Some obj ->
        exists d, Queues.items queue' !! (length (Queues.items queue) + i) = Some d
                  /\ forall k, d !! k = if decide (k ∈ keys) then obj !! k else None)
  /\ match (Queues.unfinished_tasks queue + length objects)%nat with
     | 0 => o = Raise (ValueError "task_done() called too many times")
            /\ Queues.unfinished_tasks queue' = 0
     | S n => o = Return tt /\ Queues.unfinished_tasks queue' = n
     end.
Proof.
  unfold Queues.async_queue_object_put. rewrite put_all. unfold Queues.task_done.
  cbn [Queues.unfinished_tasks Queues.items].
  assert (Hlookup : forall i obj, objects !! i = Some obj ->
    exists d, (Queues.items queue ++ map (Queues.pick keys) objects)
                !! (length (Queues.items queue) + i) = Some d
              /\ forall k, d !! k = if decide (k ∈ keys) then obj !! k else None).
  { intros i obj Hi. exists (Queues.pick keys obj). split; [|apply pick_lookup].
    rewrite lookup_app_r by lia.
    replace (length (Queues.items queue) + i - length (Queues.items queue)) with i by lia.
    rewrite list_lookup_fmap, Hi. reflexivity. }
  destruct (Queues.unfinished_tasks queue + length objects) as [|n] eqn:Hn;
    cbn [fst snd Queues.items Queues.unfinished_tasks];
    rewrite length_app, length_map, firstn_app, firstn_all, Nat.sub_diag, app_nil_r;
    repeat split; auto.
Qed.

(** X2. With a callback that does not raise on what is waiting,
    [async_queue_object_get] gives every waiting dict to the callback, oldest
    first, and leaves the queue empty; its closing [task_done] raises
    ValueError exactly when the queue had no unfinished task. *)
Theorem get_drains_oldest_first
    (queue : Queues.Queue (gmap string V))
    (callback : State -> gmap string V -> State * outcome unit) (s : State) :
  Forall (fun d => forall s, snd (callback s d) = Return tt) (Queues.items queue) ->
  let '(queue', s', o) := Queues.async_queue_object_get queue callback s in
  Queues.items queue' = []
  /\ s' = foldl (fun s d => fst (callback s d)) s (Queues.items queue)
  /\ match Queues.unfinished_tasks queue with
     | 0 => o = Raise (ValueError "task_done() called too many times")
            /\ Queues.unfinished_tasks queue' = 0
     | S n => o = Return tt /\ Queues.unfinished_tasks queue' = n
     end.
Proof.
  intros Hall. unfold Queues.async_queue_object_get.
  rewrite get_all_returns by exact Hall. unfold Queues.task_done.
  cbn [Queues.unfinished_tasks Queues.items].
  destruct (Queues.unfinished_tasks queue) as [|n]; cbn; auto.
Qed.

(** X3. When the callback raises on a waiting dict, the call raises the
    same exception: the dict it raised on has left the queue, the later ones
    are still waiting, and [task_done] has not been called. *)
Theorem get_stops_at_a_raising_callback
    (before after : list (gmap string V)) (d : gmap string V) (unfinished : nat)
    (callback : State -> gmap string V -> State * outcome unit) (s : State) (e : exn) :
  Forall (fun d => forall s, snd (callback s d) = Return tt) before ->
  snd (callback (foldl (fun s d => fst (callback s d)) s before) d) = Raise e ->
  Queues.async_queue_object_get (Queues.mkQueue (before ++ d :: after) unfinished) callback s
  = (Queues.mkQueue after unfinished,
     fst (callback (foldl (fun s d => fst (callback s d)) s before) d),
     Raise e).
Proof.
  intros Hall Hd. unfold Queues.async_queue_object_get. cbn [Queues.items].
  rewrite (get_all_raises callback before d after e s Hall Hd). reflexivity.
Qed.

(** X4. Objects put on a new queue and then taken with a callback that
    does not raise reach the callback cut down to the keys, in the order of
    the list, and the queue ends empty. Each of the two calls closes one
    task: the first raises for an empty list, the second unless the list has
    two objects or more. *)
Theorem put_then_get
    (objects : list (gmap string V)) (keys : list string)
    (callback : State -> gmap string V -> State * outcome unit) (s : State) :
  (forall s d, snd (callback s d) = Return tt) ->
  let '(queue1, o1) := Queues.async_queue_object_put objects keys (Queues.mkQueue [] 0) in
  let '(queue2, s', o2) := Queues.async_queue_object_get queue1 callback s in
  s' = foldl (fun s obj => fst (callback s (Queues.pick keys obj))) s objects
  /\ Queues.items queue2 = []
  /\ (o1 = Return tt <-> 1 <= length objects)
  /\ (o2 = Return tt <-> 2 <= length objects).
Proof.
  intros Hcb. unfold Queues.async_queue_object_put. rewrite put_all.
  unfold Queues.task_done at 1. cbn [Queues.unfinished_tasks Queues.items app Nat.add].
  assert (Hfold : forall l s0,
    foldl (fun s d => fst (callback s d)) s0 (map (Queues.pick keys) l)
    = foldl (fun s obj => fst (callback s (Queues.pick keys obj))) s0 l).
  { induction l as [|x l IH]; intros s0; simpl; auto. }
  destruct objects as [|obj1 [|obj2 objects]]; cbn [length];
    unfold Queues.async_queue_object_get; cbn [Queues.items Queues.unfinished_tasks];
    rewrite get_all_returns by (apply Forall_forall; intros; apply Hcb);
    unfold Queues.task_done; cbn [Queues.unfinished_tasks Queues.items];
    rewrite Hfold; repeat split; auto; try lia; try discriminate.
Qed.

End QueueFacts.

(** ** More on the classification engine *)

Section SelectFacts.

Context {A : Type}.

(** The first element a mask selects is at the first true position. *)
Lemma select_head (a : list A) : forall (mask : list bool),
  length a = length mask ->
  Np.any mask = true ->
  exists i x,
    head (Np.select a mask) = Some x
    /\ a !! i = Some x /\ mask !! i = Some true
    /\ forall j, j < i -> mask !! j = Some false.
Proof.
  induction a as [|y a IH]; intros [|b mask] Hlen Hany; try discriminate.
  simpl in Hlen. destruct b.
  - exists 0, y. repeat split; auto. intros j Hj. lia.
  - unfold Np.any in Hany. simpl in Hany.
    destruct (IH mask ltac:(lia) Hany) as (i & x & Hh & Ha & Hm & Hbefore).
    exists (S i), x. repeat split; auto.
    intros [|j] Hj; [reflexivity|]. apply Hbefore. lia.
Qed.

End SelectFacts.

Lemma blank_fields s1 s2 :
  blank s1 = blank s2 ->
  VK.batch_processed s1 = VK.batch_processed s2
  /\ VK.batch_images s1 = VK.batch_images s2
  /\ VK.frequency_save_new_unknows s1 = VK.frequency_save_new_unknows s2
  /\ VK.detector_knows s1 = VK.detector_knows s2
  /\ VK.detector_unknows s1 = VK.detector_unknows s2.
Proof.
  intros H.
  repeat split;
    [ apply (f_equal VK.batch_processed) in H
    | apply (f_equal VK.batch_images) in H
    | apply (f_equal VK.frequency_save_new_unknows) in H
    | apply (f_equal VK.detector_knows) in H
    | apply (f_equal VK.detector_unknows) in H ]; exact H.
Qed.

Section MoreClassification.

Variable face_match : Encoding -> Encoding -> bool.
Variable clock : nat -> Date.
Variable uuid4 : nat -> string.

Local Abbreviation detect_face := (VK.detect_face face_match clock uuid4).

Lemma detect_face_unsampled w img location e :
  Np.any (compare face_match (VK.detector_knows (VK.self w)) e) = false ->
  VK.frequency_save_new_unknows (VK.self w) <> 0%Z ->
  sampled w = false ->
  detect_face img (location, e) w
  = (w, Return (VK.draw_frame (VK.self w) img "desconocido" location VK.unknown_color)).
Proof.
  intros Hknown Hcad Hs. unfold VK.detect_face, VK.bind at 1, VK.get.
  rewrite Hknown. unfold VK.bind at 1, VK.get. unfold VK.bind at 1.
  apply Z.eqb_neq in Hcad. rewrite Hcad. unfold sampled in Hs. rewrite Hs.
  reflexivity.
Qed.

Lemma detect_face_new w img location e :
  Np.any (compare face_match (VK.detector_knows (VK.self w)) e) = false ->
  VK.frequency_save_new_unknows (VK.self w) <> 0%Z ->
  sampled w = true ->
  Np.any (compare face_match (VK.detector_unknows (VK.self w)) e) = false ->
  let user := mkUser (VK.id (VK.self w)) e [] (uuid4 (VK.uuids_drawn w))
                     (clock (VK.clock_reads w)) (clock (S (VK.clock_reads w)))
                     false 0 None in
  let w' := VK.set_self (VK.set_new_users (VK.new_users (VK.self w) ++ [user]) (VK.self w))
              (VK.set_clock_reads (S (S (VK.clock_reads w)))
                 (VK.set_uuids_drawn (S (VK.uuids_drawn w)) w)) in
  detect_face img (location, e) w
  = (w', Return (VK.draw_frame (VK.self w) img "desconocido" location VK.unknown_color)).
Proof.
  intros Hknown Hcad Hs Hunknown. unfold VK.detect_face, VK.bind at 1, VK.get.
  rewrite Hknown. unfold VK.bind at 1, VK.get. unfold VK.bind at 1.
  apply Z.eqb_neq in Hcad. rewrite Hcad. unfold sampled in Hs. rewrite Hs.
  unfold VK.bind at 1, VK.get. rewrite Hunknown.
  destruct w as [[] ? ? ? ? ? ? ?]. reflexivity.
Qed.

Lemma detect_face_recurring w img location e :
  Np.any (compare face_match (VK.detector_knows (VK.self w)) e) = false ->
  VK.frequency_save_new_unknows (VK.self w) <> 0%Z ->
  sampled w = true ->
  aligned (VK.detector_unknows (VK.self w)) ->
  Np.any (compare face_match (VK.detector_unknows (VK.self w)) e) = true ->
  exists i a k,
    authors (VK.detector_unknows (VK.self w)) !! i = Some a
    /\ encodings (VK.detector_unknows (VK.self w)) !! i = Some k
    /\ face_match k e = true
    /\ (forall j k', j < i -> encodings (VK.detector_unknows (VK.self w)) !! j = Some k' ->
                     face_match k' e = false)
    /\ detect_face img (location, e) w
       = (VK.set_self (VK.set_evaluate_users (VK.evaluate_users (VK.self w) ++ [a])
                         (VK.self w)) w,
          Return (VK.draw_frame (VK.self w) img "desconocido" location VK.unknown_color)).
Proof.
  intros Hknown Hcad Hs Hal Hunknown.
  set (d := VK.detector_unknows (VK.self w)) in *.
  set (mask := compare face_match d e) in *.
  assert (Hlen : length (authors d) = length mask).
  { unfold mask. rewrite compare_length. exact Hal. }
  destruct (select_head (authors d) mask Hlen Hunknown) as (i & a & Hhead & Ha & Hm & Hbefore).
  unfold mask, compare in Hm. rewrite list_lookup_fmap in Hm.
  destruct (encodings d !! i) as [k|] eqn:Hk; [|discriminate]. injection Hm as Hm.
  exists i, a, k. repeat split; auto.
  { intros j k' Hj Hk'. specialize (Hbefore j Hj). unfold mask, compare in Hbefore.
    rewrite list_lookup_fmap, Hk' in Hbefore. injection Hbefore as Hb. exact Hb. }
  unfold VK.detect_face, VK.bind at 1, VK.get.
  rewrite Hknown. unfold VK.bind at 1, VK.get. unfold VK.bind at 1.
  apply Z.eqb_neq in Hcad. rewrite Hcad. unfold sampled in Hs. rewrite Hs.
  unfold VK.bind at 1, VK.get. fold d mask. rewrite Hunknown.
  unfold Np.slice_to. rewrite <- Hlen, firstn_all.
  unfold VK.bind at 1, VK.lift. rewrite index_mask_aligned by exact Hlen.
  destruct (Np.select (authors d) mask) as [|a0 sel]; [discriminate|].
  injection Hhead as ->.
  destruct w as [[] ? ? ? ? ? ? ?]. reflexivity.
Qed.


Lemma queues_grown_refl n w : queues_grown n w w.
Proof.
  unfold queues_grown. repeat split; auto.
  exists [], []. rewrite !app_nil_r. simpl. repeat split; auto. lia.
Qed.

Lemma queues_grown_trans n m w1 w2 w3 :
  queues_grown n w1 w2 -> queues_grown m w2 w3 -> queues_grown (n + m) w1 w3.
Proof.
  intros (Hb & Hh & Hd & Hs & Hf & Hg & nq & eq & Hn & He & Hl)
         (Hb' & Hh' & Hd' & Hs' & Hf' & Hg' & nq' & eq' & Hn' & He' & Hl').
  unfold queues_grown. repeat split; try congruence.
  exists (nq ++ nq'), (eq ++ eq'). rewrite Hn', He', Hn, He, <- !app_assoc, !length_app.
  repeat split; auto. lia.
Qed.

Lemma queues_grown_new w u c k :
  queues_grown 1 w
    (VK.set_self (VK.set_new_users (VK.new_users (VK.self w) ++ [u]) (VK.self w))
       (VK.set_clock_reads c (VK.set_uuids_drawn k w))).
Proof.
  destruct w as [[] ? ? ? ? ? ? ?]. unfold queues_grown. cbn.
  repeat split; auto. exists [u], []. rewrite app_nil_r. auto.
Qed.

Lemma queues_grown_evaluate w a :
  queues_grown 1 w
    (VK.set_self (VK.set_evaluate_users (VK.evaluate_users (VK.self w) ++ [a]) (VK.self w)) w).
Proof.
  destruct w as [[] ? ? ? ? ? ? ?]. unfold queues_grown. cbn.
  repeat split; auto. exists [], [a]. rewrite app_nil_r. auto.
Qed.

(** A face enqueues at most one entry and changes nothing else. *)
Lemma detect_face_grows img face w :
  queues_grown 1 w (fst (detect_face img face w)).
Proof.
  destruct face as [location e].
  unfold VK.detect_face, VK.bind at 1, VK.get.
  destruct (Np.any _); [apply queues_grown_refl|].
  unfold VK.bind at 1, VK.get. unfold VK.bind at 1.
  destruct (_ =? 0)%Z; [apply queues_grown_refl|].
  destruct (_ =? 0)%Z; [|apply queues_grown_refl].
  unfold VK.bind at 1, VK.get.
  destruct (Np.any _).
  - unfold VK.bind at 1, VK.lift.
    destruct (Np.index_mask _ _) as [[|a sel]|err]; try apply queues_grown_refl.
    apply (queues_grown_evaluate w a).
  - pose proof (queues_grown_new w
      (mkUser (VK.id (VK.self w)) e [] (uuid4 (VK.uuids_drawn w))
         (clock (VK.clock_reads w)) (clock (S (VK.clock_reads w))) false 0 None)
      (S (S (VK.clock_reads w))) (S (VK.uuids_drawn w))) as H.
    destruct w as [[] ? ? ? ? ? ? ?]. exact H.
Qed.

Lemma detect_faces_grow faces : forall img w,
  queues_grown (length faces) w (fst (VK.detect_faces face_match clock uuid4 img faces w)).
Proof.
  induction faces as [|face faces IH]; intros img w; [apply queues_grown_refl|].
  cbn [VK.detect_faces length]. unfold VK.bind.
  pose proof (detect_face_grows img face w) as Hface.
  destruct (detect_face img face w) as [w1 [img1|e1]]; cbn [fst] in *.
  - change (S (length faces)) with (1 + length faces).
    eapply queues_grown_trans; [exact Hface|apply IH].
  - destruct Hface as (Hb & Hh & Hd & Hs & Hf & Hg & nq & eq & Hn & He & Hl).
    unfold queues_grown. repeat split; auto. exists nq, eq. repeat split; auto. lia.
Qed.

(** X5. A face on a sampled batch that matches no entry of either set:
    one record is put on the queue of new identities, with the embedding of
    the face, the id of the system, a new author id, no features, frequency
    0, [knowledge] false and two readings of the clock as its dates; the
    face is drawn as unknown and nothing is queued for evaluation. *)
Theorem sampled_stranger_is_enrolled
    (w : VK.world) (img : VK.Image) (location : VK.Location) (e : Encoding) :
  Np.any (compare face_match (VK.detector_knows (VK.self w)) e) = false ->
  VK.frequency_save_new_unknows (VK.self w) <> 0%Z ->
  sampled w = true ->
  Np.any (compare face_match (VK.detector_unknows (VK.self w)) e) = false ->
  let user := mkUser (VK.id (VK.self w)) e [] (uuid4 (VK.uuids_drawn w))
                     (clock (VK.clock_reads w)) (clock (S (VK.clock_reads w)))
                     false 0 None in
  let w' := fst (detect_face img (location, e) w) in
  snd (detect_face img (location, e) w)
  = Return (VK.draw_frame (VK.self w) img "desconocido" location VK.unknown_color)
  /\ VK.new_users (VK.self w') = VK.new_users (VK.self w) ++ [user]
  /\ VK.evaluate_users (VK.self w') = VK.evaluate_users (VK.self w)
  /\ VK.uuids_drawn w' = S (VK.uuids_drawn w)
  /\ VK.clock_reads w' = S (S (VK.clock_reads w))
  /\ VK.db_users w' = VK.db_users w
  /\ VK.detector_unknows (VK.self w') = VK.detector_unknows (VK.self w).
Proof.
  intros Hknown Hcad Hs Hunknown. cbv zeta.
  rewrite (detect_face_new w img location e Hknown Hcad Hs Hunknown).
  destruct w as [[] ? ? ? ? ? ? ?]. cbn. repeat split; reflexivity.
Qed.

(** X6. A face on a sampled batch that matches no entry of the
    KnownSet but some entry of an aligned UnknownSet: the author id of the
    first entry it matches is put on the evaluation queue, and nothing
    else changes; no identity is made and the clock is not read. *)
Theorem recurring_stranger_is_queued
    (w : VK.world) (img : VK.Image) (location : VK.Location) (e : Encoding) :
  Np.any (compare face_match (VK.detector_knows (VK.self w)) e) = false ->
  VK.frequency_save_new_unknows (VK.self w) <> 0%Z ->
  sampled w = true ->
  aligned (VK.detector_unknows (VK.self w)) ->
  Np.any (compare face_match (VK.detector_unknows (VK.self w)) e) = true ->
  exists i a k,
    authors (VK.detector_unknows (VK.self w)) !! i = Some a
    /\ encodings (VK.detector_unknows (VK.self w)) !! i = Some k
    /\ face_match k e = true
    /\ (forall j k', j < i -> encodings (VK.detector_unknows (VK.self w)) !! j = Some k' ->
                     face_match k' e = false)
    /\ detect_face img (location, e) w
       = (VK.set_self (VK.set_evaluate_users (VK.evaluate_users (VK.self w) ++ [a])
                         (VK.self w)) w,
          Return (VK.draw_frame (VK.self w) img "desconocido" location VK.unknown_color)).
Proof.
  intros Hknown Hcad Hs Hal Hunknown.
  exact (detect_face_recurring w img location e Hknown Hcad Hs Hal Hunknown).
Qed.

(** X7. Whatever the faces and the sets are, and whether it returns or
    raises, [detect_type_user] changes the world only by reading the clock,
    drawing ids and adding to the back of the two queues, one entry a face
    at most: the sets, the store, the user objects, the batch counter and
    the configuration are as before, and what was waiting still is. *)
Theorem classification_only_grows_queues
    (img : VK.Image) (faces : outcome VK.Faces) (w : VK.world) :
  queues_grown
    (match faces with
     | Return (locations, encs) => length (zip locations encs)
     | Raise _ => 0
     end)
    w (fst (VK.detect_type_user face_match clock uuid4 img faces w)).
Proof.
  unfold VK.detect_type_user. destruct faces as [[locations encs]|e].
  - apply detect_faces_grow.
  - apply queues_grown_refl.
Qed.

Lemma detect_face_returns img face w :
  VK.frequency_save_new_unknows (VK.self w) <> 0%Z ->
  aligned (VK.detector_unknows (VK.self w)) ->
  is_return (snd (detect_face img face w)) = true.
Proof.
  intros Hcad Hal. destruct face as [location e].
  destruct (Np.any (compare face_match (VK.detector_knows (VK.self w)) e)) eqn:Hknown.
  { unfold VK.detect_face, VK.bind at 1, VK.get. rewrite Hknown. reflexivity. }
  destruct (sampled w) eqn:Hs.
  2:{ rewrite detect_face_unsampled by assumption. reflexivity. }
  destruct (Np.any (compare face_match (VK.detector_unknows (VK.self w)) e)) eqn:Hunknown.
  - destruct (detect_face_recurring w img location e Hknown Hcad Hs Hal Hunknown)
      as (i & a & k & _ & _ & _ & _ & ->). reflexivity.
  - pose proof (detect_face_new w img location e Hknown Hcad Hs Hunknown) as Hnew.
    cbv zeta in Hnew. rewrite Hnew. reflexivity.
Qed.

(** X8. With a cadence other than 0 and an aligned UnknownSet,
    [detect_type_user] returns on every frame whose faces were found,
    however many they are and whatever is in the sets and the queues. *)
Theorem classification_returns
    (img : VK.Image) (locations : list VK.Location) (encs : list Encoding) (w : VK.world) :
  VK.frequency_save_new_unknows (VK.self w) <> 0%Z ->
  aligned (VK.detector_unknows (VK.self w)) ->
  is_return (snd (VK.detect_type_user face_match clock uuid4 img
                    (Return (locations, encs)) w)) = true.
Proof.
  unfold VK.detect_type_user. generalize (zip locations encs). intros faces.
  revert img w. induction faces as [|face faces IH]; intros img w Hcad Hal; [reflexivity|].
  cbn [VK.detect_faces]. unfold VK.bind.
  pose proof (detect_face_returns img face w Hcad Hal) as Hret.
  pose proof (detect_face_grows img face w) as (Hb & _).
  destruct (detect_face img face w) as [w1 [img1|e1]]; [|discriminate].
  cbn [fst] in Hb. apply blank_fields in Hb as (_ & _ & Hc & _ & Hu).
  apply IH; congruence.
Qed.

End MoreClassification.

(** ** More on the two queue consumers *)

Section Consumers.

Variable face_match : Encoding -> Encoding -> bool.
Variable get_date_diff_so_far : Date -> string -> Q.
Variable utils_frequency : Q -> Q -> Q -> bool -> Q.
Variable clock : nat -> Date.
Variable uuid4 : nat -> string.
Variable knows_shape1 : option nat.
Variable unknows_shape1 : option nat.

Local Abbreviation evaluate_detection :=
  (VK.evaluate_detection get_date_diff_so_far utils_frequency clock).
Local Abbreviation evaluate_detections_step :=
  (VK.evaluate_detections_step get_date_diff_so_far utils_frequency clock knows_shape1).
Local Abbreviation add_new_users_step := (VK.add_new_users_step unknows_shape1).
Local Abbreviation detect_face := (VK.detect_face face_match clock uuid4).

Lemma append_row_fits {A} built (a : list (list A)) row :
  Np.shape1 built a = Some (length row) -> Np.append_row built a row = Return (a ++ [row]).
Proof.
  intros H. unfold Np.append_row. rewrite H, Nat.eqb_refl. reflexivity.
Qed.


(** What one iteration of [add_new_users] does. *)
Lemma add_new_users_step_cases w :
  add_new_users_step w =
  match VK.new_users (VK.self w) with
  | [] => (w, Return tt)
  | new_user :: rest =>
    let d := VK.detector_unknows (VK.self w) in
    let ids := authors d ++ [author new_user] in
    let stored := VK.set_db_users (Store.add_user new_user (VK.db_users w))
                    (VK.set_self (VK.set_new_users rest (VK.self w)) w) in
    match Np.append_row unknows_shape1 (encodings d) (detection new_user) with
    | Return rows =>
      (VK.set_self (VK.set_detector_unknows (mkDetector ids rows) (VK.self stored)) stored,
       Return tt)
    | Raise e =>
      (VK.set_logged (VK.logged w ++ [VK.Caught "error inserting new user" e])
         (VK.set_self (VK.set_detector_unknows (mkDetector ids (encodings d))
                         (VK.self stored)) stored),
       Return tt)
    end
  end.
Proof.
  unfold VK.add_new_users_step, VK.try, VK.bind at 1, VK.get.
  destruct (VK.new_users (VK.self w)) as [|new_user rest] eqn:Hq; [reflexivity|].
  destruct w as [[] ? ? ? ? ? ? ?]. cbn -[Np.append_row].
  destruct (Np.append_row _ _ _); reflexivity.
Qed.

Lemma get_user_added (u : User) (s : Store.t) :
  Store.get_user (Store.ByAuthor (author u)) s = None ->
  Store.get_user (Store.ByAuthor (author u)) (Store.add_user u s) = Some u.
Proof.
  unfold Store.get_user, Store.add_user. simpl. intros Hnone.
  induction (Store.users s) as [|v l IH]; simpl in *.
  - rewrite String.eqb_refl. reflexivity.
  - destruct (String.eqb (author v) (author u)); [discriminate|]. auto.
Qed.

(** What one iteration of [evaluate_detections] does. *)
Lemma evaluate_detections_step_cases w :
  evaluate_detections_step w =
  match VK.evaluate_users (VK.self w) with
  | [] => (w, Return tt)
  | a :: rest =>
    let w1 := VK.set_self (VK.set_evaluate_users rest (VK.self w)) w in
    match Store.get_user (Store.ByAuthor a) (VK.db_users w) with
    | None =>
      (VK.set_logged
         ((VK.logged w ++ [VK.Message "Error user not found in BD"])
          ++ [VK.Caught "error evaluating user" (AttributeError "knowledge")])
         w1,
       Return tt)
    | Some u =>
      let span := fst (VK.min_date_knowledge (VK.self w)) in
      let reference := snd (VK.min_date_knowledge (VK.self w)) in
      let d := VK.detector_knows (VK.self w) in
      let ids := authors d ++ [author u] in
      let known := fun object : User =>
        let w2 := VK.set_heap (VK.heap w ++ [object]) w1 in
        match Np.append_row knows_shape1 (encodings d) (detection u) with
        | Return rows =>
          (VK.set_self (VK.set_detector_knows (mkDetector ids rows) (VK.self w2)) w2,
           Return tt)
        | Raise e =>
          (VK.set_logged (VK.logged w ++ [VK.Caught "error evaluating user" e])
             (VK.set_self (VK.set_detector_knows (mkDetector ids (encodings d))
                             (VK.self w2)) w2),
           Return tt)
        end in
      if gt (get_date_diff_so_far (init_date u) reference) span
         && ge (frequency u) (VK.min_frequency (VK.self w)) then
        known (set_knowledge true u)
      else if gt (get_date_diff_so_far (last_date u) reference) 0 then
        (VK.set_logged
           (VK.logged w ++ [VK.Caught "error evaluating user" (AttributeError "frequency")])
           (VK.set_heap (VK.heap w ++ [u]) w1),
         Return tt)
      else if knowledge u then known u
      else (VK.set_heap (VK.heap w ++ [u]) w1, Return tt)
    end
  end.
Proof.
  unfold VK.evaluate_detections_step, VK.try, VK.bind at 1, VK.get.
  destruct (VK.evaluate_users (VK.self w)) as [|a rest] eqn:Hq; [reflexivity|].
  unfold VK.bind at 1, VK.modify_self, VK.modify. unfold VK.bind at 1.
  rewrite evaluate_detection_cases. cbn [VK.db_users VK.set_self VK.self VK.heap].
  destruct (Store.get_user _ _) as [u|].
  2:{ destruct w as [[] ? ? ? ? ? ? ?]. reflexivity. }
  cbv zeta. destruct (_ && _).
  - unfold VK.bind at 1, VK.deref. heap_reads.
    destruct w as [[] ? ? ? ? ? ? ?]. cbn -[Np.append_row].
    destruct (Np.append_row _ _ _); reflexivity.
  - destruct (gt _ 0).
    + destruct w as [[] ? ? ? ? ? ? ?]. reflexivity.
    + unfold VK.bind at 1, VK.deref. heap_reads.
      destruct (knowledge u) eqn:Hk; destruct w as [[] ? ? ? ? ? ? ?];
        cbn -[Np.append_row]; rewrite ?Hk; [|reflexivity].
      destruct (Np.append_row _ _ _); reflexivity.
Qed.




(** X9. An iteration of the ingestion worker with a record waiting
    returns, takes the record off the queue, stores it at the end of the
    collection and appends its id to the UnknownSet, leaving the KnownSet
    and the other queue alone; a record whose id the store did not hold is
    then found under its id. The embedding is appended when it has the
    length of the rows of the set; when it has not, numpy raises, the
    worker logs the error and the embeddings stay as they were, one fewer
    than the ids. *)
Theorem ingestion_stores_and_indexes (w : VK.world) (new_user : User) (rest : list User) :
  VK.new_users (VK.self w) = new_user :: rest ->
  let w' := fst (add_new_users_step w) in
  let old := encodings (VK.detector_unknows (VK.self w)) in
  snd (add_new_users_step w) = Return tt
  /\ VK.new_users (VK.self w') = rest
  /\ Store.users (VK.db_users w') = Store.users (VK.db_users w) ++ [new_user]
  /\ authors (VK.detector_unknows (VK.self w'))
     = authors (VK.detector_unknows (VK.self w)) ++ [author new_user]
  /\ (if bool_decide (Np.shape1 unknows_shape1 old = Some (length (detection new_user)))
      then encodings (VK.detector_unknows (VK.self w')) = old ++ [detection new_user]
           /\ VK.logged w' = VK.logged w
      else encodings (VK.detector_unknows (VK.self w')) = old
           /\ exists e, VK.logged w'
                        = VK.logged w ++ [VK.Caught "error inserting new user" (ValueError e)])
  /\ VK.detector_knows (VK.self w') = VK.detector_knows (VK.self w)
  /\ VK.evaluate_users (VK.self w') = VK.evaluate_users (VK.self w)
  /\ (Store.get_user (Store.ByAuthor (author new_user)) (VK.db_users w) = None ->
      Store.get_user (Store.ByAuthor (author new_user)) (VK.db_users w') = Some new_user).
Proof.
  intros Hq. cbv zeta. rewrite add_new_users_step_cases, Hq. cbv zeta.
  unfold Np.append_row.
  destruct (Np.shape1 unknows_shape1 _) as [n|] eqn:Hshape.
  - destruct (length (detection new_user) =? n) eqn:Hn.
    + apply Nat.eqb_eq in Hn. subst n. rewrite bool_decide_eq_true_2 by reflexivity.
      destruct w as [[] ? ? ? ? ? ? ?]. cbn in *. repeat split; auto. apply get_user_added.
    + apply Nat.eqb_neq in Hn. rewrite bool_decide_eq_false_2 by congruence.
      destruct w as [[] ? ? ? ? ? ? ?]. cbn in *. repeat split; eauto. apply get_user_added.
  - rewrite bool_decide_eq_false_2 by discriminate.
    destruct w as [[] ? ? ? ? ? ? ?]. cbn in *. repeat split; eauto. apply get_user_added.
Qed.

Lemma none_match d e :
  (forall k, In k (encodings d) -> face_match k e = false) ->
  Np.any (compare face_match d e) = false.
Proof.
  intros Hd. unfold compare. rewrite any_map. apply not_true_is_false.
  intros Hex. apply existsb_exists in Hex as (k & Hin & Hk).
  rewrite (Hd k Hin) in Hk. discriminate.
Qed.

(** X10. Ingestion and classification compose: once the worker has
    taken in a record whose embedding has the length of the rows of the
    UnknownSet, a face on a sampled batch that matches the embedding of the
    record, and no entry of the KnownSet nor any earlier entry of the
    UnknownSet, is queued for evaluation under the id of the record, and no
    new identity is made for it. *)
Theorem ingested_face_recurs
    (w : VK.world) (new_user : User) (rest : list User)
    (img : VK.Image) (location : VK.Location) (e : Encoding) :
  VK.new_users (VK.self w) = new_user :: rest ->
  aligned (VK.detector_unknows (VK.self w)) ->
  Np.shape1 unknows_shape1 (encodings (VK.detector_unknows (VK.self w)))
  = Some (length (detection new_user)) ->
  VK.frequency_save_new_unknows (VK.self w) <> 0%Z ->
  sampled w = true ->
  (forall k, In k (encodings (VK.detector_knows (VK.self w))) -> face_match k e = false) ->
  (forall k, In k (encodings (VK.detector_unknows (VK.self w))) -> face_match k e = false) ->
  face_match (detection new_user) e = true ->
  let w1 := fst (add_new_users_step w) in
  let w2 := fst (detect_face img (location, e) w1) in
  VK.evaluate_users (VK.self w2) = VK.evaluate_users (VK.self w) ++ [author new_user]
  /\ VK.new_users (VK.self w2) = rest.
Proof.
  intros Hq Hal Hfits Hcad Hs Hknown Hunknown Hmatch w1 w2.
  assert (Hw1 : w1 = fst (add_new_users_step w)) by reflexivity.
  rewrite add_new_users_step_cases, Hq in Hw1. cbv zeta in Hw1.
  rewrite (append_row_fits _ _ _ Hfits) in Hw1. cbn [fst] in Hw1.
  assert (Hk1 : Np.any (compare face_match (VK.detector_knows (VK.self w1)) e) = false).
  { rewrite Hw1. destruct w as [[] ? ? ? ? ? ? ?]. cbn in *. apply none_match. exact Hknown. }
  assert (Hu1 : VK.detector_unknows (VK.self w1)
                = mkDetector
                    (authors (VK.detector_unknows (VK.self w)) ++ [author new_user])
                    (encodings (VK.detector_unknows (VK.self w)) ++ [detection new_user])).
  { rewrite Hw1. destruct w as [[] ? ? ? ? ? ? ?]. reflexivity. }
  assert (Hal1 : aligned (VK.detector_unknows (VK.self w1))).
  { rewrite Hu1. unfold aligned in *. simpl. rewrite !length_app. simpl. lia. }
  assert (Hany1 : Np.any (compare face_match (VK.detector_unknows (VK.self w1)) e) = true).
  { rewrite Hu1. unfold compare. rewrite any_map. apply existsb_exists.
    exists (detection new_user). split; [|exact Hmatch]. simpl.
    apply in_or_app. right. left. reflexivity. }
  assert (Hcad1 : VK.frequency_save_new_unknows (VK.self w1) <> 0%Z).
  { rewrite Hw1. destruct w as [[] ? ? ? ? ? ? ?]. exact Hcad. }
  assert (Hs1 : sampled w1 = true).
  { rewrite Hw1. destruct w as [[] ? ? ? ? ? ? ?]. exact Hs. }
  destruct (detect_face_recurring face_match clock uuid4 w1 img location e
              Hk1 Hcad1 Hs1 Hal1 Hany1)
    as (i & a & k & Ha & Hk & Hm & _ & Hrun).
  subst w2. rewrite Hrun. cbn [fst].
  assert (Hi : i = length (encodings (VK.detector_unknows (VK.self w)))).
  { rewrite Hu1 in Hk. cbn [encodings] in Hk.
    destruct (decide (i < length (encodings (VK.detector_unknows (VK.self w))))) as [Hlt|Hge].
    - rewrite lookup_app_l in Hk by exact Hlt.
      apply list_elem_of_lookup_2, list_elem_of_In, Hunknown in Hk. congruence.
    - apply lookup_lt_Some in Hk. rewrite length_app in Hk. simpl in Hk. lia. }
  assert (Hauthor : a = author new_user).
  { rewrite Hu1 in Ha. cbn [authors] in Ha. rewrite lookup_app_r in Ha by (rewrite Hi, Hal; lia).
    rewrite Hi, Hal, Nat.sub_diag in Ha. simpl in Ha. congruence. }
  subst a. rewrite Hw1. destruct w as [[] ? ? ? ? ? ? ?]. cbn in *. subst. auto.
Qed.

(** X23. When numpy refuses the embedding of a record the worker takes
    in, the record is stored and its id is in the UnknownSet, but its
    embedding is not: a face on a sampled batch with that embedding, which
    matches no entry of either set, is given a second identity. *)
Theorem refused_embedding_is_enrolled_again
    (w : VK.world) (new_user : User) (rest : list User)
    (img : VK.Image) (location : VK.Location) (e : Encoding) :
  VK.new_users (VK.self w) = new_user :: rest ->
  Np.shape1 unknows_shape1 (encodings (VK.detector_unknows (VK.self w)))
  <> Some (length (detection new_user)) ->
  VK.frequency_save_new_unknows (VK.self w) <> 0%Z ->
  sampled w = true ->
  (forall k, In k (encodings (VK.detector_knows (VK.self w))) -> face_match k e = false) ->
  (forall k, In k (encodings (VK.detector_unknows (VK.self w))) -> face_match k e = false) ->
  let w1 := fst (add_new_users_step w) in
  let w2 := fst (detect_face img (location, e) w1) in
  In new_user (Store.users (VK.db_users w1))
  /\ In (author new_user) (authors (VK.detector_unknows (VK.self w1)))
  /\ encodings (VK.detector_unknows (VK.self w1))
     = encodings (VK.detector_unknows (VK.self w))
  /\ VK.new_users (VK.self w2)
     = rest ++ [mkUser (VK.id (VK.self w)) e [] (uuid4 (VK.uuids_drawn w))
                       (clock (VK.clock_reads w)) (clock (S (VK.clock_reads w)))
                       false 0 None]
  /\ VK.evaluate_users (VK.self w2) = VK.evaluate_users (VK.self w).
Proof.
  intros Hq Hrefused Hcad Hs Hknown Hunknown w1 w2.
  assert (Hw1 : w1 = fst (add_new_users_step w)) by reflexivity.
  rewrite add_new_users_step_cases, Hq in Hw1. cbv zeta in Hw1.
  assert (Happ : exists err,
    Np.append_row unknows_shape1 (encodings (VK.detector_unknows (VK.self w)))
      (detection new_user) = Raise err).
  { unfold Np.append_row.
    destruct (Np.shape1 unknows_shape1 _) as [n|]; [|eauto].
    destruct (length (detection new_user) =? n) eqn:Hn; [|eauto].
    apply Nat.eqb_eq in Hn. subst n. congruence. }
  destruct Happ as [err Happ]. rewrite Happ in Hw1. cbn [fst] in Hw1.
  assert (Hk1 : Np.any (compare face_match (VK.detector_knows (VK.self w1)) e) = false).
  { rewrite Hw1. destruct w as [[] ? ? ? ? ? ? ?]. cbn in *. apply none_match. exact Hknown. }
  assert (Hu1 : Np.any (compare face_match (VK.detector_unknows (VK.self w1)) e) = false).
  { rewrite Hw1. destruct w as [[] ? ? ? ? ? ? ?]. cbn in *. apply none_match. exact Hunknown. }
  assert (Hcad1 : VK.frequency_save_new_unknows (VK.self w1) <> 0%Z).
  { rewrite Hw1. destruct w as [[] ? ? ? ? ? ? ?]. exact Hcad. }
  assert (Hs1 : sampled w1 = true).
  { rewrite Hw1. destruct w as [[] ? ? ? ? ? ? ?]. exact Hs. }
  pose proof (detect_face_new face_match clock uuid4 w1 img location e Hk1 Hcad1 Hs1 Hu1)
    as Hrun. cbv zeta in Hrun. subst w2. rewrite Hrun. cbn [fst].
  rewrite Hw1. destruct w as [[] ? ? ? ? ? ? ?]. cbn in *. subst.
  repeat split; auto; apply in_or_app; right; left; reflexivity.
Qed.

(** X11. An iteration of the promotion evaluator never raises, never
    writes to the store and leaves the queue of new identities alone; it
    takes the oldest id off its queue, also when that id is not in the
    store or its evaluation raises. *)
Theorem evaluation_step_is_contained (w : VK.world) :
  let w' := fst (evaluate_detections_step w) in
  snd (evaluate_detections_step w) = Return tt
  /\ VK.evaluate_users (VK.self w') = tail (VK.evaluate_users (VK.self w))
  /\ VK.db_users w' = VK.db_users w
  /\ VK.new_users (VK.self w') = VK.new_users (VK.self w)
  /\ VK.detector_unknows (VK.self w') = VK.detector_unknows (VK.self w).
Proof.
  rewrite evaluate_detections_step_cases.
  destruct (VK.evaluate_users (VK.self w)) as [|a rest] eqn:Hq.
  { cbn. rewrite Hq. auto. }
  cbv zeta. destruct (Store.get_user _ _) as [u|].
  2:{ destruct w as [[] ? ? ? ? ? ? ?]. cbn. auto. }
  destruct (_ && _);
    [destruct (Np.append_row _ _ _); destruct w as [[] ? ? ? ? ? ? ?]; cbn; auto|].
  destruct (gt _ 0); [destruct w as [[] ? ? ? ? ? ? ?]; cbn; auto|].
  destruct (knowledge u);
    [destruct (Np.append_row _ _ _); destruct w as [[] ? ? ? ? ? ? ?]; cbn; auto|].
  destruct w as [[] ? ? ? ? ? ? ?]; cbn; auto.
Qed.

(** X12. An id the store does not hold: the evaluator appends nothing
    to the KnownSet and logs twice, that the user was not found and the
    AttributeError of reading [knowledge] off the empty dict. *)
Theorem unknown_id_is_logged (w : VK.world) (a : Author) (rest : list Author) :
  VK.evaluate_users (VK.self w) = a :: rest ->
  Store.get_user (Store.ByAuthor a) (VK.db_users w) = None ->
  let w' := fst (evaluate_detections_step w) in
  snd (evaluate_detection a w) = Return VK.EmptyDict
  /\ VK.detector_knows (VK.self w') = VK.detector_knows (VK.self w)
  /\ VK.heap w' = VK.heap w
  /\ VK.logged w'
     = (VK.logged w ++ [VK.Message "Error user not found in BD"])
       ++ [VK.Caught "error evaluating user" (AttributeError "knowledge")].
Proof.
  intros Hq Hnone w'. subst w'.
  rewrite evaluate_detections_step_cases, evaluate_detection_cases, Hq, Hnone.
  destruct w as [[] ? ? ? ? ? ? ?]. cbn. auto.
Qed.


(** X24. When numpy refuses the embedding of a user that is due, the
    evaluator has put the id of the user in the KnownSet already and only
    logs the error: the embeddings of the set stay as they were, one fewer
    than the ids, and a face with the embedding of the user that matches no
    entry of the set is not classified as known. *)
Theorem refused_promotion_is_not_known
    (w : VK.world) (a : Author) (rest : list Author) (u : User) (e : Encoding) :
  VK.evaluate_users (VK.self w) = a :: rest ->
  Store.get_user (Store.ByAuthor a) (VK.db_users w) = Some u ->
  gt (get_date_diff_so_far (init_date u) (snd (VK.min_date_knowledge (VK.self w))))
     (fst (VK.min_date_knowledge (VK.self w)))
  && ge (frequency u) (VK.min_frequency (VK.self w)) = true ->
  Np.shape1 knows_shape1 (encodings (VK.detector_knows (VK.self w)))
  <> Some (length (detection u)) ->
  (forall k, In k (encodings (VK.detector_knows (VK.self w))) -> face_match k e = false) ->
  let w' := fst (evaluate_detections_step w) in
  snd (evaluate_detections_step w) = Return tt
  /\ authors (VK.detector_knows (VK.self w'))
     = authors (VK.detector_knows (VK.self w)) ++ [author u]
  /\ encodings (VK.detector_knows (VK.self w')) = encodings (VK.detector_knows (VK.self w))
  /\ (exists err, VK.logged w'
                  = VK.logged w ++ [VK.Caught "error evaluating user" (ValueError err)])
  /\ Np.any (compare face_match (VK.detector_knows (VK.self w')) e) = false.
Proof.
  intros Hq Hu Hdue Hrefused Hnone. cbv zeta.
  rewrite evaluate_detections_step_cases, Hq, Hu. cbv zeta. rewrite Hdue.
  assert (Happ : exists err,
    Np.append_row knows_shape1 (encodings (VK.detector_knows (VK.self w))) (detection u)
    = Raise (ValueError err)).
  { unfold Np.append_row.
    destruct (Np.shape1 knows_shape1 _) as [n|]; [|eauto].
    destruct (length (detection u) =? n) eqn:Hn; [|eauto].
    apply Nat.eqb_eq in Hn. subst n. congruence. }
  destruct Happ as [err ->].
  destruct w as [[] ? ? ? ? ? ? ?]. cbn in *. repeat split; eauto.
  apply none_match. exact Hnone.
Qed.

End Consumers.

(** ** The parallel arrays of the sets *)


(** ** More on the frame batch processor *)

Section MoreBatches.

Variable face_match : Encoding -> Encoding -> bool.
Variable get_encodings : VK.Image -> outcome VK.Faces.
Variable clock : nat -> Date.
Variable uuid4 : nat -> string.
Variable receiver_get : nat -> VK.Image.

Local Abbreviation detect_type_user := (VK.detect_type_user face_match clock uuid4).
Local Abbreviation process_images :=
  (VK.process_images face_match get_encodings clock uuid4).
Local Abbreviation start_step :=
  (VK.start_step face_match get_encodings clock uuid4 receiver_get).
Local Abbreviation start_loop :=
  (VK.start_loop face_match get_encodings clock uuid4 receiver_get).

Lemma detect_type_user_grows img faces w :
  exists n, queues_grown n w (fst (detect_type_user img faces w)).
Proof.
  unfold VK.detect_type_user. destruct faces as [[locations encs]|e].
  - eexists. apply detect_faces_grow.
  - exists 0. apply queues_grown_refl.
Qed.

Lemma gather_grows tasks : forall w,
  Forall (fun task : VK.M VK.Image => forall w, exists n, queues_grown n w (fst (task w)))
         tasks ->
  exists n, queues_grown n w (fst (VK.gather tasks w)).
Proof.
  induction tasks as [|task tasks IH]; intros w Hall.
  - exists 0. apply queues_grown_refl.
  - inversion Hall as [|? ? Htask Htasks]; subst.
    destruct (Htask w) as [n Hn].
    cbn [VK.gather]. unfold VK.bind at 1, VK.settle.
    destruct (task w) as [w1 [img|e]]; cbn [fst] in Hn;
      destruct (IH w1 Htasks) as [m Hm]; unfold VK.bind at 1;
      destruct (VK.gather tasks w1) as [w2 [frames|e2]]; cbn [fst] in *;
      exists (n + m); eapply queues_grown_trans; eauto.
Qed.

(** A batch raises the counter by one, whatever its faces are. *)
Lemma process_images_counts images_batch w :
  let w' := fst (process_images images_batch w) in
  VK.batch_processed (VK.self w') = (VK.batch_processed (VK.self w) + 1)%Z
  /\ VK.frequency_save_new_unknows (VK.self w') = VK.frequency_save_new_unknows (VK.self w)
  /\ VK.detector_knows (VK.self w') = VK.detector_knows (VK.self w)
  /\ VK.detector_unknows (VK.self w') = VK.detector_unknows (VK.self w)
  /\ VK.db_users w' = VK.db_users w.
Proof.
  unfold VK.process_images.
  match goal with |- context [VK.gather ?tasks] =>
    destruct (gather_grows tasks w) as [n Hn];
    [|destruct (gather_frames tasks w) as (w1 & frames & Hrun & _ & _)]
  end.
  { apply Forall_forall. intros task Hin. apply list_elem_of_In, in_map_iff in Hin.
    destruct Hin as ([img faces] & <- & _). intros w0. apply detect_type_user_grows. }
  { apply Forall_forall. intros task Hin. apply list_elem_of_In, in_map_iff in Hin.
    destruct Hin as ([img faces] & <- & _). apply keeps_detect_type_user. }
  unfold VK.bind. rewrite Hrun in *. cbn [fst] in Hn.
  destruct Hn as (Hb & _ & Hd & _).
  destruct (blank_fields _ _ Hb) as (Hbp & _ & Hc & Hk & Hu).
  destruct w1 as [[] ? ? ? ? ? ? ?]. cbn in *. subst. repeat split; auto.
Qed.

Lemma receive_many_self n w :
  VK.self (fst (VK.receive_many receiver_get n w)) = VK.self w
  /\ VK.db_users (fst (VK.receive_many receiver_get n w)) = VK.db_users w
  /\ VK.uuids_drawn (fst (VK.receive_many receiver_get n w)) = VK.uuids_drawn w
  /\ VK.clock_reads (fst (VK.receive_many receiver_get n w)) = VK.clock_reads w.
Proof.
  revert w. induction n as [|n IH]; intros w; [auto|].
  cbn [VK.receive_many]. unfold VK.bind, VK.receive.
  specialize (IH (VK.set_frames_read (S (VK.frames_read w)) w)).
  destruct (VK.receive_many receiver_get n _) as [w1 [imgs|e]]; cbn in *; exact IH.
Qed.

Lemma start_step_counts w :
  let w' := fst (start_step w) in
  VK.batch_processed (VK.self w') = (VK.batch_processed (VK.self w) + 1)%Z
  /\ VK.frequency_save_new_unknows (VK.self w') = VK.frequency_save_new_unknows (VK.self w)
  /\ VK.detector_knows (VK.self w') = VK.detector_knows (VK.self w)
  /\ VK.detector_unknows (VK.self w') = VK.detector_unknows (VK.self w)
  /\ VK.db_users w' = VK.db_users w.
Proof.
  unfold VK.start_step, VK.bind at 1, VK.get.
  destruct (receive_many_pulls receiver_get (Z.to_nat (VK.batch_images (VK.self w))) w)
    as (w1 & Hpull & _).
  pose proof (receive_many_self (Z.to_nat (VK.batch_images (VK.self w))) w)
    as (Hself & Hdb & _).
  unfold VK.bind. rewrite Hpull in *. cbn [fst] in Hself, Hdb. unfold VK.try.
  match goal with |- context [process_images ?b w1] =>
    pose proof (process_images_counts b w1) as Hc;
    destruct (process_images_runs face_match get_encodings clock uuid4 b w1)
      as (w' & frames & Hrun & _)
  end.
  rewrite Hrun in *. cbn [fst] in *. rewrite Hself, Hdb in Hc. exact Hc.
Qed.

(** X14. After [n] iterations of the loop of [start] the batch counter
    has gone up by [n], [n] batches have been handed to the sink and [n]
    times the batch size frames have been pulled; the loop has not raised,
    and neither the sets nor the store have changed. *)
Theorem loop_counts_batches (n : nat) (w : VK.world) :
  let w' := fst (start_loop n w) in
  snd (start_loop n w) = Return tt
  /\ VK.batch_processed (VK.self w') = (VK.batch_processed (VK.self w) + Z.of_nat n)%Z
  /\ length (VK.streamed w') = length (VK.streamed w) + n
  /\ VK.frames_read w'
     = VK.frames_read w + n * Z.to_nat (VK.batch_images (VK.self w))
  /\ VK.detector_knows (VK.self w') = VK.detector_knows (VK.self w)
  /\ VK.detector_unknows (VK.self w') = VK.detector_unknows (VK.self w)
  /\ VK.db_users w' = VK.db_users w.
Proof.
  revert w. induction n as [|n IH]; intros w.
  - cbn. repeat split; auto; lia.
  - cbn [VK.start_loop]. unfold VK.bind.
    pose proof (start_step_counts w) as (Hbp & _ & Hk & Hu & Hdb).
    destruct (start_step_runs face_match get_encodings clock uuid4 receiver_get w)
      as (w1 & frames & Hstep & Hs & _ & Hb & Hf).
    rewrite Hstep in *. cbn [fst] in *.
    destruct (IH w1) as (Hret & Hbp' & Hs' & Hf' & Hk' & Hu' & Hdb').
    repeat split; try congruence.
    + rewrite Hbp', Hbp. lia.
    + rewrite Hs', Hs, length_app. simpl. lia.
    + rewrite Hf', Hf, Hb. lia.
Qed.


(** On a batch the cadence does not select, a face changes nothing. *)
Lemma detect_face_unsampled_world img face w :
  VK.frequency_save_new_unknows (VK.self w) <> 0%Z ->
  sampled w = false ->
  fst (VK.detect_face face_match clock uuid4 img face w) = w.
Proof.
  intros Hcad Hs. destruct face as [location e].
  destruct (Np.any (compare face_match (VK.detector_knows (VK.self w)) e)) eqn:Hknown.
  - unfold VK.detect_face, VK.bind at 1, VK.get. rewrite Hknown. reflexivity.
  - rewrite detect_face_unsampled; auto.
Qed.

Lemma detect_type_user_unsampled img faces w :
  VK.frequency_save_new_unknows (VK.self w) <> 0%Z ->
  sampled w = false ->
  fst (detect_type_user img faces w) = w.
Proof.
  intros Hcad Hs. unfold VK.detect_type_user.
  destruct faces as [[locations encs]|e]; [|reflexivity].
  generalize (zip locations encs). intros l. revert img.
  induction l as [|face l IH]; intros img; [reflexivity|].
  cbn [VK.detect_faces]. unfold VK.bind.
  pose proof (detect_face_unsampled_world img face w Hcad Hs) as Hface.
  destruct (VK.detect_face face_match clock uuid4 img face w) as [w1 [img1|e1]];
    cbn [fst] in Hface; subst w1; [apply IH|reflexivity].
Qed.

Lemma gather_inert tasks w :
  Forall (fun task : VK.M VK.Image => fst (task w) = w) tasks ->
  fst (VK.gather tasks w) = w.
Proof.
  induction tasks as [|task tasks IH]; intros Hall; [reflexivity|].
  inversion Hall as [|? ? Htask Htasks]; subst.
  cbn [VK.gather]. unfold VK.bind, VK.settle.
  destruct (task w) as [w1 [img|e]]; cbn [fst] in Htask; subst w1;
    specialize (IH Htasks); destruct (VK.gather tasks w) as [w2 [frames|e2]];
    cbn [fst] in *; auto.
Qed.

Lemma process_images_unsampled batch w :
  VK.frequency_save_new_unknows (VK.self w) <> 0%Z ->
  sampled w = false ->
  exists out,
    process_images batch w
    = (VK.set_streamed (VK.streamed w ++ [out])
         (VK.set_self (VK.set_batch_processed (VK.batch_processed (VK.self w) + 1)
                         (VK.self w)) w),
       Return tt).
Proof.
  intros Hcad Hs. unfold VK.process_images, VK.bind.
  match goal with |- context [VK.gather ?tasks w] =>
    pose proof (gather_inert tasks w) as Hinert;
    destruct (gather_frames tasks w) as (w2 & frames & Hrun & _ & _)
  end.
  { apply Forall_forall. intros task Hin. apply list_elem_of_In, in_map_iff in Hin.
    destruct Hin as ([img faces] & <- & _). apply keeps_detect_type_user. }
  rewrite Hrun in *. cbn [fst] in Hinert. rewrite Hinert.
  2:{ apply Forall_forall. intros task Hin. apply list_elem_of_In, in_map_iff in Hin.
      destruct Hin as ([img faces] & <- & _). apply detect_type_user_unsampled; auto. }
  eexists. reflexivity.
Qed.

(** X15. On a batch the cadence does not select, no face of the batch
    is queued and no id is made, whatever the faces are: only the frames
    are pulled, the batch is handed to the sink and the counter goes up. *)
Theorem unsampled_batch_enqueues_nothing (w : VK.world) :
  VK.frequency_save_new_unknows (VK.self w) <> 0%Z ->
  sampled w = false ->
  let w' := fst (start_step w) in
  VK.new_users (VK.self w') = VK.new_users (VK.self w)
  /\ VK.evaluate_users (VK.self w') = VK.evaluate_users (VK.self w)
  /\ VK.uuids_drawn w' = VK.uuids_drawn w
  /\ VK.clock_reads w' = VK.clock_reads w
  /\ VK.batch_processed (VK.self w') = (VK.batch_processed (VK.self w) + 1)%Z.
Proof.
  intros Hcad Hs.
  pose proof (receive_many_self (Z.to_nat (VK.batch_images (VK.self w))) w)
    as (Hself & _ & Huuid & Hclock).
  destruct (receive_many_pulls receiver_get (Z.to_nat (VK.batch_images (VK.self w))) w)
    as (w1 & Hpull & _).
  rewrite Hpull in *. cbn [fst] in Hself, Huuid, Hclock.
  destruct (process_images_unsampled
              (pulled receiver_get (VK.frames_read w)
                 (Z.to_nat (VK.batch_images (VK.self w)))) w1) as (out & Hrun).
  { rewrite Hself. exact Hcad. }
  { unfold sampled. rewrite Hself. exact Hs. }
  unfold VK.start_step, VK.bind, VK.get, VK.try.
  rewrite Hpull, Hrun. cbn. rewrite Hself, Huuid, Hclock. auto.
Qed.

End MoreBatches.

(** ** What the sweep deletes *)

Section SweepSafety.

Variable face_match : Encoding -> Encoding -> bool.

Lemma filter_sublist {A} (p : A -> bool) (l : list A) : List.filter p l `sublist_of` l.
Proof.
  induction l as [|x l IH]; simpl; [constructor|].
  destruct (p x); [apply sublist_skip|apply sublist_cons]; exact IH.
Qed.

Lemma lookup_drop_sublist {A} (l : list A) i h r :
  l !! i = Some h -> In r (drop (i + 1) l) -> [h; r] `sublist_of` l.
Proof.
  revert i. induction l as [|x l IH]; intros [|i] Hh Hr; simpl in *; try discriminate.
  - injection Hh as ->. apply sublist_skip. rewrite drop_0 in Hr.
    apply sublist_cons_l. apply in_split in Hr as (l1 & l2 & ->).
    exists l1, l2. split; [reflexivity|apply sublist_nil_l].
  - apply sublist_cons. eapply IH; eauto.
Qed.

Lemma keyed_agree {A K} (key : A -> K) (l : list A) x y :
  NoDup (map key l) -> In x l -> In y l -> key x = key y -> x = y.
Proof.
  induction l as [|z l IH]; simpl; [contradiction|].
  intros Hnd [->|Hx] [->|Hy] Heq; auto.
  - apply NoDup_cons in Hnd as [Hz _]. exfalso. apply Hz.
    rewrite Heq. apply list_elem_of_In, in_map, Hy.
  - apply NoDup_cons in Hnd as [Hz _]. exfalso. apply Hz.
    rewrite <- Heq. apply list_elem_of_In, in_map, Hx.
  - apply NoDup_cons in Hnd as [_ Hnd]. auto.
Qed.

Lemma NoDup_keys_sublist (k rows : list (Author * Encoding)) :
  k `sublist_of` rows -> NoDup (map fst rows) -> NoDup (map fst k).
Proof.
  intros Hs Hnd. pose proof (fmap_sublist fst _ _ Hs) as Hk. exact (sublist_NoDup _ _ Hnd Hk).
Qed.

(** Every id the loop deletes is that of a row matching the head of its
    iteration, which comes earlier in the rows and is not deleted. *)
Lemma swept_matched fuel : forall i rows a,
  NoDup (map fst rows) ->
  In a (fst (swept face_match fuel i rows)) ->
  exists h r,
    [h; r] `sublist_of` rows /\ fst r = a
    /\ face_match (snd r) (snd h) = true
    /\ ~ In (fst h) (fst (swept face_match fuel i rows)).
Proof.
  induction fuel as [|fuel IH]; intros i rows a Hnd; cbn [swept]; [simpl; contradiction|].
  destruct (length rows <=? i + 1); [simpl; contradiction|].
  destruct (rows !! i) as [head|] eqn:Hhead; [|simpl; contradiction].
  set (matches := fun r : Author * Encoding => face_match (snd r) (snd head)).
  set (rest := drop (i + 1) rows).
  set (kept := List.filter (fun r : Author * Encoding => negb (face_match (snd r) (snd head))) rest).
  assert (Hkept : kept `sublist_of` rows).
  { etransitivity; [apply filter_sublist|apply sublist_drop]. }
  assert (Hheadkey : forall r, In r rest -> fst r <> fst head).
  { intros r Hr Heq.
    rewrite <- (take_drop_middle rows i head Hhead) in Hnd.
    rewrite map_app in Hnd. apply NoDup_app in Hnd as (_ & _ & Hnd). simpl in Hnd.
    apply NoDup_cons in Hnd as [Hnot _]. apply Hnot. rewrite <- Heq.
    apply list_elem_of_In, in_map. unfold rest in Hr.
    replace (i + 1) with (S i) in Hr by lia. exact Hr. }
  pose proof (swept_deletes_later face_match fuel (i + 1) kept) as Hlater.
  specialize (IH (i + 1) kept).
  destruct (swept face_match fuel (i + 1) kept) as [dels rows'] eqn:Hrun.
  cbn [fst] in *. intros Hin. apply in_app_or in Hin as [Hin|Hin].
  - apply in_map_iff in Hin as (r & Hr & Hin). apply filter_In in Hin as [Hin Hm].
    exists head, r. repeat split; auto.
    + eapply lookup_drop_sublist; eauto.
    + intros Hd. apply in_app_or in Hd as [Hd|Hd].
      * apply in_map_iff in Hd as (r' & Hr' & Hd). apply filter_In in Hd as [Hd _].
        apply (Hheadkey r' Hd Hr').
      * destruct (Hlater _ Hd) as (r' & Hd' & Hr').
        apply in_drop, filter_In in Hd' as [Hd' _]. apply (Hheadkey r' Hd' Hr').
  - destruct (IH a (NoDup_keys_sublist _ _ Hkept Hnd) Hin) as (h & r & Hsub & Hr & Hm & Hsurv).
    exists h, r. repeat split; auto.
    + etransitivity; [exact Hsub|exact Hkept].
    + intros Hd. apply in_app_or in Hd as [Hd|Hd]; [|auto].
      apply in_map_iff in Hd as (r' & Hr' & Hd). apply filter_In in Hd as [Hd Hmr'].
      assert (Hh : In h kept).
      { apply list_elem_of_In. eapply elem_of_sublist; [|exact Hsub]; left. }
      pose proof Hh as Hh'. apply filter_In in Hh' as [Hhrest Hhm].
      assert (r' = h).
      { apply (keyed_agree fst rows); auto.
        - eapply in_drop; exact Hd.
        - eapply in_drop; exact Hhrest. }
      subst r'. unfold matches in Hmr'. rewrite Hmr' in Hhm. discriminate.
Qed.

Lemma sorted_sublist_above (l : list User) u v :
  StronglySorted above l -> [v; u] `sublist_of` l -> above v u.
Proof.
  induction 1 as [|x l Hs IH Hall]; intros Hsub.
  - apply sublist_nil_r in Hsub. discriminate.
  - inversion Hsub as [|? ? ? Hsub'|? ? ? Hsub']; subst; [|auto].
    rewrite Forall_forall in Hall. apply Hall.
    eapply elem_of_sublist; [|exact Hsub']; left.
Qed.

Lemma sublist_rows (users : list User) h r :
  [h; r] `sublist_of` map row users ->
  exists v u, h = row v /\ r = row u /\ [v; u] `sublist_of` users.
Proof.
  induction users as [|x users IH]; simpl; intros Hsub.
  - apply sublist_nil_r in Hsub. discriminate.
  - inversion Hsub as [|? ? ? Hsub'|? ? ? Hsub']; subst.
    + assert (Hr : In r (map row users)).
      { apply list_elem_of_In. eapply elem_of_sublist; [|exact Hsub']; left. }
      apply in_map_iff in Hr as (u & <- & Hu).
      exists x, u. repeat split; auto. apply sublist_skip.
      apply sublist_cons_l. apply in_split in Hu as (l1 & l2 & ->).
      exists l1, l2. split; [reflexivity|apply sublist_nil_l].
    + destruct (IH Hsub') as (v & u & -> & -> & Hvu).
      exists v, u. repeat split; auto. apply sublist_cons. exact Hvu.
Qed.

(** X16. With unique author ids, every record a sweep that returns has
    removed from the store matches a record of the query that the sweep has
    kept and that is at least as frequent. *)
Theorem sweep_keeps_a_match
    (f : Store.user_filter) (st st' : Func.state) (u : User) :
  NoDup (map author (Store.users (Func.db st))) ->
  Func.remove_users_duplicate_detection face_match f st = Some (st', Return tt) ->
  In u (Store.users (Func.db st)) ->
  ~ In u (Store.users (Func.db st')) ->
  exists v,
    In v (Store.users (Func.db st'))
    /\ Store.satisfies f v = true
    /\ face_match (detection u) (detection v) = true
    /\ above v u.
Proof.
  intros Hnd Hrun Hu Hgone.
  destruct (Store.get_sort_users f (Func.db st)) as [|u0 us] eqn:Husers.
  { rewrite sweep_raises_on_nothing in Hrun by exact Husers. discriminate. }
  rewrite sweep_runs in Hrun by (rewrite Husers; discriminate).
  rewrite Husers in Hrun. injection Hrun as <-. cbn [Func.db] in *.
  set (users := u0 :: us) in *.
  set (dels := fst (swept face_match (length users) 0 (map row users))) in *.
  rewrite delete_authors_users in *.
  assert (Hdel : In (author u) dels).
  { destruct (absent dels (author u)) eqn:Hab.
    - exfalso. apply Hgone. apply filter_In. auto.
    - unfold absent in Hab. apply not_true_iff_false in Hab.
      rewrite forallb_forall in Hab.
      destruct (in_dec String.string_dec (author u) dels) as [|Hout]; [assumption|].
      exfalso. apply Hab. intros d Hd. apply negb_true_iff, String.eqb_neq.
      intros Heq. subst d. auto. }
  assert (Hsubset : forall x, In x users -> In x (Store.users (Func.db st))
                                           /\ Store.satisfies f x = true).
  { intros x Hx. rewrite <- Husers in Hx. unfold Store.get_sort_users in Hx.
    apply list_elem_of_In in Hx. rewrite sort_desc_perm in Hx.
    apply list_elem_of_In, filter_In in Hx. exact Hx. }
  assert (Hkeys : NoDup (map fst (map row users))).
  { rewrite map_map. change (fun x => fst (row x)) with author.
    change (NoDup (author <$> users)). rewrite <- Husers.
    unfold Store.get_sort_users. rewrite sort_desc_perm.
    refine (sublist_NoDup _ _ Hnd _). apply (fmap_sublist author), filter_sublist. }
  destruct (swept_matched (length users) 0 (map row users) (author u) Hkeys Hdel)
    as (h & r & Hsub & Hr & Hm & Hsurv).
  destruct (sublist_rows users h r Hsub) as (v & u' & -> & -> & Hvu).
  assert (Hv : In v users).
  { apply list_elem_of_In. eapply elem_of_sublist; [|exact Hvu]; left. }
  assert (Hu' : In u' users).
  { apply list_elem_of_In. eapply elem_of_sublist; [|exact Hvu]; right; left. }
  assert (u' = u).
  { apply (keyed_agree author (Store.users (Func.db st))); auto. apply Hsubset, Hu'. }
  subst u'. simpl in Hm, Hsurv.
  exists v. repeat split.
  - apply filter_In. split; [apply Hsubset, Hv|].
    unfold absent. apply forallb_forall. intros d Hd.
    apply negb_true_iff, String.eqb_neq. intros Heq. subst d. auto.
  - apply Hsubset, Hv.
  - exact Hm.
  - eapply sorted_sublist_above; [|exact Hvu]. subst users. rewrite <- Husers.
    apply sort_desc_sorted.
Qed.

Lemma swept_dels_in_query f st a :
  let users := Store.get_sort_users f (Func.db st) in
  In a (fst (swept face_match (length users) 0 (map row users))) ->
  exists u, In u (tail users) /\ author u = a.
Proof.
  intros users Hin. apply swept_deletes_later in Hin as (r & Hr & Ha).
  change (0 + 1) with 1 in Hr. rewrite skipn_map in Hr.
  apply in_map_iff in Hr as (u & <- & Hu). exists u.
  destruct users; simpl in *; [contradiction|]. rewrite drop_0 in Hu. auto.
Qed.

Lemma absent_false dels a : absent dels a = false -> In a dels.
Proof.
  intros Hab. destruct (in_dec String.string_dec a dels) as [|Hout]; [assumption|].
  exfalso. apply not_true_iff_false in Hab. apply Hab.
  unfold absent. apply forallb_forall. intros d Hd.
  apply negb_true_iff, String.eqb_neq. intros Heq. subst d. auto.
Qed.

Lemma query_in_store f s u :
  In u (Store.get_sort_users f s) <-> In u (Store.users s) /\ Store.satisfies f u = true.
Proof.
  unfold Store.get_sort_users. rewrite <- list_elem_of_In, sort_desc_perm, list_elem_of_In.
  apply filter_In.
Qed.

Lemma query_keys f s :
  NoDup (map author (Store.users s)) -> NoDup (map author (Store.get_sort_users f s)).
Proof.
  intros Hnd. change (NoDup (author <$> Store.get_sort_users f s)).
  unfold Store.get_sort_users. rewrite sort_desc_perm.
  refine (sublist_NoDup _ _ Hnd _). apply (fmap_sublist author), filter_sublist.
Qed.

(** X17. With unique author ids, a sweep that returns removes no
    record outside its query: the deletions go by author id alone, and no
    record of another system has the id of a record of the query. *)
Theorem sweep_spares_other_records
    (f : Store.user_filter) (st st' : Func.state) (u : User) :
  NoDup (map author (Store.users (Func.db st))) ->
  Func.remove_users_duplicate_detection face_match f st = Some (st', Return tt) ->
  In u (Store.users (Func.db st)) ->
  Store.satisfies f u = false ->
  In u (Store.users (Func.db st')).
Proof.
  intros Hnd Hrun Hu Hout.
  destruct (Store.get_sort_users f (Func.db st)) as [|u0 us] eqn:Husers.
  { rewrite sweep_raises_on_nothing in Hrun by exact Husers. discriminate. }
  rewrite sweep_runs in Hrun by (rewrite Husers; discriminate).
  injection Hrun as <-. cbn [Func.db]. rewrite delete_authors_users.
  apply filter_In. split; [exact Hu|].
  destruct (absent _ (author u)) eqn:Hab; [reflexivity|]. exfalso.
  apply absent_false, swept_dels_in_query in Hab as (u' & Hu' & Ha).
  assert (Hq : In u' (Store.get_sort_users f (Func.db st))).
  { destruct (Store.get_sort_users f (Func.db st)); simpl in *; auto. }
  apply query_in_store in Hq as [Hin Hsat].
  assert (u' = u) by (apply (keyed_agree author (Store.users (Func.db st))); auto).
  subst u'. congruence.
Qed.

(** X18. With unique author ids, a sweep that returns keeps the first
    record of its sorted query, which is at least as frequent as every
    record of the query. *)
Theorem sweep_keeps_the_most_frequent
    (f : Store.user_filter) (st st' : Func.state) :
  NoDup (map author (Store.users (Func.db st))) ->
  Func.remove_users_duplicate_detection face_match f st = Some (st', Return tt) ->
  exists top,
    head (Store.get_sort_users f (Func.db st)) = Some top
    /\ In top (Store.users (Func.db st'))
    /\ forall u, In u (Store.users (Func.db st)) -> Store.satisfies f u = true -> above top u.
Proof.
  intros Hnd Hrun.
  pose proof (query_keys f (Func.db st) Hnd) as Hkeys.
  pose proof (sort_desc_sorted (List.filter (Store.satisfies f) (Store.users (Func.db st))))
    as Hsorted. fold (Store.get_sort_users f (Func.db st)) in Hsorted.
  pose proof (query_in_store f (Func.db st)) as Hquery.
  pose proof (swept_dels_in_query f st) as Hdels. cbv zeta in Hdels.
  destruct (Store.get_sort_users f (Func.db st)) as [|top us] eqn:Husers.
  { rewrite sweep_raises_on_nothing in Hrun by exact Husers. discriminate. }
  rewrite sweep_runs in Hrun by (rewrite Husers; discriminate).
  rewrite Husers in Hrun. injection Hrun as <-. cbn [Func.db]. rewrite delete_authors_users.
  exists top. split; [reflexivity|]. split.
  - apply filter_In. split; [apply Hquery; left; reflexivity|].
    destruct (absent _ (author top)) eqn:Hab; [reflexivity|]. exfalso.
    apply absent_false, Hdels in Hab as (u' & Hu' & Ha). simpl in Hu', Hkeys.
    apply NoDup_cons in Hkeys as [Hnot _]. apply Hnot. rewrite <- Ha.
    apply list_elem_of_In, in_map, Hu'.
  - intros u Hu Hsat. assert (Hin : In u (top :: us)) by (apply Hquery; auto).
    destruct Hin as [<-|Hin].
    + unfold above. apply Qle_bool_iff, Qle_refl.
    + inversion Hsorted as [|? ? _ Hall]; subst. rewrite Forall_forall in Hall.
      apply Hall, list_elem_of_In, Hin.
Qed.

End SweepSafety.

(** ** Loading *)

Section Loading.

Variable face_match : Encoding -> Encoding -> bool.
Variable get_system : VK.t -> option VK.System.
Variable insert_system : VK.t -> option VK.System.

Local Abbreviation preload := (VK.__preload face_match get_system insert_system).

(** What [insert_known_users] does. *)
Lemma insert_known_users_cases w :
  VK.insert_known_users w =
  match Store.get_users (Store.BySystemKnowledge (VK.id (VK.self w)) true) (VK.db_users w) with
  | [] => (w, Return tt)
  | u :: us =>
    (VK.set_self (VK.set_detector_knows
                    (mkDetector (map author (u :: us)) (map detection (u :: us)))
                    (VK.self w)) w,
     Return tt)
  end.
Proof.
  unfold VK.insert_known_users, VK.try, VK.bind at 1, VK.get.
  unfold VK.bind at 1, VK.get_users, VK.bind at 1, VK.get.
  destruct (Store.get_users _ _) as [|u us]; [reflexivity|].
  destruct w as [[] ? ? ? ? ? ? ?]. reflexivity.
Qed.

Lemma insert_unknown_users_cases w :
  VK.insert_unknown_users w =
  match Store.get_users (Store.BySystemKnowledge (VK.id (VK.self w)) false) (VK.db_users w) with
  | [] => (w, Return tt)
  | u :: us =>
    (VK.set_self (VK.set_detector_unknows
                    (mkDetector (map author (u :: us)) (map detection (u :: us)))
                    (VK.self w)) w,
     Return tt)
  end.
Proof.
  unfold VK.insert_unknown_users, VK.try, VK.bind at 1, VK.get.
  unfold VK.bind at 1, VK.get_users, VK.bind at 1, VK.get.
  destruct (Store.get_users _ _) as [|u us]; [reflexivity|].
  destruct w as [[] ? ? ? ? ? ? ?]. reflexivity.
Qed.


Lemma insert_known_users_id w :
  VK.id (VK.self (fst (VK.insert_known_users w))) = VK.id (VK.self w)
  /\ snd (VK.insert_known_users w) = Return tt.
Proof.
  rewrite insert_known_users_cases. destruct (Store.get_users _ _); [auto|].
  destruct w as [[] ? ? ? ? ? ? ?]. auto.
Qed.

Lemma insert_unknown_users_id w :
  VK.id (VK.self (fst (VK.insert_unknown_users w))) = VK.id (VK.self w)
  /\ snd (VK.insert_unknown_users w) = Return tt.
Proof.
  rewrite insert_unknown_users_cases. destruct (Store.get_users _ _); [auto|].
  destruct w as [[] ? ? ? ? ? ? ?]. auto.
Qed.

Lemma remove_duplicates_cases w :
  let users := Store.get_sort_users (Store.BySystem (VK.id (VK.self w))) (VK.db_users w) in
  VK.remove_duplicates face_match w =
  match users with
  | [] => (w, Raise (ValueError "not enough values to unpack (expected 2, got 0)"))
  | _ :: _ =>
    (VK.set_db_users
       (Func.delete_authors (fst (swept face_match (length users) 0 (map row users)))
          (VK.db_users w)) w,
     Return tt)
  end.
Proof.
  intros users. unfold VK.remove_duplicates.
  destruct users as [|u us] eqn:Hu; subst users.
  - rewrite sweep_raises_on_nothing by exact Hu. destruct w. reflexivity.
  - rewrite sweep_runs by (cbn [Func.db]; rewrite Hu; discriminate).
    cbn [Func.db]. rewrite Hu. reflexivity.
Qed.

(** What [__preload] comes to. *)
Lemma preload_cases (w : VK.world) :
  match (match get_system (VK.self w) with
         | Some system => Some system
         | None => insert_system (VK.self w)
         end) with
  | None => preload w = (w, Raise SystemNotFoundError)
  | Some system =>
    VK.id (VK.self (fst (preload w))) = Some (VK.sys_id system)
    /\ if VK.remove_duplicate (VK.self w)
          && bool_decide (Store.get_sort_users (Store.BySystem (Some (VK.sys_id system)))
                            (VK.db_users w) = [])
       then preload w
            = (VK.set_self (VK.__insert_system system (VK.self w)) w,
               Raise (ValueError "not enough values to unpack (expected 2, got 0)"))
       else snd (preload w) = Return tt
  end.
Proof.
  assert (Hstep : forall system,
    (match get_system (VK.self w) with
     | Some system => Some system
     | None => insert_system (VK.self w)
     end) = Some system ->
    preload w
    = let w1 := VK.set_self (VK.__insert_system system (VK.self w)) w in
      match (if VK.remove_duplicate (VK.self w)
             then VK.remove_duplicates face_match w1 else (w1, Return tt)) with
      | (w2, Return _) =>
        match VK.insert_known_users w2 with
        | (w3, Return _) => VK.insert_unknown_users w3
        | (w3, Raise e) => (w3, Raise e)
        end
      | (w2, Raise e) => (w2, Raise e)
      end).
  { intros system Hsys.
    unfold VK.__preload, VK.bind, VK.get, VK.modify_self, VK.modify, VK.ret, VK.raise.
    cbv beta iota zeta.
    destruct (get_system (VK.self w)) as [s0|].
    - injection Hsys as ->. cbv beta iota zeta.
      destruct w as [[? ? ? ? ? ? ? ? ? ? ? ? rd ? ? ? ? ?] ? ? ? ? ? ? ?].
      destruct rd; reflexivity.
    - rewrite Hsys. cbv beta iota zeta.
      destruct w as [[? ? ? ? ? ? ? ? ? ? ? ? rd ? ? ? ? ?] ? ? ? ? ? ? ?].
      destruct rd; reflexivity. }
  destruct (match get_system (VK.self w) with
            | Some system => Some system
            | None => insert_system (VK.self w)
            end) as [system|] eqn:Hsys.
  2:{ unfold VK.__preload, VK.bind, VK.get. cbv beta iota zeta.
      destruct (get_system (VK.self w)); [discriminate|]. rewrite Hsys. reflexivity. }
  rewrite (Hstep system eq_refl). cbv zeta.
  set (w1 := VK.set_self (VK.__insert_system system (VK.self w)) w).
  assert (Hid1 : VK.id (VK.self w1) = Some (VK.sys_id system)).
  { subst w1. destruct w as [[] ? ? ? ? ? ? ?]. reflexivity. }
  assert (Hdb1 : VK.db_users w1 = VK.db_users w).
  { subst w1. destruct w as [[] ? ? ? ? ? ? ?]. reflexivity. }
  assert (Hloads : forall w2, VK.id (VK.self w2) = Some (VK.sys_id system) ->
    VK.id (VK.self (fst (match VK.insert_known_users w2 with
                         | (w3, Return _) => VK.insert_unknown_users w3
                         | (w3, Raise e) => (w3, Raise e)
                         end))) = Some (VK.sys_id system)
    /\ snd (match VK.insert_known_users w2 with
            | (w3, Return _) => VK.insert_unknown_users w3
            | (w3, Raise e) => (w3, Raise e)
            end) = Return tt).
  { intros w2 Hid2. destruct (insert_known_users_id w2) as [Hk Hkr].
    destruct (VK.insert_known_users w2) as [w3 [[]|e]]; [|discriminate].
    cbn [fst] in Hk. destruct (insert_unknown_users_id w3) as [Hu Hur].
    rewrite Hu, Hk. auto. }
  destruct (VK.remove_duplicate (VK.self w)) eqn:Hrd; cbn [andb].
  - pose proof (remove_duplicates_cases w1) as Hsweep. cbv zeta in Hsweep.
    rewrite Hid1, Hdb1 in Hsweep. rewrite Hsweep.
    destruct (Store.get_sort_users _ _) as [|u us] eqn:Hu.
    + rewrite bool_decide_eq_true_2 by reflexivity. auto.
    + rewrite bool_decide_eq_false_2 by discriminate.
      apply Hloads. destruct w1 as [[] ? ? ? ? ? ? ?]. exact Hid1.
  - apply Hloads. exact Hid1.
Qed.



(** X21. A start on a store without users of the system, with
    duplicates to be removed: [start] raises the ValueError of the sweep,
    whatever the batch size is, before a frame is pulled or a set loaded;
    the instance has taken the fields of the system. *)
Theorem start_raises_on_an_empty_store
    (get_encodings : VK.Image -> outcome VK.Faces) (clock : nat -> Date)
    (uuid4 : nat -> string) (receiver_get : nat -> VK.Image)
    (n : nat) (w : VK.world) (system : VK.System) :
  (match get_system (VK.self w) with
   | Some system => Some system
   | None => insert_system (VK.self w)
   end) = Some system ->
  VK.remove_duplicate (VK.self w) = true ->
  Store.get_sort_users (Store.BySystem (Some (VK.sys_id system))) (VK.db_users w) = [] ->
  VK.start face_match get_encodings get_system insert_system clock uuid4 receiver_get n w
  = (VK.set_self (VK.__insert_system system (VK.self w)) w,
     Raise (ValueError "not enough values to unpack (expected 2, got 0)")).
Proof.
  intros Hsys Hrd Hempty. rewrite start_cases.
  pose proof (preload_cases w) as Hpre. rewrite Hsys, Hrd, Hempty in Hpre.
  rewrite bool_decide_eq_true_2 in Hpre by reflexivity.
  destruct Hpre as [_ ->]. reflexivity.
Qed.

End Loading.

(** ** The earlier class *)

Section LegacyFacts.

Variable uuid4 : string.
Variable DATE_FORMAT : Legacy.pyvalue.
Variable COLLECTIONS : string -> Legacy.pyvalue.
Variable SystemDB : Legacy.pyvalue -> Legacy.pyvalue -> Legacy.pyvalue -> Legacy.pyvalue.
Variable UserDB : Legacy.pyvalue -> Legacy.pyvalue -> Legacy.pyvalue -> Legacy.pyvalue.

Local Abbreviation init := (Legacy.__init__ uuid4 DATE_FORMAT COLLECTIONS SystemDB UserDB).

Lemma setattr_settled name v self :
  name <> "created_on" -> settled self -> settled (Legacy.setattr name v self).
Proof.
  intros Hname [Hset Hnot]. split.
  - eapply Forall_impl; [exact Hset|]. intros k Hk. unfold Legacy.setattr. cbv beta in *.
    destruct (decide (name = k)) as [->|Hne].
    + rewrite lookup_insert_eq. eauto.
    + rewrite lookup_insert_ne by exact Hne. exact Hk.
  - unfold Legacy.setattr. rewrite lookup_insert_ne by exact Hname. exact Hnot.
Qed.

Lemma init_settled a : settled (init a).
Proof.
  split.
  - unfold Legacy.__init__, Legacy.assign, Legacy.setattr. cbn [foldl fst snd].
    repeat constructor;
      repeat (first [ rewrite lookup_insert_eq; eauto; fail
                    | rewrite lookup_insert_ne by discriminate ]).
  - unfold Legacy.__init__, Legacy.assign, Legacy.setattr. cbn [foldl fst snd].
    repeat rewrite lookup_insert_ne by discriminate. apply lookup_empty.
Qed.

Lemma or_attribute_settled v name self :
  is_Some (self !! name) ->
  exists v', Legacy.or_attribute v name self = Return v'.
Proof.
  intros [x Hx]. unfold Legacy.or_attribute, Legacy.getattr. rewrite Hx.
  destruct v; eauto.
Qed.

Lemma set_conf_settled c self :
  settled self -> exists self', Legacy.set_conf c self = Return self' /\ settled self'.
Proof.
  intros Hs. unfold Legacy.set_conf, Legacy.assign. cbn [foldl fst snd].
  set (s1 := Legacy.setattr "stream_fps" _ _).
  assert (H1 : settled s1).
  { subst s1. repeat (apply setattr_settled; [discriminate|]). exact Hs. }
  destruct (or_attribute_settled (Legacy.arg_display_size c) "display_size" s1) as [v1 ->].
  { destruct H1 as [H1 _]. rewrite Forall_forall in H1. apply H1.
    repeat (first [left; reflexivity | right]). }
  set (s2 := Legacy.setattr "display_size" v1 s1).
  assert (H2 : settled s2) by (apply setattr_settled; [discriminate|exact H1]).
  destruct (or_attribute_settled (Legacy.arg_date_format c) "date_format" s2) as [v2 ->].
  { destruct H2 as [H2 _]. rewrite Forall_forall in H2. apply H2.
    repeat (first [left; reflexivity | right]). }
  set (s3 := Legacy.setattr "date_format" v2 s2).
  assert (H3 : settled s3) by (apply setattr_settled; [discriminate|exact H2]).
  destruct (or_attribute_settled (Legacy.arg_draw_label c) "draw_label" s3) as [v3 ->].
  { destruct H3 as [H3 _]. rewrite Forall_forall in H3. apply H3.
    repeat (first [left; reflexivity | right]). }
  eexists. split; [reflexivity|]. apply setattr_settled; [discriminate|exact H3].
Qed.

Lemma get_obj_settled self :
  settled self -> Legacy.get_obj self = Raise (AttributeError "created_on").
Proof.
  intros [Hset Hnot]. unfold Legacy.get_obj. cbn [Legacy.read]. unfold Legacy.getattr.
  repeat match type of Hset with
         | Forall _ (_ :: _) =>
           let H := fresh "H" in
           apply Forall_cons in Hset as [[? H] Hset]; try rewrite H
         end.
  rewrite Hnot. reflexivity.
Qed.

(** X22. On an instance of the earlier class, built by [__init__] and
    configured by any number of calls of [set_conf], every such call
    returns, and [get_obj] raises AttributeError for [created_on]: no method
    of the class assigns that attribute. *)
Theorem legacy_get_obj_raises (a : Legacy.init_args) (confs : list Legacy.conf_args) :
  exists self,
    Legacy.configured confs (init a) = Return self
    /\ Legacy.get_obj self = Raise (AttributeError "created_on").
Proof.
  pose proof (init_settled a) as Hs. revert Hs. generalize (init a).
  induction confs as [|c confs IH]; intros self Hs; cbn [Legacy.configured].
  - exists self. split; [reflexivity|apply get_obj_settled, Hs].
  - destruct (set_conf_settled c self Hs) as (self' & -> & Hs'). apply IH, Hs'.
Qed.

End LegacyFacts.

(** ** The added properties on the examples *)

(** X2 on the example: two dicts are taken, the first one first. *)
Lemma get_drains_oldest_first_witness :
  let '(queue', s', o) :=
    Queues.async_queue_object_get Sample.waiting Sample.collect [] in
  Queues.items queue' = []
  /\ s' = foldl (fun s d => fst (Sample.collect s d)) [] (Queues.items Sample.waiting)
  /\ match Queues.unfinished_tasks Sample.waiting with
     | 0 => o = Raise (ValueError "task_done() called too many times")
            /\ Queues.unfinished_tasks queue' = 0
     | S n => o = Return tt /\ Queues.unfinished_tasks queue' = n
     end.
Proof.
  apply (get_drains_oldest_first Sample.waiting Sample.collect []).
  repeat constructor.
Defined.

(** X3 on the example: the dict without a system is lost, the one after
    it still waits. *)
Lemma get_stops_at_a_raising_callback_witness :
  Queues.async_queue_object_get
    (Queues.mkQueue ([Sample.camera 1] ++ ∅ :: [Sample.camera 2]) 3) Sample.picky []
  = (Queues.mkQueue [Sample.camera 2] 3,
     fst (Sample.picky (foldl (fun s d => fst (Sample.picky s d)) [] [Sample.camera 1]) ∅),
     Raise (ValueError "no system")).
Proof.
  apply (get_stops_at_a_raising_callback [Sample.camera 1] [Sample.camera 2] ∅ 3
           Sample.picky [] (ValueError "no system")).
  - repeat constructor.
  - reflexivity.
Defined.

(** X4 on the example: two objects, cut down to the system. *)
Lemma put_then_get_witness :
  let '(queue1, o1) :=
    Queues.async_queue_object_put Sample.objects ["system"] (Queues.mkQueue [] 0) in
  let '(queue2, s', o2) := Queues.async_queue_object_get queue1 Sample.collect [] in
  s' = foldl (fun s obj => fst (Sample.collect s (Queues.pick ["system"] obj))) []
             Sample.objects
  /\ Queues.items queue2 = []
  /\ (o1 = Return tt <-> 1 <= length Sample.objects)
  /\ (o2 = Return tt <-> 2 <= length Sample.objects).
Proof.
  apply (put_then_get Sample.objects ["system"] Sample.collect []).
  intros s d. reflexivity.
Defined.

(** X5 on the example: a face no one has the embedding of. *)
Lemma sampled_stranger_is_enrolled_witness :
  VK.new_users
    (VK.self (fst (VK.detect_face Example.same_face Example.clock Example.uuid4
                     (Example.frame 1) Sample.stranger Example.guarded)))
  = [mkUser None [3%Q] [] "id-0" 100%Z 101%Z false 0 None].
Proof.
  pose proof (sampled_stranger_is_enrolled Example.same_face Example.clock Example.uuid4
                Example.guarded (Example.frame 1) (0, 10, 10, 0)%Z [3%Q]
                eq_refl ltac:(discriminate) eq_refl eq_refl) as (_ & H & _).
  exact H.
Defined.

(** X6 on the example: a face with the embedding of the newcomer. *)
Lemma recurring_stranger_is_queued_witness :
  exists i a k,
    authors (VK.detector_unknows (VK.self Example.guarded)) !! i = Some a
    /\ encodings (VK.detector_unknows (VK.self Example.guarded)) !! i = Some k
    /\ Example.same_face k [2%Q] = true
    /\ (forall j k', j < i ->
          encodings (VK.detector_unknows (VK.self Example.guarded)) !! j = Some k' ->
          Example.same_face k' [2%Q] = false)
    /\ VK.detect_face Example.same_face Example.clock Example.uuid4
         (Example.frame 1) Sample.returning Example.guarded
       = (VK.set_self
            (VK.set_evaluate_users (VK.evaluate_users (VK.self Example.guarded) ++ [a])
               (VK.self Example.guarded)) Example.guarded,
          Return (VK.draw_frame (VK.self Example.guarded) (Example.frame 1) "desconocido"
                    (0, 10, 10, 0)%Z VK.unknown_color)).
Proof.
  apply (recurring_stranger_is_queued Example.same_face Example.clock Example.uuid4
           Example.guarded (Example.frame 1) (0, 10, 10, 0)%Z [2%Q]).
  - reflexivity.
  - discriminate.
  - reflexivity.
  - reflexivity.
  - reflexivity.
Defined.

(** X8 on the example: a frame with the two faces. *)
Lemma classification_returns_witness :
  is_return
    (snd (VK.detect_type_user Example.same_face Example.clock Example.uuid4 (Example.frame 1)
            (Return ([fst Sample.stranger; fst Sample.returning],
                     [snd Sample.stranger; snd Sample.returning]))
            Example.guarded)) = true.
Proof.
  apply (classification_returns Example.same_face Example.clock Example.uuid4).
  - discriminate.
  - reflexivity.
Defined.

(** X15 on the example: the second batch of the guarded world. *)
Lemma unsampled_batch_enqueues_nothing_witness :
  let w' := fst (VK.start_step Example.same_face Example.faces_of Example.clock Example.uuid4
                   Example.frame Sample.second_batch) in
  VK.new_users (VK.self w') = VK.new_users (VK.self Sample.second_batch)
  /\ VK.evaluate_users (VK.self w') = VK.evaluate_users (VK.self Sample.second_batch)
  /\ VK.uuids_drawn w' = VK.uuids_drawn Sample.second_batch
  /\ VK.clock_reads w' = VK.clock_reads Sample.second_batch
  /\ VK.batch_processed (VK.self w')
     = (VK.batch_processed (VK.self Sample.second_batch) + 1)%Z.
Proof.
  apply (unsampled_batch_enqueues_nothing Example.same_face Example.faces_of Example.clock
           Example.uuid4 Example.frame Sample.second_batch).
  - discriminate.
  - reflexivity.
Defined.

(** X9 on the example: the new identity of the queued world. *)
Lemma ingestion_stores_and_indexes_witness :
  Store.users (VK.db_users (fst (VK.add_new_users_step (Some 1) Example.queued)))
  = [Example.regular; Example.newcomer; Example.user "fresh" 3%Q 100%Z 100%Z 0%Q].
Proof.
  pose proof (ingestion_stores_and_indexes (Some 1) Example.queued
                (Example.user "fresh" 3%Q 100%Z 100%Z 0%Q) [] eq_refl) as (_ & _ & H & _).
  exact H.
Defined.

(** X10 on the example: the new identity is taken in, then seen again. *)
Lemma ingested_face_recurs_witness :
  let w1 := fst (VK.add_new_users_step (Some 1) Example.queued) in
  let w2 := fst (VK.detect_face Example.same_face Example.clock Example.uuid4
                   (Example.frame 1) Sample.stranger w1) in
  VK.evaluate_users (VK.self w2) = ["regular"; "fresh"]
  /\ VK.new_users (VK.self w2) = [].
Proof.
  apply (ingested_face_recurs Example.same_face Example.clock Example.uuid4 (Some 1)
           Example.queued (Example.user "fresh" 3%Q 100%Z 100%Z 0%Q) [] (Example.frame 1)
           (0, 10, 10, 0)%Z [3%Q]).
  - reflexivity.
  - reflexivity.
  - reflexivity.
  - discriminate.
  - reflexivity.
  - intros k [<-|[]]. reflexivity.
  - intros k [<-|[]]. reflexivity.
  - reflexivity.
Defined.

(** X23 on the example: the wide record is taken in without its
    embedding, and its face is given a second identity. *)
Lemma refused_embedding_is_enrolled_again_witness :
  let w1 := fst (VK.add_new_users_step (Some 1) Sample.wide_queued) in
  let w2 := fst (VK.detect_face Example.same_face Example.clock Example.uuid4
                   (Example.frame 1) ((0, 10, 10, 0)%Z, [3%Q; 4%Q]) w1) in
  authors (VK.detector_unknows (VK.self w1)) = ["newcomer"; "wide"]
  /\ encodings (VK.detector_unknows (VK.self w1)) = [[2%Q]]
  /\ VK.new_users (VK.self w2)
     = [mkUser None [3%Q; 4%Q] [] "id-0" 100%Z 101%Z false 0 None].
Proof.
  pose proof (refused_embedding_is_enrolled_again Example.same_face Example.clock
                Example.uuid4 (Some 1) Sample.wide_queued Sample.wide []
                (Example.frame 1) (0, 10, 10, 0)%Z [3%Q; 4%Q]) as H.
  destruct H as (_ & _ & He & Hq & _).
  - reflexivity.
  - discriminate.
  - discriminate.
  - reflexivity.
  - intros k [<-|[]]. reflexivity.
  - intros k [<-|[]]. reflexivity.
  - split; [reflexivity|]. split; [exact He|exact Hq].
Defined.


(** X24 on the example: the wide record is due, and its embedding is
    refused. *)
Lemma refused_promotion_is_not_known_witness :
  let w' := fst (VK.evaluate_detections_step Example.days_so_far Example.share Example.clock
                   (Some 1) Sample.wide_due) in
  authors (VK.detector_knows (VK.self w')) = ["regular"; "wide"]
  /\ encodings (VK.detector_knows (VK.self w')) = [[1%Q]]
  /\ Np.any (compare Example.same_face (VK.detector_knows (VK.self w')) [3%Q; 4%Q]) = false.
Proof.
  pose proof (refused_promotion_is_not_known Example.same_face Example.days_so_far
                Example.share Example.clock (Some 1) Sample.wide_due "wide" [] Sample.wide
                [3%Q; 4%Q]) as H.
  destruct H as (_ & Ha & He & _ & Hn).
  - reflexivity.
  - reflexivity.
  - reflexivity.
  - discriminate.
  - intros k [<-|[]]. reflexivity.
  - split; [exact Ha|]. split; [exact He|exact Hn].
Defined.

(** X12 on the example: an id the store does not hold. *)
Lemma unknown_id_is_logged_witness :
  VK.logged (fst (VK.evaluate_detections_step Example.days_so_far Example.share Example.clock
                    (Some 1) Sample.haunted))
  = [VK.Message "Error user not found in BD";
     VK.Caught "error evaluating user" (AttributeError "knowledge")].
Proof.
  pose proof (unknown_id_is_logged Example.days_so_far Example.share Example.clock (Some 1)
                Sample.haunted "ghost" [] eq_refl eq_refl) as (_ & _ & _ & H).
  exact H.
Defined.

(** X16 on the example: of the pair, the less frequent record goes and
    the other one stays. *)
Lemma sweep_keeps_a_match_witness :
  exists v,
    In v [Example.user "hi" 1%Q 90%Z 99%Z 5%Q]
    /\ Store.satisfies Example.door v = true
    /\ Example.same_face (detection (Example.user "lo" 1%Q 90%Z 99%Z 2%Q)) (detection v) = true
    /\ above v (Example.user "lo" 1%Q 90%Z 99%Z 2%Q).
Proof.
  apply (sweep_keeps_a_match Example.same_face Example.door (Example.sweep_of Example.pair)
           (Func.mkState (detector_of [])
              (Store.delete_user (Store.ByAuthor "lo")
                 (Func.db (Example.sweep_of Example.pair))))
           (Example.user "lo" 1%Q 90%Z 99%Z 2%Q)).
  - refine (bool_decide_unpack _ _). vm_compute. exact I.
  - vm_compute. reflexivity.
  - left. reflexivity.
  - intros [H|[]]. discriminate H.
Defined.

(** X17 on the example: the record of the other system stays. *)
Lemma sweep_spares_other_records_witness :
  In Sample.elsewhere
     (Store.users (Store.delete_user (Store.ByAuthor "lo")
                     (Func.db (Example.sweep_of Sample.mixed)))).
Proof.
  apply (sweep_spares_other_records Example.same_face Example.door
           (Example.sweep_of Sample.mixed)
           (Func.mkState (detector_of [])
              (Store.delete_user (Store.ByAuthor "lo")
                 (Func.db (Example.sweep_of Sample.mixed))))
           Sample.elsewhere).
  - refine (bool_decide_unpack _ _). vm_compute. exact I.
  - vm_compute. reflexivity.
  - right. right. left. reflexivity.
  - reflexivity.
Defined.

(** X18 on the example: of the pair, the more frequent record stays. *)
Lemma sweep_keeps_the_most_frequent_witness :
  exists top,
    head (Store.get_sort_users Example.door (Func.db (Example.sweep_of Example.pair)))
    = Some top
    /\ In top [Example.user "hi" 1%Q 90%Z 99%Z 5%Q]
    /\ forall u, In u (Store.users (Func.db (Example.sweep_of Example.pair))) ->
                 Store.satisfies Example.door u = true -> above top u.
Proof.
  apply (sweep_keeps_the_most_frequent Example.same_face Example.door
           (Example.sweep_of Example.pair)
           (Func.mkState (detector_of [])
              (Store.delete_user (Store.ByAuthor "lo")
                 (Func.db (Example.sweep_of Example.pair))))).
  - refine (bool_decide_unpack _ _). vm_compute. exact I.
  - vm_compute. reflexivity.
Defined.

(** X21 on the example: a first start on a store without users. *)
Lemma start_raises_on_an_empty_store_witness :
  VK.start Example.same_face Example.faces_of Example.get_system Example.insert_system
    Example.clock Example.uuid4 Example.frame 3 Sample.first_start
  = (VK.set_self (VK.__insert_system Example.system (VK.self Sample.first_start))
       Sample.first_start,
     Raise (ValueError "not enough values to unpack (expected 2, got 0)")).
Proof.
  apply (start_raises_on_an_empty_store Example.same_face Example.get_system
           Example.insert_system Example.faces_of Example.clock Example.uuid4 Example.frame
           3 Sample.first_start Example.system).
  - reflexivity.
  - reflexivity.
  - reflexivity.
Defined.
